(** * VisionNote AI front end (frontend/src/App.jsx)

    A shallow embedding of the React component [App]: the HTML note parser
    [parseNotesContent], the paginated layout of [generatePDF], and the event
    handlers [handleFileChange], [handleSubmit], [removeFile] and
    [handleDownload], followed by the properties the specification states
    about them.

    Conventions of the embedding.
    - A JavaScript string is a [string]: the bytes of its UTF-8 encoding
      (the strings of the program are well-formed text).  White space,
      for [trim] and for the class [\s], is the full ECMAScript set of
      WhiteSpace and LineTerminator characters, each recognised by its
      UTF-8 bytes.  [toLowerCase] is the case mapping of ASCII.
    - A JavaScript number holding a count, a size or the layout cursor is an
      integer ([nat], [N], [Z]); the page size that jsPDF reports is a
      rational ([Q]), since an A4 page is 595.28 x 841.89 pt.
    - A call into the host (DOMParser, jsPDF, axios) that may throw returns
      a [result]; [try]/[catch] is a [match] on it.
    - Browser effects (requests, object URLs, opened windows, downloads) are
      appended to the [log] of a [World] that is threaded through handlers. *)

From Stdlib Require Import String Ascii List ZArith QArith Lia Lqa Bool.
From Stdlib Require Import DecimalString.
From Stdlib Require DecimalNat DecimalFacts.
Import ListNotations.
Open Scope string_scope.

Set Implicit Arguments.

(** ** JavaScript primitives *)

Module JS.

(** Exceptions.  [AxiosError d] is a rejected axios promise, [d] being
    [err.response?.data?.error]; [JsError m] is any other thrown value. *)
Inductive exn : Type :=
| AxiosError (response_data_error : option string)
| JsError (message : string).

Inductive result (A : Type) : Type :=
| Ok (a : A)
| Throw (e : exn).
Arguments Ok {A} a.
Arguments Throw {A} e.

Definition bind {A B : Type} (r : result A) (k : A -> result B) : result B :=
  match r with
  | Ok a => k a
  | Throw e => Throw e
  end.

Definition LF : ascii := "010"%char.
Definition newline : string := String LF "".

(** A string given by its bytes. *)
Definition ofBytes (l : list nat) : string :=
  string_of_list_ascii (map ascii_of_nat l).

(** White space of [String.prototype.trim] and of the class [\s]: the
    ECMAScript WhiteSpace and LineTerminator characters, each as its UTF-8
    bytes.  TAB, LF, VT, FF, CR, SPACE; U+00A0; U+1680; U+2000 to U+200A;
    U+2028, U+2029; U+202F; U+205F; U+3000; U+FEFF. *)
Definition whiteSpaceChars : list string :=
  map ofBytes
    [ [9]; [10]; [11]; [12]; [13]; [32];
      [194; 160];
      [225; 154; 128];
      [226; 128; 128]; [226; 128; 129]; [226; 128; 130]; [226; 128; 131];
      [226; 128; 132]; [226; 128; 133]; [226; 128; 134]; [226; 128; 135];
      [226; 128; 136]; [226; 128; 137]; [226; 128; 138];
      [226; 128; 168]; [226; 128; 169];
      [226; 128; 175];
      [226; 129; 159];
      [227; 128; 128];
      [239; 187; 191] ]%nat.

Fixpoint startsWith (p s : string) : bool :=
  match p with
  | EmptyString => true
  | String a p' =>
      match s with
      | String b s' => Ascii.eqb a b && startsWith p' s'
      | EmptyString => false
      end
  end.

(** The number of bytes of the white-space character [s] starts with;
    0 when [s] does not start with white space. *)
Definition whiteSpaceBytes (s : string) : nat :=
  match find (fun ch => startsWith ch s) whiteSpaceChars with
  | Some ch => String.length ch
  | None => 0
  end.

Definition isEmpty (s : string) : bool :=
  match s with
  | EmptyString => true
  | String _ _ => false
  end.

(** [trimStartFrom skip s]: [skip] is the number of bytes of [s] that
    belong to a white-space character already recognised. *)
Fixpoint trimStartFrom (skip : nat) (s : string) : string :=
  match s with
  | EmptyString => EmptyString
  | String _ rest =>
      match skip with
      | S k => trimStartFrom k rest
      | O =>
          match whiteSpaceBytes s with
          | S k => trimStartFrom k rest
          | O => s
          end
      end
  end.

Definition trimStart (s : string) : string := trimStartFrom 0 s.

(** [blank s]: [s] consists of white-space characters only. *)
Fixpoint blankFrom (skip : nat) (s : string) : bool :=
  match s with
  | EmptyString => true
  | String _ rest =>
      match skip with
      | S k => blankFrom k rest
      | O =>
          match whiteSpaceBytes s with
          | S k => blankFrom k rest
          | O => false
          end
      end
  end.

Definition blank (s : string) : bool := blankFrom 0 s.

Fixpoint trimEnd (s : string) : string :=
  match s with
  | EmptyString => EmptyString
  | String c rest => if blank s then EmptyString else String c (trimEnd rest)
  end.

Definition trim (s : string) : string := trimEnd (trimStart s).

(** The number of bytes of the longest run of white-space characters that
    [s] starts with. *)
Fixpoint whiteSpaceSpanFrom (skip : nat) (s : string) : nat :=
  match s with
  | EmptyString => 0
  | String _ rest =>
      match skip with
      | S k => S (whiteSpaceSpanFrom k rest)
      | O =>
          match whiteSpaceBytes s with
          | S k => S (whiteSpaceSpanFrom k rest)
          | O => 0
          end
      end
  end.

Definition whiteSpaceSpan (s : string) : nat := whiteSpaceSpanFrom 0 s.

Definition isUpper (c : ascii) : bool :=
  (65 <=? nat_of_ascii c)%nat && (nat_of_ascii c <=? 90)%nat.

Definition isLower (c : ascii) : bool :=
  (97 <=? nat_of_ascii c)%nat && (nat_of_ascii c <=? 122)%nat.

Definition lowerChar (c : ascii) : ascii :=
  if isUpper c then ascii_of_nat (nat_of_ascii c + 32) else c.

(** [String.prototype.toLowerCase] as it acts on ASCII text: the letters A
    to Z are lower-cased and every other byte is kept.  This is the value
    of the method on every ASCII string.  On the tag names that
    [parseElement] compares with "h1", "h2", "h3", "p", "ul" and "ol" the
    comparisons come out as in the browser for any tag, since no character
    outside ASCII lower-cases to one of the letters h, p, u, l or o; what
    is stated about the lower-cased topic of [handleDownload] is stated
    for ASCII topics. *)
Fixpoint toLowerCase (s : string) : string :=
  match s with
  | EmptyString => EmptyString
  | String c rest => String (lowerChar c) (toLowerCase rest)
  end.

(** [`${n}`] for a non-negative integer. *)
Definition Number_toString (n : nat) : string :=
  NilEmpty.string_of_uint (Nat.to_uint n).

(** [s.indexOf(sub) !== -1] *)
Fixpoint includes (sub s : string) : bool :=
  prefix sub s ||
  match s with
  | EmptyString => false
  | String _ rest => includes sub rest
  end.

(** *** Global regular-expression replacement

    A pattern is given by its matcher: [m s = Some n] when the pattern
    matches a prefix of [s], [n] being the length of the (greedy) match.
    Every pattern of the source matches at least one character.
    [replaceAll m r s] is [s.replace(/.../g, r)]: scanning left to right,
    each match is replaced by [r] and the scan resumes after it. *)
Definition matcher : Type := string -> option nat.

Fixpoint replaceFrom (m : matcher) (r : string) (skip : nat) (s : string) : string :=
  match s with
  | EmptyString => EmptyString
  | String c rest =>
      match skip with
      | S k => replaceFrom m r k rest
      | O =>
          match m s with
          | Some (S k) => r ++ replaceFrom m r k rest
          | _ => String c (replaceFrom m r 0 rest)
          end
      end
  end.

Definition replaceAll (m : matcher) (r : string) (s : string) : string :=
  replaceFrom m r 0 s.

(** Length of the longest prefix whose characters satisfy [p]. *)
Fixpoint span (p : ascii -> bool) (s : string) : nat :=
  match s with
  | String c rest => if p c then S (span p rest) else 0
  | EmptyString => 0
  end.

Fixpoint drop (n : nat) (s : string) : string :=
  match n, s with
  | S k, String _ rest => drop k rest
  | _, _ => s
  end.

End JS.
Import JS.

Notation "x <- r ;; k" := (bind r (fun x => k))
  (at level 61, r at next level, right associativity).

(** ** The DOM, as far as [parseNotesContent] reads it *)

Module DOM.

#[warnings="-register-all"]
Inductive node : Type :=
| TextNode (data : string)
| CommentNode (data : string)
| ElementNode (tagName : string) (childNodes : list node).

(** [Node.textContent]: the text of all descendants, comments left out. *)
Fixpoint textContent (n : node) : string :=
  match n with
  | TextNode data => data
  | CommentNode _ => ""
  | ElementNode _ kids => String.concat "" (map textContent kids)
  end.

Definition isElement (n : node) : bool :=
  match n with
  | ElementNode _ _ => true
  | _ => false
  end.

(** [ParentNode.children]: the child nodes that are elements. *)
Definition children (kids : list node) : list node := filter isElement kids.

Definition tagName (n : node) : string :=
  match n with
  | ElementNode t _ => t
  | _ => ""
  end.

Definition childNodes (n : node) : list node :=
  match n with
  | ElementNode _ kids => kids
  | _ => []
  end.

End DOM.
Import DOM.

(** ** Content blocks

    The objects [{ type, text }] and [{ type, items }] built by
    [parseElement]; [blockType] is their [type] field. *)

Inductive ContentBlock : Type :=
| Heading1 (text : string)
| Heading2 (text : string)
| Heading3 (text : string)
| Paragraph (text : string)
| BulletList (items : list string)
| NumberList (items : list string).

Definition blockType (b : ContentBlock) : string :=
  match b with
  | Heading1 _ => "heading1"
  | Heading2 _ => "heading2"
  | Heading3 _ => "heading3"
  | Paragraph _ => "paragraph"
  | BulletList _ => "bulletList"
  | NumberList _ => "numberList"
  end.

Definition parseElement (element : node) : ContentBlock :=
  let type := toLowerCase (tagName element) in
  let text := trim (textContent element) in
  if type =? "h1" then Heading1 text
  else if type =? "h2" then Heading2 text
  else if type =? "h3" then Heading3 text
  else if type =? "p" then Paragraph text
  else if type =? "ul" then
    BulletList (map (fun li => trim (textContent li)) (children (childNodes element)))
  else if type =? "ol" then
    NumberList (map (fun li => trim (textContent li)) (children (childNodes element)))
  else Paragraph text.

Section Parser.

(** [new DOMParser().parseFromString(html, 'text/html').body] *)
Variable parseFromString : string -> result node.

Definition parseNotesContent (htmlContent : string) : result (list ContentBlock) :=
  body <- parseFromString htmlContent ;;
  let elements := children (childNodes body) in
  Ok (fold_left (fun parsedContent element => (parsedContent ++ [parseElement element])%list)
                elements []).

End Parser.

(** ** The jsPDF document

    What [generatePDF] does to the [jsPDF] object: it selects a font, places
    text with [pdf.text] and adds pages.  A [TextRun] is one call of
    [pdf.text]: the lines it was given (a single string is a one-line run),
    the position of the first line and the page and font in force. *)

Record TextRun : Type := mkRun {
  run_page : nat;
  run_lines : list string;
  run_x : Z;
  run_y : Z;
  run_fontStyle : string;
  run_fontSize : Z
}.

Record jsPDF : Type := mkPdf {
  properties : list (string * string);
  fontName : string;
  fontStyle : string;
  fontSize : Z;
  textColor : Z * Z * Z;
  currentPage : nat;
  runs : list TextRun
}.

(** [new jsPDF({ unit: 'pt', format: 'a4', orientation: 'portrait' })] *)
Definition new_jsPDF : jsPDF :=
  mkPdf [] "helvetica" "normal" 16 (0, 0, 0)%Z 0 [].

Definition setProperties (props : list (string * string)) (pdf : jsPDF) : jsPDF :=
  mkPdf props (fontName pdf) (fontStyle pdf) (fontSize pdf) (textColor pdf)
        (currentPage pdf) (runs pdf).

Definition setFont (name style : string) (pdf : jsPDF) : jsPDF :=
  mkPdf (properties pdf) name style (fontSize pdf) (textColor pdf)
        (currentPage pdf) (runs pdf).

Definition setFontSize (size : Z) (pdf : jsPDF) : jsPDF :=
  mkPdf (properties pdf) (fontName pdf) (fontStyle pdf) size (textColor pdf)
        (currentPage pdf) (runs pdf).

Definition setTextColor (r g b : Z) (pdf : jsPDF) : jsPDF :=
  mkPdf (properties pdf) (fontName pdf) (fontStyle pdf) (fontSize pdf) (r, g, b)
        (currentPage pdf) (runs pdf).

Definition addPage (pdf : jsPDF) : jsPDF :=
  mkPdf (properties pdf) (fontName pdf) (fontStyle pdf) (fontSize pdf) (textColor pdf)
        (S (currentPage pdf)) (runs pdf).

(** [pdf.text(lines, x, y)] with an array of lines. *)
Definition text (lines : list string) (x y : Z) (pdf : jsPDF) : jsPDF :=
  mkPdf (properties pdf) (fontName pdf) (fontStyle pdf) (fontSize pdf) (textColor pdf)
        (currentPage pdf)
        (runs pdf ++ [mkRun (currentPage pdf) lines x y (fontStyle pdf) (fontSize pdf)])%list.

(** [pdf.text(s, x, y)] with a single string. *)
Definition text1 (s : string) (x y : Z) (pdf : jsPDF) : jsPDF := text [s] x y pdf.

(** [array.forEach((item, index) => ...)] for a callback that updates a
    state and may throw. *)
Fixpoint forEachFrom {A St : Type} (f : A -> nat -> St -> result St)
         (index : nat) (l : list A) (s : St) : result St :=
  match l with
  | [] => Ok s
  | a :: rest => s' <- f a index s ;; forEachFrom f (S index) rest s'
  end.

Definition forEach {A St : Type} (f : A -> nat -> St -> result St)
           (l : list A) (s : St) : result St :=
  forEachFrom f 0 l s.

(** The document and the cursor [yPos] of [generatePDF]. *)
Record Layout : Type := mkLayout {
  pdf : jsPDF;
  yPos : Z
}.

Definition len (lines : list string) : Z := Z.of_nat (length lines).

Definition bulletPoint : string := "•".

Section LayoutEngine.

(** [pdf.internal.pageSize] *)
Variables pageWidth pageHeight : Q.

(** [pdf.splitTextToSize(text, maxWidth)]; the wrap depends on the font
    the document has selected. *)
Variable splitTextToSize : jsPDF -> string -> Q -> result (list string).

Definition margin : Z := 40.
Definition contentWidth : Q := pageWidth - inject_Z (margin * 2).

(** [yPos > pageHeight - 60] *)
Definition pastThreshold (y : Z) : bool :=
  negb (Qle_bool (inject_Z y) (pageHeight - 60)).

(** [if (yPos > pageHeight - 60) { pdf.addPage(); yPos = 40; }] *)
Definition newPageIfNeeded (s : Layout) : Layout :=
  if pastThreshold (yPos s) then mkLayout (addPage (pdf s)) 40 else s.

Definition renderBulletItem (item : string) (index : nat) (s : Layout) : result Layout :=
  let s := newPageIfNeeded s in
  itemLines <- splitTextToSize (pdf s) item (contentWidth - 15) ;;
  let p := text1 bulletPoint margin (yPos s) (pdf s) in
  let p := text itemLines (margin + 15) (yPos s) p in
  Ok (mkLayout p (yPos s + (len itemLines * 14) + 5)).

Definition renderNumberItem (item : string) (index : nat) (s : Layout) : result Layout :=
  let s := newPageIfNeeded s in
  let number := Number_toString (index + 1) ++ "." in
  itemLines <- splitTextToSize (pdf s) item (contentWidth - 20) ;;
  let p := text1 number margin (yPos s) (pdf s) in
  let p := text itemLines (margin + 20) (yPos s) p in
  Ok (mkLayout p (yPos s + (len itemLines * 14) + 5)).

(** The body of [parsedContent.forEach(content => { ... })]. *)
Definition renderBlock (content : ContentBlock) (index : nat) (s : Layout) : result Layout :=
  let s := newPageIfNeeded s in
  match content with
  | Heading1 txt =>
      let p := setTextColor 0 0 0 (setFontSize 14 (setFont "helvetica" "bold" (pdf s))) in
      h1Lines <- splitTextToSize p txt contentWidth ;;
      let p := text h1Lines margin (yPos s) p in
      Ok (mkLayout p (yPos s + (len h1Lines * 20) + 10))
  | Heading2 txt =>
      let p := setTextColor 0 0 0 (setFontSize 12 (setFont "helvetica" "bold" (pdf s))) in
      h2Lines <- splitTextToSize p txt contentWidth ;;
      let p := text h2Lines margin (yPos s) p in
      Ok (mkLayout p (yPos s + (len h2Lines * 18) + 8))
  | Heading3 txt =>
      let p := setTextColor 0 0 0 (setFontSize 11 (setFont "helvetica" "bold" (pdf s))) in
      h3Lines <- splitTextToSize p txt contentWidth ;;
      let p := text h3Lines margin (yPos s) p in
      Ok (mkLayout p (yPos s + (len h3Lines * 16) + 6))
  | Paragraph txt =>
      let p := setTextColor 0 0 0 (setFontSize 11 (setFont "helvetica" "normal" (pdf s))) in
      pLines <- splitTextToSize p txt contentWidth ;;
      let p := text pLines margin (yPos s) p in
      Ok (mkLayout p (yPos s + (len pLines * 14) + 10))
  | BulletList items =>
      let p := setTextColor 0 0 0 (setFontSize 11 (setFont "helvetica" "normal" (pdf s))) in
      s' <- forEach renderBulletItem items (mkLayout p (yPos s)) ;;
      Ok (mkLayout (pdf s') (yPos s' + 5))
  | NumberList items =>
      let p := setTextColor 0 0 0 (setFontSize 11 (setFont "helvetica" "normal" (pdf s))) in
      s' <- forEach renderNumberItem items (mkLayout p (yPos s)) ;;
      Ok (mkLayout (pdf s') (yPos s' + 5))
  end.

End LayoutEngine.

(** ** Files, blobs and the browser *)

Record File : Type := mkFile {
  name : string;
  type : string;
  size : N
}.

(** What an object URL was created for. *)
Inductive BlobSource : Type :=
| FileObject (file : File)
| BlobObject (data : string) (type : string).

Inductive event : Type :=
| EvPost (url : string) (file : File) (topic : string)
| EvCreateObjectURL (objectURL : nat) (source : BlobSource)
| EvRevokeObjectURL (objectURL : nat)
| EvWindowOpen (objectURL : nat) (target : string)
| EvLinkClick (href : nat) (download : string)
| EvConsoleError (label : string).

(** The browser outside the component: the effects so far, and the number
    of object URLs already handed out (each new URL is distinct). *)
Record World : Type := mkWorld {
  nextObjectURL : nat;
  log : list event
}.

Definition emit (e : event) (w : World) : World :=
  mkWorld (nextObjectURL w) (log w ++ [e])%list.

(** [URL.createObjectURL(source)] *)
Definition createObjectURL (source : BlobSource) (w : World) : nat * World :=
  let u := nextObjectURL w in
  (u, mkWorld (S u) (log w ++ [EvCreateObjectURL u source])%list).

(** [URL.revokeObjectURL(u)] *)
Definition revokeObjectURL (u : nat) (w : World) : World :=
  emit (EvRevokeObjectURL u) w.

(** ** Component state: the [useState] cells of [App] *)

Record AppState : Type := mkState {
  files : list File;
  topic : string;
  notes : string;
  loading : bool;
  error : string;
  fileError : string;
  previewUrls : list nat;
  (** identity of the [previewUrls] array: [setPreviewUrls] always stores a
      freshly built array, and the effect that revokes the previews is
      keyed on that identity *)
  previewUrlsId : nat
}.

Definition initialState : AppState := mkState [] "" "" false "" "" [] 0.

Definition setFiles (v : list File) (st : AppState) : AppState :=
  mkState v (topic st) (notes st) (loading st) (error st) (fileError st)
          (previewUrls st) (previewUrlsId st).

Definition setTopic (v : string) (st : AppState) : AppState :=
  mkState (files st) v (notes st) (loading st) (error st) (fileError st)
          (previewUrls st) (previewUrlsId st).

Definition setNotes (v : string) (st : AppState) : AppState :=
  mkState (files st) (topic st) v (loading st) (error st) (fileError st)
          (previewUrls st) (previewUrlsId st).

Definition setLoading (v : bool) (st : AppState) : AppState :=
  mkState (files st) (topic st) (notes st) v (error st) (fileError st)
          (previewUrls st) (previewUrlsId st).

Definition setError (v : string) (st : AppState) : AppState :=
  mkState (files st) (topic st) (notes st) (loading st) v (fileError st)
          (previewUrls st) (previewUrlsId st).

Definition setFileError (v : string) (st : AppState) : AppState :=
  mkState (files st) (topic st) (notes st) (loading st) (error st) v
          (previewUrls st) (previewUrlsId st).

Definition setPreviewUrls (v : list nat) (st : AppState) : AppState :=
  mkState (files st) (topic st) (notes st) (loading st) (error st) (fileError st)
          v (S (previewUrlsId st)).

(** ** File selection *)

Fixpoint createPreviewUrls (fileList : list File) (w : World) : list nat * World :=
  match fileList with
  | [] => ([], w)
  | file :: rest =>
      let (u, w1) := createObjectURL (FileObject file) w in
      let (us, w2) := createPreviewUrls rest w1 in
      (u :: us, w2)
  end.

Definition validTypes : list string := ["image/jpeg"; "image/jpg"; "image/png"].

Definition maxFileSize : N := 5 * 1024 * 1024.

Definition typeError : string := "Please upload valid image files (JPG, JPEG, PNG)".
Definition sizeError : string := "One or more files exceed 5MB limit".

(** One iteration of [for (const file of selectedFiles)]: the list
    [validFiles] and the component state (for [setFileError]). *)
Definition validateFile (acc : list File * AppState) (file : File) : list File * AppState :=
  let (validFiles, st) := acc in
  if negb (existsb (String.eqb (type file)) validTypes) then
    (validFiles, setFileError typeError st)
  else if (maxFileSize <? size file)%N then
    (validFiles, setFileError sizeError st)
  else
    ((validFiles ++ [file])%list, st).

Definition handleFileChange (selectedFiles : list File) (st : AppState) (w : World)
  : AppState * World :=
  let st1 := setFileError "" st in
  if (length selectedFiles =? 0)%nat then (st1, w)
  else
    let (validFiles, st2) := fold_left validateFile selectedFiles ([], st1) in
    if (0 <? length validFiles)%nat then
      let newFiles := (files st ++ validFiles)%list in
      let st3 := setFiles newFiles st2 in
      let (urls, w1) := createPreviewUrls newFiles w in
      (setPreviewUrls urls st3, w1)
    else (st2, w).

(** ** Clipboard paste *)

Record ClipboardItem : Type := mkItem {
  item_type : string;
  getAsFile : option File
}.

(** The [for] loop of [handlePaste]; [getAsFile()] returning [null] makes
    [file.size] throw, which ends the handler with the state updates
    queued so far. *)
Fixpoint pasteLoop (items : list ClipboardItem) (newFiles : list File)
         (hasAddedFiles : bool) (st : AppState)
  : option (list File * bool) * AppState :=
  match items with
  | [] => (Some (newFiles, hasAddedFiles), st)
  | item :: rest =>
      if includes "image" (item_type item) then
        match getAsFile item with
        | None => (None, st)
        | Some file =>
            if (maxFileSize <? size file)%N then
              pasteLoop rest newFiles hasAddedFiles
                        (setFileError "File size exceeds 5MB limit" st)
            else pasteLoop rest (newFiles ++ [file])%list true st
        end
      else pasteLoop rest newFiles hasAddedFiles st
  end.

Definition handlePaste (clipboardItems : option (list ClipboardItem))
           (st : AppState) (w : World) : AppState * World :=
  match clipboardItems with
  | None => (st, w)
  | Some items =>
      match pasteLoop items (files st) false st with
      | (Some (newFiles, true), st1) =>
          let st2 := setFiles newFiles st1 in
          let (urls, w1) := createPreviewUrls newFiles w in
          (setFileError "" (setPreviewUrls urls st2), w1)
      | (_, st1) => (st1, w)
      end
  end.

(** ** Removing a file *)

(** [a.splice(index, 1)] on a copy of [a] *)
Definition splice1 {A : Type} (index : nat) (a : list A) : list A :=
  (firstn index a ++ skipn (S index) a)%list.

(** [index] is the position of the clicked preview; past the end of the
    arrays [splice] removes nothing and there is no URL to revoke. *)
Definition removeFile (index : nat) (st : AppState) (w : World) : AppState * World :=
  let newFiles := splice1 index (files st) in
  let st1 := setFiles newFiles st in
  let newPreviewUrls := previewUrls st in
  let w1 := match nth_error newPreviewUrls index with
            | Some u => revokeObjectURL u w
            | None => w
            end in
  let newPreviewUrls := splice1 index newPreviewUrls in
  (setPreviewUrls newPreviewUrls st1, w1).

(** ** Patterns of the regular expressions in the source *)

Definition fence : string := "```".

(** [/```[a-z]*\n/]: a fence, lower-case letters, a line feed.  The greedy
    run of letters never gives a character back, since a line feed is no
    letter. *)
Definition fenceLangNewline : matcher := fun s =>
  if prefix fence s then
    let rest := drop 3 s in
    let k := span isLower rest in
    if prefix newline (drop k rest) then Some (3 + k + 1)%nat else None
  else None.

(** [/```\n/] *)
Definition fenceNewline : matcher := fun s =>
  if prefix (fence ++ newline) s then Some 4%nat else None.

(** [/```/] *)
Definition fenceOnly : matcher := fun s =>
  if prefix fence s then Some 3%nat else None.

(** [/\\s+/] as written in [handleDownload]: in a regular-expression
    literal [\\] is an escaped backslash, so the pattern is a backslash
    followed by one or more letters [s]. *)
Definition backslashThenS : matcher := fun s =>
  match s with
  | String "\" rest =>
      match span (Ascii.eqb "s") rest with
      | O => None
      | S k => Some (S (S k))
      end
  | _ => None
  end.

(** [/\s+/]: one or more white-space characters. *)
Definition whiteSpaceRun : matcher := fun s =>
  match whiteSpaceSpan s with
  | O => None
  | S k => Some (S k)
  end.

(** [response.data.notes.replace(...).replace(...).replace(...).trim()] *)
Definition cleanNotes (notes : string) : string :=
  trim (replaceAll fenceOnly ""
         (replaceAll fenceNewline ""
           (replaceAll fenceLangNewline "" notes))).

(** The [download] attribute set by [handleDownload]. *)
Definition downloadName (topic : string) : string :=
  replaceAll backslashThenS "-" (toLowerCase topic) ++ "-notes.pdf".

(** ** Requests *)

Inductive ResponseData : Type :=
| NotesData (notes : string)
| BlobData (bytes : string).

Definition generateNotesUrl : string := "http://localhost:8000/generate-notes".
Definition generateNotesPdfUrl : string := "http://localhost:8000/generate-notes-pdf".

Definition consoleError (label : string) (w : World) : World :=
  emit (EvConsoleError label) w.

Section App.

(** The back end: the outcome of [axios.post(url, formData)] for a form
    with the fields [file] and [topic]; it may depend on what happened
    before. [Ok d] is a response whose [data] is [d]. *)
Variable axios_post : World -> string -> File -> string -> result ResponseData.

Definition post (url : string) (file : File) (topic : string) (w : World)
  : result ResponseData * World :=
  (axios_post w url file topic, emit (EvPost url file topic) w).

(** The [for] loop of [handleSubmit], from the file at [files[i]] on. *)
Fixpoint submitLoop (remaining : list File) (topic : string)
         (combinedNotes : string) (w : World) : result string * World :=
  match remaining with
  | [] => (Ok combinedNotes, w)
  | file :: rest =>
      let (response, w1) := post generateNotesUrl file topic w in
      match response with
      | Throw err => (Throw err, w1)
      | Ok (BlobData _) => (Throw (JsError "TypeError"), w1)
      | Ok (NotesData notes) =>
          let cleanedNotes := cleanNotes notes in
          submitLoop rest topic (combinedNotes ++ (cleanedNotes ++ newline)) w1
      end
  end.

(** [err.response?.data?.error || 'Failed to generate notes. Please try again.'] *)
Definition submitErrorMessage (err : exn) : string :=
  match err with
  | AxiosError (Some m) =>
      if isEmpty m then "Failed to generate notes. Please try again." else m
  | _ => "Failed to generate notes. Please try again."
  end.

Definition handleSubmit (st : AppState) (w : World) : AppState * World :=
  if (length (files st) =? 0)%nat then
    (setFileError "Please upload at least one image file" st, w)
  else if isEmpty (trim (topic st)) then
    (setError "Please enter a subject/topic" st, w)
  else
    let st1 := setNotes "" (setError "" (setLoading true st)) in
    let (outcome, w1) := submitLoop (files st) (topic st) "" w in
    match outcome with
    | Ok combinedNotes => (setLoading false (setNotes combinedNotes st1), w1)
    | Throw err =>
        (setLoading false (setError (submitErrorMessage err) st1),
         consoleError "Error generating notes:" w1)
    end.

Definition handleDownload (st : AppState) (w : World) : AppState * World :=
  match files st with
  | [] => (setError "Please upload an image and enter a topic first." st, w)
  | file0 :: _ =>
      if isEmpty (trim (topic st)) then
        (setError "Please upload an image and enter a topic first." st, w)
      else
        let (response, w1) := post generateNotesPdfUrl file0 (topic st) w in
        match response with
        | Ok data =>
            let bytes := match data with NotesData s => s | BlobData b => b end in
            let (blobUrl, w2) := createObjectURL (BlobObject bytes "application/pdf") w1 in
            let w3 := emit (EvLinkClick blobUrl (downloadName (topic st))) w2 in
            (st, revokeObjectURL blobUrl w3)
        | Throw err =>
            (setError "Failed to download PDF. Please try again." st,
             consoleError "Error downloading PDF:" w1)
        end
  end.

(** *** Client-side PDF generation *)

Variables pageWidth pageHeight : Q.
Variable splitTextToSize : jsPDF -> string -> Q -> result (list string).
Variable parseFromString : string -> result node.
(** [pdf.output('blob')] *)
Variable output : jsPDF -> result string.
(** [new Date().toLocaleDateString()] *)
Variable today : string.

(** The title lines placed before the content; the cursor starts at 40. *)
Definition titleBlock (topic : string) : Layout :=
  let p := new_jsPDF in
  let p := setProperties [("title", topic ++ " Notes");
                          ("subject", "Generated Notes");
                          ("author", "VisionNote AIs");
                          ("keywords", "notes, study");
                          ("creator", "VisionNote AIs")] p in
  let yPos := 40%Z in
  let p := setTextColor 0 0 0 (setFontSize 16 (setFont "helvetica" "bold" p)) in
  let p := text1 (topic ++ " Notes") margin yPos p in
  let yPos := (yPos + 25)%Z in
  let p := setFontSize 10 (setFont "helvetica" "normal" p) in
  let p := text1 ("Generated on " ++ today) margin yPos p in
  let yPos := (yPos + 30)%Z in
  mkLayout p yPos.

(** [parsedContent.forEach(content => ...)] after the title. *)
Definition layoutContent (topic : string) (parsedContent : list ContentBlock)
  : result Layout :=
  forEach (renderBlock pageWidth pageHeight splitTextToSize)
          parsedContent (titleBlock topic).

(** The [try] block of [generatePDF]. *)
Definition generatePDF_try (st : AppState) (w : World) : result World :=
  parsedContent <- parseNotesContent parseFromString (notes st) ;;
  s <- layoutContent (topic st) parsedContent ;;
  bytes <- output (pdf s) ;;
  let (blobUrl, w1) := createObjectURL (BlobObject bytes "application/pdf") w in
  Ok (emit (EvWindowOpen blobUrl "_blank") w1).

Definition generatePDF (st : AppState) (w : World) : AppState * World :=
  match generatePDF_try st w with
  | Ok w' => (st, w')
  | Throw err =>
      (setError "Failed to generate PDF. Please try again." st,
       consoleError "Error generating PDF:" w)
  end.

(** *** The component's life cycle

    [useEffect(() => () => previewUrls.forEach(URL.revokeObjectURL),
    [previewUrls])]: the clean-up of a render runs when a later render
    has another [previewUrls] array, and when the component unmounts. *)

Definition revokeAll (urls : list nat) (w : World) : World :=
  fold_left (fun w u => revokeObjectURL u w) urls w.

Definition commit (before after : AppState) (w : World) : World :=
  if (previewUrlsId before =? previewUrlsId after)%nat then w
  else revokeAll (previewUrls before) w.

Inductive action : Type :=
| FileChange (selectedFiles : list File)
| Paste (clipboardItems : option (list ClipboardItem))
| TopicChange (value : string)
| Submit
| RemoveFile (index : nat)
| PreviewPDF
| Download.

Definition handle (a : action) (st : AppState) (w : World) : AppState * World :=
  match a with
  | FileChange selectedFiles => handleFileChange selectedFiles st w
  | Paste clipboardItems => handlePaste clipboardItems st w
  | TopicChange value => (setTopic value st, w)
  | Submit => handleSubmit st w
  | RemoveFile index => removeFile index st w
  | PreviewPDF => generatePDF st w
  | Download => handleDownload st w
  end.

(** A user action followed by the re-render it causes. *)
Definition step (a : action) (sw : AppState * World) : AppState * World :=
  let (st, w) := sw in
  let (st', w') := handle a st w in
  (st', commit st st' w').

Definition run (actions : list action) (sw : AppState * World) : AppState * World :=
  fold_left (fun sw a => step a sw) actions sw.

Definition unmount (sw : AppState * World) : World :=
  let (st, w) := sw in revokeAll (previewUrls st) w.

End App.

(** * Vocabulary of the properties *)

(** ** Predicates and measures *)

(** The mapping rule of the specification for one element. *)
Definition classifiedAs (element : node) (block : ContentBlock) : Prop :=
  let tag := toLowerCase (tagName element) in
  let txt := trim (textContent element) in
  let items := map (fun li => trim (textContent li)) (children (childNodes element)) in
  (tag = "h1" -> block = Heading1 txt /\ blockType block = "heading1") /\
  (tag = "h2" -> block = Heading2 txt /\ blockType block = "heading2") /\
  (tag = "h3" -> block = Heading3 txt /\ blockType block = "heading3") /\
  (tag = "p" -> block = Paragraph txt /\ blockType block = "paragraph") /\
  (tag = "ul" -> block = BulletList items /\ blockType block = "bulletList") /\
  (tag = "ol" -> block = NumberList items /\ blockType block = "numberList") /\
  (~ In tag ["h1"; "h2"; "h3"; "p"; "ul"; "ol"] ->
   block = Paragraph txt /\ blockType block = "paragraph").

(** [pdf.setFont('helvetica', style); pdf.setFontSize(size);
    pdf.setTextColor(0, 0, 0)] *)
Definition selectFont (style : string) (size : Z) (p : jsPDF) : jsPDF :=
  setTextColor 0 0 0 (setFontSize size (setFont "helvetica" style p)).

(** The number a string of decimal digits stands for. *)
Definition decimalValue (digits : string) : option nat :=
  option_map Nat.of_uint (NilEmpty.uint_of_string digits).

(** The marker of the item at position [k]: the decimal numeral of [k],
    without a leading zero, followed by a dot. *)
Definition labelled (k : nat) (marker : list string) : Prop :=
  exists digits,
    marker = [digits ++ "."] /\ decimalValue digits = Some k /\ prefix "0" digits = false.

Definition isList (b : ContentBlock) : bool :=
  match b with
  | BulletList _ | NumberList _ => true
  | _ => false
  end.

(** The markers of a list: the runs placed at the left margin. *)
Definition markers (rs : list TextRun) : list (list string) :=
  map run_lines (filter (fun r => (run_x r =? margin)%Z) rs).

(** The wrap returns for each item of a list, under any font and width. *)
Definition wrapsAll (split : jsPDF -> string -> Q -> result (list string))
           (items : list string) : Prop :=
  forall p item width, In item items -> exists lines, split p item width = Ok lines.

(** The lines of a run, [pitch] apart from the first one down, are all at
    or above the threshold [H - 60]. *)
Definition linesAboveThreshold (H pitch : Q) (r : TextRun) : Prop :=
  forall k : nat,
    (k < length (run_lines r))%nat ->
    inject_Z (run_y r) + inject_Z (Z.of_nat k) * pitch <= H - 60.

Definition firstLineAboveThreshold (H : Q) (r : TextRun) : Prop :=
  inject_Z (run_y r) <= H - 60.

(** The page check made on page [page] with the cursor at [y]: the page
    and the cursor it leaves. *)
Definition pageAfterCheck (H : Q) (page : nat) (y : Z) : nat :=
  (page + if pastThreshold H y then 1 else 0)%nat.

Definition cursorAfterCheck (H : Q) (y : Z) : Z :=
  if pastThreshold H y then 40%Z else y.

(** [itemsPlaced H page y placed page' y']: [placed] are the runs of the
    items of a list laid out from page [page] and cursor [y] on, and
    [page'] and [y'] are the page and the cursor after the last item.  The
    check is made before each item; the marker and the text of the item go
    on the page and at the height the check leaves; the cursor then
    advances by 14 for each line of the item, plus 5. *)
Inductive itemsPlaced (H : Q) : nat -> Z -> list TextRun -> nat -> Z -> Prop :=
| itemsPlaced_nil page y : itemsPlaced H page y [] page y
| itemsPlaced_cons page y marker item rest page' y' :
    run_page marker = pageAfterCheck H page y ->
    run_page item = pageAfterCheck H page y ->
    run_y marker = cursorAfterCheck H y ->
    run_y item = cursorAfterCheck H y ->
    itemsPlaced H (pageAfterCheck H page y)
                (cursorAfterCheck H y + len (run_lines item) * 14 + 5)
                rest page' y' ->
    itemsPlaced H page y (marker :: item :: rest) page' y'.

(** A list item: the check, then the marker and the text where the check
    leaves the cursor. *)
Definition placesOneItem (H : Q) (f : string -> nat -> Layout -> result Layout) : Prop :=
  forall item index s s',
    f item index s = Ok s' ->
    exists marker itemRun,
      runs (pdf s') = (runs (pdf s) ++ [marker; itemRun])%list /\
      run_page marker = pageAfterCheck H (currentPage (pdf s)) (yPos s) /\
      run_page itemRun = pageAfterCheck H (currentPage (pdf s)) (yPos s) /\
      run_y marker = cursorAfterCheck H (yPos s) /\
      run_y itemRun = cursorAfterCheck H (yPos s) /\
      currentPage (pdf s') = pageAfterCheck H (currentPage (pdf s)) (yPos s) /\
      yPos s' = (cursorAfterCheck H (yPos s) + len (run_lines itemRun) * 14 + 5)%Z.

(** The items of a list block. *)
Definition listItems (b : ContentBlock) : list string :=
  match b with
  | BulletList items | NumberList items => items
  | _ => []
  end.

(** The name the specification describes: the topic in lower case, every
    run of white space replaced by one "-", then "-notes.pdf". *)
Definition specifiedDownloadName (topic : string) : string :=
  replaceAll whiteSpaceRun "-" (toLowerCase topic) ++ "-notes.pdf".

Fixpoint hasBackslash (s : string) : bool :=
  match s with
  | EmptyString => false
  | String c rest => Ascii.eqb c "\" || hasBackslash rest
  end.

Definition isPost (e : event) : bool :=
  match e with
  | EvPost _ _ _ => true
  | _ => false
  end.

(** The requests of a log, in order. *)
Definition requests (l : list event) : list event := filter isPost l.

Definition isCreateObjectURL (e : event) : bool :=
  match e with
  | EvCreateObjectURL _ _ => true
  | _ => false
  end.

(** A file passes when its type is listed and it is not larger than 5 MB. *)
Definition typeListed (file : File) : bool :=
  existsb (String.eqb (type file)) validTypes.

Definition acceptable (file : File) : bool :=
  typeListed file && (size file <=? 5 * 1024 * 1024)%N.

(** The message a refused file sets: the type is looked at first. *)
Definition refusal (file : File) : string :=
  if typeListed file then sizeError else typeError.

(** A step of the [try] block of [generatePDF] throws [e]: the parser, the
    layout of the parsed blocks, or the serialisation of the laid-out
    document. *)
Inductive stepThrows (pageWidth pageHeight : Q)
          (splitTextToSize : jsPDF -> string -> Q -> result (list string))
          (parseFromString : string -> result node)
          (output : jsPDF -> result string) (today : string)
          (st : AppState) (e : exn) : Prop :=
| parsingThrows :
    parseNotesContent parseFromString (notes st) = Throw e ->
    stepThrows pageWidth pageHeight splitTextToSize parseFromString output today st e
| layoutThrows blocks :
    parseNotesContent parseFromString (notes st) = Ok blocks ->
    layoutContent pageWidth pageHeight splitTextToSize today (topic st) blocks = Throw e ->
    stepThrows pageWidth pageHeight splitTextToSize parseFromString output today st e
| renderingThrows blocks s :
    parseNotesContent parseFromString (notes st) = Ok blocks ->
    layoutContent pageWidth pageHeight splitTextToSize today (topic st) blocks = Ok s ->
    output (pdf s) = Throw e ->
    stepThrows pageWidth pageHeight splitTextToSize parseFromString output today st e.


Definition revoked (u : nat) (l : list event) : Prop := In (EvRevokeObjectURL u) l.

(** An object URL that was handed out, is not one of the previews, and
    has not been revoked. *)
Definition unreleased (u : nat) (sw : AppState * World) : Prop :=
  (u < nextObjectURL (snd sw))%nat /\
  ~ In u (previewUrls (fst sw)) /\
  ~ revoked u (log (snd sw)).

(** ** Hosts, files and states of the examples *)

(** A wrap on a page wide enough for every line: jsPDF breaks the text at
    its line feeds and nowhere else. *)
Fixpoint splitAtLineFeeds (s : string) : list string :=
  match s with
  | EmptyString => [EmptyString]
  | String c rest =>
      if Ascii.eqb c LF then EmptyString :: splitAtLineFeeds rest
      else match splitAtLineFeeds rest with
           | line :: more => String c line :: more
           | [] => [String c EmptyString]
           end
  end.

Definition wideWrap : jsPDF -> string -> Q -> result (list string) :=
  fun _ s _ => Ok (splitAtLineFeeds s).

(** A wrap that fails on the empty text and is [wideWrap] elsewhere. *)
Definition failingWrap : jsPDF -> string -> Q -> result (list string) :=
  fun p s w => if isEmpty s then Throw (JsError "Invalid arguments") else wideWrap p s w.

(** [n] lines of text, each the letter x. *)
Fixpoint linesOfX (n : nat) : string :=
  match n with
  | O => EmptyString
  | S O => "x"
  | S k => String "x" (String LF (linesOfX k))
  end.

(** The page size jsPDF reports for A4, in points. *)
Definition a4Width : Q := 59528 # 100.

Definition a4Height : Q := 84189 # 100.

(** A parser for one fixed document,
    [<h1> Heat </h1> <p>Energy in transit.</p> <ul><li> a </li><li>b</li></ul>
     <ol><li>x</li></ol> <div>rest <b>bold</b></div>]. *)
Definition sampleBody : node :=
  ElementNode "BODY"
    [ElementNode "H1" [TextNode " Heat "];
     TextNode " ";
     ElementNode "P" [TextNode "Energy in transit."];
     ElementNode "UL" [ElementNode "LI" [TextNode " a "]; TextNode " ";
                       ElementNode "LI" [TextNode "b"]];
     ElementNode "OL" [ElementNode "LI" [TextNode "x"]];
     CommentNode "end";
     ElementNode "DIV" [TextNode "rest "; ElementNode "B" [TextNode "bold"]]].

Definition sampleParser : string -> result node := fun _ => Ok sampleBody.

Definition brokenParser : string -> result node :=
  fun _ => Throw (JsError "DOMParser is not defined").

Definition pdfBytes : jsPDF -> result string := fun _ => Ok "%PDF-1.3".

(** A [jsPDF] whose [output] fails. *)
Definition failingOutput : jsPDF -> result string :=
  fun _ => Throw (JsError "output failed").

(** Forty one-line items after the title of an A4 page: the list runs
    over the threshold and continues on a second page. *)
Definition fortyItems : list string := repeat "item" 40.

(** The layout after that list, placed right under the title. *)
Definition fortyItemsLayout : Layout :=
  match renderBlock a4Width a4Height wideWrap (NumberList fortyItems) 0
                    (titleBlock "1/1/2025" "Heat") with
  | Ok s => s
  | Throw _ => titleBlock "1/1/2025" "Heat"
  end.

(** Two paragraphs on an A4 page, of 48 and of 10 lines. *)
Definition twoParagraphs : list ContentBlock :=
  [Paragraph (linesOfX 48); Paragraph (linesOfX 10)].

(** A no-break space (U+00A0), a space and an ideographic space (U+3000). *)
Definition wideBlank : string :=
  ofBytes [194; 160]%nat ++ " " ++ ofBytes [227; 128; 128]%nat.

Definition photo : File := mkFile "slide.png" "image/png" 2048.

Definition scan : File := mkFile "page.jpg" "image/jpeg" 300000.

Definition animation : File := mkFile "clip.gif" "image/gif" 1000.

Definition hugePhoto : File := mkFile "poster.png" "image/png" (6 * 1024 * 1024).

(** A file that fails both tests: a GIF of 6 MB. *)
Definition hugeAnimation : File := mkFile "film.gif" "image/gif" (6 * 1024 * 1024).

Definition fencedAnswer : string :=
  "```html" ++ newline ++ "<p>Heat</p>" ++ newline ++ "```".

(** A back end that answers every request for notes with one fenced
    paragraph and every request for a PDF with some bytes. *)
Definition helpfulServer : World -> string -> File -> string -> result ResponseData :=
  fun _ url _ _ =>
    if url =? generateNotesPdfUrl then Ok (BlobData "%PDF-1.3")
    else Ok (NotesData fencedAnswer).

(** A back end that answers the first request for notes it receives and
    fails from then on. *)
Definition tiredServer : World -> string -> File -> string -> result ResponseData :=
  fun w _ _ _ =>
    match filter isPost (log w) with
    | [] => Ok (NotesData fencedAnswer)
    | _ => Throw (AxiosError None)
    end.

(** A back end that is down. *)
Definition downServer : World -> string -> File -> string -> result ResponseData :=
  fun _ _ _ _ => Throw (AxiosError (Some "OCR failed")).

Definition emptyWorld : World := mkWorld 0 [].

Definition studying : AppState :=
  setNotes "<h1>Heat</h1>" (setTopic "Heat" (setFiles [photo] initialState)).

Definition twoFiles : AppState := setTopic "Heat" (setFiles [photo; scan] initialState).

Definition threeFiles : AppState :=
  setTopic "Heat" (setFiles [photo; scan; photo] initialState).

(** Two files chosen, a topic typed, notes generated. *)
Definition afterUpload : AppState * World :=
  run helpfulServer a4Width a4Height wideWrap sampleParser pdfBytes "1/1/2025"
      [FileChange [photo; scan]; TopicChange "Heat"; Submit] (initialState, emptyWorld).

(** What the user does after the preview: a file is removed, the PDF is
    downloaded, another file is chosen. *)
Definition session : list action :=
  [RemoveFile 0; Download; FileChange [scan]].

(** ** Vocabulary of the further properties *)

Definition firstChar (s : string) : option ascii :=
  match s with
  | EmptyString => None
  | String c _ => Some c
  end.

(** The string is made of white-space characters only (so also: the
    empty string). *)
Inductive WhiteSpaceOnly : string -> Prop :=
| WhiteSpaceOnly_empty : WhiteSpaceOnly ""
| WhiteSpaceOnly_char ch rest :
    In ch whiteSpaceChars -> WhiteSpaceOnly rest -> WhiteSpaceOnly (ch ++ rest).

(** The string neither starts nor ends with a white-space character. *)
Definition trimmed (s : string) : Prop :=
  forall ch rest, In ch whiteSpaceChars -> s <> ch ++ rest /\ s <> rest ++ ch.

(** The requests for notes, one per file sent. *)
Definition notesRequests (topic : string) (sent : list File) : list event :=
  map (fun file => EvPost generateNotesUrl file topic) sent.

(** The browser once the files [sent] have been posted from [w] on. *)
Definition afterRequests (topic : string) (sent : list File) (w : World) : World :=
  mkWorld (nextObjectURL w) (log w ++ notesRequests topic sent).

(** Starting in [w], the request for the file at index [j] of [fileList],
    made when the files before it have been posted, is answered with
    notes. *)
Definition answered (axios_post : World -> string -> File -> string -> result ResponseData)
           (topic : string) (fileList : list File) (w : World) (j : nat) : Prop :=
  exists file notes,
    nth_error fileList j = Some file /\
    axios_post (afterRequests topic (firstn j fileList) w) generateNotesUrl file topic
    = Ok (NotesData notes).

(** Every byte is below 128. *)
Fixpoint isAscii (s : string) : bool :=
  match s with
  | EmptyString => true
  | String c rest => (nat_of_ascii c <? 128)%nat && isAscii rest
  end.

(** The no-break space, U+00A0. *)
Definition nbsp : string := ofBytes [194; 160]%nat.

(** A parser for [<p>&nbsp;Heat&nbsp;</p><ul><li>&nbsp; &#x3000;a
    </li></ul>]. *)
Definition paddedParser : string -> result node :=
  fun _ => Ok (ElementNode "BODY"
                 [ElementNode "P" [TextNode (nbsp ++ "Heat" ++ nbsp)];
                  ElementNode "UL"
                    [ElementNode "LI" [TextNode (wideBlank ++ "a" ++ newline)]]]).

(** The texts a block carries: its text, or its items. *)
Definition blockTexts (b : ContentBlock) : list string :=
  match b with
  | Heading1 t | Heading2 t | Heading3 t | Paragraph t => [t]
  | BulletList items | NumberList items => items
  end.

(** The text contains three backticks in a row. *)
Definition hasFence (s : string) : bool := includes fence s.

Definition tick : ascii := "`"%char.

Definition twoTicks (s : string) : bool :=
  match s with
  | String a (String b _) => Ascii.eqb tick a && Ascii.eqb tick b
  | _ => false
  end.

(** [URL.createObjectURL] events for files: the i-th URL goes with the
    i-th file. *)
Definition previewEvents (urls : list nat) (fileList : list File) : list event :=
  map (fun p => EvCreateObjectURL (fst p) (FileObject (snd p))) (combine urls fileList).

(** The file a clipboard item contributes: its type mentions "image", it
    yields a file, and the file is not above 5 MB. *)
Definition pastedFile (item : ClipboardItem) : option File :=
  if includes "image" (item_type item) then
    match getAsFile item with
    | Some file => if (maxFileSize <? size file)%N then None else Some file
    | None => None
    end
  else None.

Definition pastedFiles (items : list ClipboardItem) : list File :=
  flat_map (fun item => match pastedFile item with
                        | Some file => [file]
                        | None => []
                        end) items.

(** An item announced as an image that yields no file. *)
Definition unreadable (item : ClipboardItem) : bool :=
  includes "image" (item_type item) &&
  match getAsFile item with
  | Some _ => false
  | None => true
  end.

(** A clipboard with a poster that is too large, a piece of text, and a
    small animation. *)
Definition clipboard : list ClipboardItem :=
  [mkItem "image/png" (Some hugePhoto);
   mkItem "text/plain" None;
   mkItem "image/gif" (Some animation)].

(** A clipboard whose second image yields no file. *)
Definition brokenClipboard : list ClipboardItem :=
  [mkItem "image/png" (Some photo); mkItem "image/png" None].

(** [URL.createObjectURL] was called on a file (not on a blob). *)
Definition isFileCreate (e : event) : bool :=
  match e with
  | EvCreateObjectURL _ (FileObject _) => true
  | _ => false
  end.

(** The object URL an event mentions, if any, was handed out before [n]. *)
Definition numbered (n : nat) (e : event) : Prop :=
  match e with
  | EvCreateObjectURL u _ | EvRevokeObjectURL u | EvWindowOpen u _ | EvLinkClick u _ =>
      (u < n)%nat
  | _ => True
  end.

(** Object URLs in the state and in the log are URLs that were handed out. *)
Definition wellNumbered (sw : AppState * World) : Prop :=
  Forall (numbered (nextObjectURL (snd sw))) (log (snd sw)) /\
  Forall (fun v => (v < nextObjectURL (snd sw))%nat) (previewUrls (fst sw)).

(** There is one preview URL per file, and the i-th one was created for
    the i-th file. *)
Definition previewsMatch (sw : AppState * World) : Prop :=
  length (previewUrls (fst sw)) = length (files (fst sw)) /\
  forall i u f,
    nth_error (previewUrls (fst sw)) i = Some u ->
    nth_error (files (fst sw)) i = Some f ->
    In (EvCreateObjectURL u (FileObject f)) (log (snd sw)).

(** Every URL created for a file is a current preview or was revoked. *)
Definition previewsAccounted (sw : AppState * World) : Prop :=
  forall u f,
    In (EvCreateObjectURL u (FileObject f)) (log (snd sw)) ->
    revoked u (log (snd sw)) \/ In u (previewUrls (fst sw)).

(** The number of [pdf.text] calls a block makes: one for a text block,
    a marker and a text for each item of a list. *)
Definition runCount (b : ContentBlock) : nat :=
  match b with
  | BulletList items | NumberList items => 2 * length items
  | _ => 1
  end.

(** The runs are listed page by page: no run is on an earlier page than a
    run before it. *)
Fixpoint pagesInOrder (rs : list TextRun) : Prop :=
  match rs with
  | [] => True
  | r :: rest =>
      Forall (fun r' => (run_page r <= run_page r')%nat) rest /\ pagesInOrder rest
  end.

(** A run of the content: at the margin or at a list indent, not above
    the top margin, and with its first line above the threshold when the
    page has room for one. *)
Definition contentRun (H : Q) (r : TextRun) : Prop :=
  (run_x r = 40 \/ run_x r = 55 \/ run_x r = 60)%Z /\
  (40 <= run_y r)%Z /\
  (100 <= H -> inject_Z (run_y r) <= H - 60).

(** The state of a layout that started from [s0]: the runs of [s0] are
    still there, followed by content runs; the runs are in page order, none
    beyond the current page; the cursor is not above the top margin. *)
Definition laidOut (H : Q) (s0 s : Layout) : Prop :=
  (exists placed,
      runs (pdf s) = (runs (pdf s0) ++ placed)%list /\ Forall (contentRun H) placed) /\
  pagesInOrder (runs (pdf s)) /\
  Forall (fun r => (run_page r <= currentPage (pdf s))%nat) (runs (pdf s)) /\
  (40 <= yPos s)%Z.

(** Notes without any markup: the body holds one text node. *)
Definition plainTextParser : string -> result node :=
  fun html => Ok (ElementNode "BODY" [TextNode html]).

(** * Properties *)

(** ** White space *)

Lemma append_assoc (a b c : string) : (a ++ b) ++ c = a ++ (b ++ c).
Proof. induction a as [|x a IH]; simpl; [reflexivity|now rewrite IH]. Qed.

Lemma append_empty_r (a : string) : a ++ "" = a.
Proof. induction a as [|x a IH]; simpl; [reflexivity|now rewrite IH]. Qed.

Lemma startsWith_app_r p : forall a b, startsWith p a = true -> startsWith p (a ++ b) = true.
Proof.
  induction p as [|x p IH]; intros [|y a] b; simpl; try reflexivity; try discriminate.
  intros H. apply andb_true_iff in H. destruct H as [-> H]. now apply IH.
Qed.

Lemma startsWith_refl p : startsWith p p = true.
Proof. induction p as [|x p IH]; simpl; [reflexivity|]. now rewrite Ascii.eqb_refl. Qed.

Lemma startsWith_split p : forall s,
  startsWith p s = true -> s = p ++ drop (String.length p) s.
Proof.
  induction p as [|x p IH]; intros s; simpl.
  - now destruct s.
  - destruct s as [|y s]; [discriminate|]. intros H.
    apply andb_true_iff in H. destruct H as [E H].
    apply Ascii.eqb_eq in E. subst y. f_equal. now apply IH.
Qed.

Lemma startsWith_comparable p : forall q s,
  startsWith p s = true -> startsWith q s = true ->
  startsWith p q = true \/ startsWith q p = true.
Proof.
  induction p as [|x p IH]; intros q s Hp Hq.
  - now left.
  - destruct q as [|y q]; [now right|].
    destruct s as [|z s]; [discriminate|]. simpl in Hp, Hq.
    apply andb_true_iff in Hp. destruct Hp as [E1 Hp].
    apply andb_true_iff in Hq. destruct Hq as [E2 Hq].
    apply Ascii.eqb_eq in E1, E2. subst x y. simpl. rewrite Ascii.eqb_refl. simpl.
    now apply IH with s.
Qed.

Lemma drop_append a : forall b, drop (String.length a) (a ++ b) = b.
Proof. induction a as [|x a IH]; intros b; simpl; [now destruct b|apply IH]. Qed.

(** No white-space character is the beginning of another one. *)
Lemma whiteSpaceChars_prefix_free p q :
  In p whiteSpaceChars -> In q whiteSpaceChars -> startsWith p q = true -> p = q.
Proof.
  assert (H : forallb (fun p => forallb (fun q => implb (startsWith p q) (String.eqb p q))
                                        whiteSpaceChars) whiteSpaceChars = true)
    by (vm_compute; reflexivity).
  rewrite forallb_forall in H. intros Hp Hq Hs.
  specialize (H p Hp). rewrite forallb_forall in H. specialize (H q Hq).
  rewrite Hs in H. simpl in H. now apply String.eqb_eq.
Qed.

Lemma whiteSpaceChars_length ch :
  In ch whiteSpaceChars -> exists k, String.length ch = S k.
Proof.
  assert (H : forallb (fun p => negb (isEmpty p)) whiteSpaceChars = true)
    by (vm_compute; reflexivity).
  rewrite forallb_forall in H. intros Hin. specialize (H ch Hin).
  destruct ch; [discriminate|]. simpl. eauto.
Qed.

Lemma find_unique {A : Type} (f : A -> bool) (x : A) : forall l,
  In x l -> f x = true -> (forall y, In y l -> f y = true -> y = x) ->
  find f l = Some x.
Proof.
  induction l as [|a l IH]; intros Hin Hx Hu; [contradiction|]. simpl.
  destruct (f a) eqn:E.
  - f_equal. apply Hu; [now left|exact E].
  - destruct Hin as [->|Hin]; [congruence|].
    apply IH; auto. intros y Hy. apply Hu. now right.
Qed.

Lemma whiteSpaceBytes_char ch t :
  In ch whiteSpaceChars -> whiteSpaceBytes (ch ++ t) = String.length ch.
Proof.
  intros Hin. unfold whiteSpaceBytes.
  rewrite (@find_unique _ (fun c => startsWith c (ch ++ t)) ch); auto.
  - apply startsWith_app_r, startsWith_refl.
  - intros y Hy Hs.
    destruct (@startsWith_comparable y ch (ch ++ t) Hs) as [H|H].
    + apply startsWith_app_r, startsWith_refl.
    + now apply whiteSpaceChars_prefix_free.
    + symmetry. now apply whiteSpaceChars_prefix_free.
Qed.

Lemma whiteSpaceBytes_inv s k :
  whiteSpaceBytes s = S k ->
  exists ch t, In ch whiteSpaceChars /\ s = ch ++ t /\ String.length ch = S k.
Proof.
  unfold whiteSpaceBytes.
  destruct (find (fun ch => startsWith ch s) whiteSpaceChars) as [ch|] eqn:E; [|discriminate].
  apply find_some in E. destruct E as [Hin Hs]. intros L.
  exists ch, (drop (String.length ch) s). auto using startsWith_split.
Qed.

Lemma whiteSpaceBytes_zero s ch t :
  whiteSpaceBytes s = 0%nat -> In ch whiteSpaceChars -> s <> ch ++ t.
Proof.
  intros Z Hin ->. rewrite whiteSpaceBytes_char in Z by exact Hin.
  destruct (whiteSpaceChars_length Hin) as [k Hk]. congruence.
Qed.

Lemma trimStartFrom_drop s : forall k, trimStartFrom k s = trimStart (drop k s).
Proof.
  induction s as [|c s IH]; intros [|k]; try reflexivity. simpl. apply IH.
Qed.

Lemma blankFrom_drop s : forall k, blankFrom k s = blank (drop k s).
Proof.
  induction s as [|c s IH]; intros [|k]; try reflexivity. simpl. apply IH.
Qed.

Lemma trimStart_char ch t : In ch whiteSpaceChars -> trimStart (ch ++ t) = trimStart t.
Proof.
  intros Hin. pose proof (whiteSpaceBytes_char t Hin) as W.
  destruct (whiteSpaceChars_length Hin) as [k Hk].
  destruct ch as [|c ch]; [discriminate|]. simpl in Hk. injection Hk as Hk.
  unfold trimStart at 1. cbn [append trimStartFrom]. cbn [append] in W. rewrite W.
  cbn [String.length]. rewrite trimStartFrom_drop. now rewrite drop_append.
Qed.

Lemma trimStart_other s : whiteSpaceBytes s = 0%nat -> trimStart s = s.
Proof.
  intros Z. destruct s as [|c s]; [reflexivity|].
  unfold trimStart. cbn [trimStartFrom]. now rewrite Z.
Qed.

Lemma blank_char ch t : In ch whiteSpaceChars -> blank (ch ++ t) = blank t.
Proof.
  intros Hin. pose proof (whiteSpaceBytes_char t Hin) as W.
  destruct (whiteSpaceChars_length Hin) as [k Hk].
  destruct ch as [|c ch]; [discriminate|]. simpl in Hk. injection Hk as Hk.
  unfold blank at 1. cbn [append blankFrom]. cbn [append] in W. rewrite W.
  cbn [String.length]. rewrite blankFrom_drop. now rewrite drop_append.
Qed.

Lemma blank_other c s : whiteSpaceBytes (String c s) = 0%nat -> blank (String c s) = false.
Proof. intros Z. unfold blank. cbn [blankFrom]. now rewrite Z. Qed.

Lemma length_append a b : String.length (a ++ b) = (String.length a + String.length b)%nat.
Proof. induction a as [|x a IH]; simpl; [reflexivity|now rewrite IH]. Qed.

(** A string either starts with a white-space character or does not. *)
Lemma whiteSpace_cases s :
  whiteSpaceBytes s = 0%nat \/
  exists ch t, In ch whiteSpaceChars /\ s = ch ++ t /\ (String.length t < String.length s)%nat.
Proof.
  destruct (whiteSpaceBytes s) as [|k] eqn:E; [now left|right].
  apply whiteSpaceBytes_inv in E. destruct E as (ch & t & Hin & -> & L).
  exists ch, t. repeat split; auto. rewrite length_append. lia.
Qed.

Lemma string_length_ind (P : string -> Prop) :
  (forall s, (forall t, (String.length t < String.length s)%nat -> P t) -> P s) ->
  forall s, P s.
Proof.
  intros H s. remember (String.length s) as n eqn:E. revert s E.
  induction n as [n IH] using lt_wf_ind. intros s ->.
  apply H. intros t Ht. now apply (IH (String.length t)).
Qed.

Lemma blank_WhiteSpaceOnly s : blank s = true <-> WhiteSpaceOnly s.
Proof.
  split.
  - induction s as [s IH] using string_length_ind. intros B.
    destruct s as [|c s]; [constructor|].
    destruct (whiteSpace_cases (String c s)) as [Z|(ch & t & Hin & E & L)].
    + rewrite blank_other in B by exact Z. discriminate.
    + rewrite E in B |- *. rewrite blank_char in B by exact Hin.
      constructor; [exact Hin|]. now apply IH.
  - induction 1 as [|ch rest Hin _ IH]; [reflexivity|]. now rewrite blank_char.
Qed.

Lemma WhiteSpaceOnly_app a b :
  WhiteSpaceOnly a -> WhiteSpaceOnly b -> WhiteSpaceOnly (a ++ b).
Proof.
  induction 1 as [|ch rest Hin _ IH]; intros Hb; [exact Hb|].
  rewrite append_assoc. constructor; auto.
Qed.

(** [trimStart] removes a prefix of white space and stops at a character
    that is none. *)
Lemma trimStart_split s :
  exists pre, WhiteSpaceOnly pre /\ s = pre ++ trimStart s /\
              whiteSpaceBytes (trimStart s) = 0%nat.
Proof.
  induction s as [s IH] using string_length_ind.
  destruct (whiteSpace_cases s) as [Z|(ch & t & Hin & E & L)].
  - exists "". rewrite trimStart_other by exact Z. repeat split; [constructor|exact Z].
  - destruct (IH t L) as (pre & Hpre & Et & Z). subst s.
    exists (ch ++ pre). rewrite trimStart_char by exact Hin.
    repeat split; [now constructor| |exact Z].
    rewrite append_assoc. now rewrite <- Et.
Qed.

(** [trimEnd] removes a suffix of white space. *)
Lemma trimEnd_split s :
  exists tail, WhiteSpaceOnly tail /\ s = trimEnd s ++ tail.
Proof.
  induction s as [|c s IH].
  - exists "". split; [constructor|reflexivity].
  - cbn [trimEnd]. destruct (blank (String c s)) eqn:B.
    + exists (String c s). split; [now apply blank_WhiteSpaceOnly|reflexivity].
    + destruct IH as (tail & Ht & E). exists tail. split; [exact Ht|].
      cbn [append]. now rewrite <- E.
Qed.

Lemma trimEnd_blank s : trimEnd s = "" <-> WhiteSpaceOnly s.
Proof.
  rewrite <- blank_WhiteSpaceOnly. destruct s as [|c s]; [now split|].
  cbn [trimEnd]. destruct (blank (String c s)); split; congruence.
Qed.

(** The topic guard: trimming leaves nothing exactly when the string is
    made of white space only. *)
Lemma trim_blank s : trim s = "" <-> WhiteSpaceOnly s.
Proof.
  unfold trim. rewrite trimEnd_blank.
  destruct (trimStart_split s) as (pre & Hpre & E & _). split.
  - intros H. rewrite E. now apply WhiteSpaceOnly_app.
  - intros H. clear pre Hpre E.
    induction H as [|ch rest Hin _ IH]; [constructor|].
    now rewrite trimStart_char.
Qed.

Lemma trimEnd_not_blank c s :
  blank (String c s) = false -> blank (String c (trimEnd s)) = false.
Proof.
  intros B. destruct (blank (String c (trimEnd s))) eqn:B'; [|reflexivity].
  destruct (trimEnd_split s) as (tail & Ht & E).
  apply blank_WhiteSpaceOnly in B'.
  assert (W : WhiteSpaceOnly (String c (trimEnd s) ++ tail)) by now apply WhiteSpaceOnly_app.
  cbn [append] in W. rewrite <- E in W. apply blank_WhiteSpaceOnly in W. congruence.
Qed.

Lemma trimEnd_no_end s ch : forall rest,
  In ch whiteSpaceChars -> trimEnd s <> rest ++ ch.
Proof.
  intros rest Hin. revert rest. induction s as [|c s IH]; intros rest.
  - simpl. destruct (whiteSpaceChars_length Hin) as [k Hk].
    destruct rest; destruct ch; simpl in *; discriminate.
  - cbn [trimEnd]. destruct (blank (String c s)) eqn:B.
    + destruct (whiteSpaceChars_length Hin) as [k Hk].
      destruct rest; destruct ch; simpl in *; discriminate.
    + apply trimEnd_not_blank in B. intros E.
      destruct rest as [|c' rest].
      * cbn [append] in E. rewrite E in B.
        rewrite <- (append_empty_r ch) in B. rewrite blank_char in B by exact Hin.
        discriminate.
      * cbn [append] in E. injection E as _ E. now apply IH in E.
Qed.

Lemma trimEnd_no_start s :
  whiteSpaceBytes s = 0%nat -> whiteSpaceBytes (trimEnd s) = 0%nat.
Proof.
  intros Z. destruct (whiteSpaceBytes (trimEnd s)) as [|k] eqn:E; [reflexivity|].
  apply whiteSpaceBytes_inv in E. destruct E as (ch & t & Hin & E & _).
  destruct (trimEnd_split s) as (tail & _ & Es).
  rewrite E, append_assoc in Es. now apply whiteSpaceBytes_zero in Es.
Qed.

Lemma trim_no_start s : whiteSpaceBytes (trim s) = 0%nat.
Proof.
  unfold trim. apply trimEnd_no_start.
  now destruct (trimStart_split s) as (_ & _ & _ & Z).
Qed.

Lemma trim_trimmed s : trimmed (trim s).
Proof.
  intros ch rest Hin. split.
  - apply whiteSpaceBytes_zero; [apply trim_no_start|exact Hin].
  - unfold trim. now apply trimEnd_no_end.
Qed.

Lemma trimEnd_idem s : trimEnd (trimEnd s) = trimEnd s.
Proof.
  induction s as [|c s IH]; [reflexivity|]. cbn [trimEnd].
  destruct (blank (String c s)) eqn:B; [reflexivity|].
  cbn [trimEnd]. rewrite (@trimEnd_not_blank _ _ B). now rewrite IH.
Qed.

Lemma trim_idem s : trim (trim s) = trim s.
Proof.
  unfold trim at 1. rewrite trimStart_other by apply trim_no_start.
  unfold trim. apply trimEnd_idem.
Qed.

(** ** The parser *)

Lemma fold_left_push {A B : Type} (f : A -> B) (l : list A) (acc : list B) :
  fold_left (fun parsed a => (parsed ++ [f a])%list) l acc = (acc ++ map f l)%list.
Proof.
  revert acc; induction l as [|a l IH]; intros acc; simpl.
  - now rewrite app_nil_r.
  - rewrite IH, <- app_assoc. reflexivity.
Qed.

Lemma parseNotesContent_map parseFromString html body :
  parseFromString html = Ok body ->
  parseNotesContent parseFromString html
  = Ok (map parseElement (children (childNodes body))).
Proof.
  intros Hp. unfold parseNotesContent. rewrite Hp. simpl.
  now rewrite fold_left_push.
Qed.

Lemma parseElement_classified element : classifiedAs element (parseElement element).
Proof.
  unfold classifiedAs, parseElement.
  set (tag := toLowerCase (tagName element)). clearbody tag.
  repeat match goal with
         | |- context [String.eqb tag ?k] =>
             destruct (String.eqb_spec tag k); [subst tag; simpl|]
         end.
  all: repeat split; try reflexivity; try discriminate; try contradiction.
  all: exfalso; match goal with
                | H : ~ _ |- _ => apply H; simpl; auto 10
                end.
Qed.

(** C1. When the parsed body has N element children, [parseNotesContent]
    returns exactly N blocks; the block at position i is the one the
    mapping rule assigns to the i-th element child (h1, h2, h3, p, ul, ol by
    tag name, list items being the trimmed text of the immediate element
    children, any other tag a paragraph of the trimmed flattened text), so
    nothing is dropped or reordered. *)
Theorem parseNotesContent_one_block_per_element :
  forall parseFromString html body N,
    parseFromString html = Ok body ->
    length (children (childNodes body)) = N ->
    exists blocks,
      parseNotesContent parseFromString html = Ok blocks /\
      length blocks = N /\
      forall i element,
        nth_error (children (childNodes body)) i = Some element ->
        exists block,
          nth_error blocks i = Some block /\ classifiedAs element block.
Proof.
  intros parseFromString html body N Hp HN.
  exists (map parseElement (children (childNodes body))).
  split; [now apply parseNotesContent_map|].
  split; [now rewrite length_map|].
  intros i element Hi. exists (parseElement element). split.
  - now apply map_nth_error.
  - apply parseElement_classified.
Qed.

Lemma parseNotesContent_one_block_per_element_witness :
  exists blocks,
    parseNotesContent sampleParser "" = Ok blocks /\
    length blocks = 5%nat /\
    forall i element,
      nth_error (children (childNodes sampleBody)) i = Some element ->
      exists block, nth_error blocks i = Some block /\ classifiedAs element block.
Proof.
  apply (@parseNotesContent_one_block_per_element sampleParser "" sampleBody 5);
    reflexivity.
Defined.

Example parseNotesContent_sample :
  parseNotesContent sampleParser ""
  = Ok [Heading1 "Heat"; Paragraph "Energy in transit."; BulletList ["a"; "b"];
        NumberList ["x"]; Paragraph "rest bold"].
Proof. reflexivity. Qed.

(** ** The layout engine *)

Section LayoutFacts.

Variables W H : Q.
Variable split : jsPDF -> string -> Q -> result (list string).

Local Abbreviation check := (newPageIfNeeded H).

Lemma newPageIfNeeded_runs s : runs (pdf (check s)) = runs (pdf s).
Proof.
  unfold newPageIfNeeded. now destruct (pastThreshold H (yPos s)).
Qed.

Lemma newPageIfNeeded_cases s :
  (pastThreshold H (yPos s) = true /\ check s = mkLayout (addPage (pdf s)) 40) \/
  (pastThreshold H (yPos s) = false /\ check s = s).
Proof.
  unfold newPageIfNeeded. destruct (pastThreshold H (yPos s)); auto.
Qed.

Lemma pastThreshold_false y :
  pastThreshold H y = false -> inject_Z y <= H - 60.
Proof.
  unfold pastThreshold. intros E. apply negb_false_iff in E.
  now apply Qle_bool_iff.
Qed.

Lemma pastThreshold_true y :
  pastThreshold H y = true -> H - 60 < inject_Z y.
Proof.
  unfold pastThreshold. intros E. apply negb_true_iff in E.
  apply Qnot_le_lt. intros Hle. apply Qle_bool_iff in Hle. congruence.
Qed.

Lemma pastThreshold_iff y :
  pastThreshold H y = true <-> H - 60 < inject_Z y.
Proof.
  split; [apply pastThreshold_true|].
  intros Hlt. destruct (pastThreshold H y) eqn:E; [reflexivity|].
  apply pastThreshold_false in E. apply Qle_not_lt in E. contradiction.
Qed.

(** After the check the cursor is above the threshold, on any page that
    has room for a first line. *)
Lemma newPageIfNeeded_above s :
  100 <= H -> inject_Z (yPos (check s)) <= H - 60.
Proof.
  intros HH. destruct (newPageIfNeeded_cases s) as [[_ ->]|[E ->]].
  - simpl. unfold Qle, Qminus, Qplus, Qopp, inject_Z in *. simpl in *. lia.
  - now apply pastThreshold_false.
Qed.

(** *** One text block *)

Lemma renderBlock_Heading1 txt i s lines :
  split (selectFont "bold" 14 (pdf (check s))) txt (contentWidth W) = Ok lines ->
  renderBlock W H split (Heading1 txt) i s
  = Ok (mkLayout (text lines margin (yPos (check s))
                       (selectFont "bold" 14 (pdf (check s))))
                 (yPos (check s) + (len lines * 20) + 10)).
Proof. intros E. unfold renderBlock, selectFont in *. now rewrite E. Qed.

Lemma renderBlock_Heading2 txt i s lines :
  split (selectFont "bold" 12 (pdf (check s))) txt (contentWidth W) = Ok lines ->
  renderBlock W H split (Heading2 txt) i s
  = Ok (mkLayout (text lines margin (yPos (check s))
                       (selectFont "bold" 12 (pdf (check s))))
                 (yPos (check s) + (len lines * 18) + 8)).
Proof. intros E. unfold renderBlock, selectFont in *. now rewrite E. Qed.

Lemma renderBlock_Heading3 txt i s lines :
  split (selectFont "bold" 11 (pdf (check s))) txt (contentWidth W) = Ok lines ->
  renderBlock W H split (Heading3 txt) i s
  = Ok (mkLayout (text lines margin (yPos (check s))
                       (selectFont "bold" 11 (pdf (check s))))
                 (yPos (check s) + (len lines * 16) + 6)).
Proof. intros E. unfold renderBlock, selectFont in *. now rewrite E. Qed.

Lemma renderBlock_Paragraph txt i s lines :
  split (selectFont "normal" 11 (pdf (check s))) txt (contentWidth W) = Ok lines ->
  renderBlock W H split (Paragraph txt) i s
  = Ok (mkLayout (text lines margin (yPos (check s))
                       (selectFont "normal" 11 (pdf (check s))))
                 (yPos (check s) + (len lines * 14) + 10)).
Proof. intros E. unfold renderBlock, selectFont in *. now rewrite E. Qed.

(** *** One list item *)

Lemma renderBulletItem_ok item index s lines :
  split (pdf (check s)) item (contentWidth W - 15) = Ok lines ->
  renderBulletItem W H split item index s
  = Ok (mkLayout (text lines (margin + 15) (yPos (check s))
                       (text1 bulletPoint margin (yPos (check s)) (pdf (check s))))
                 (yPos (check s) + (len lines * 14) + 5)).
Proof. intros E. unfold renderBulletItem. now rewrite E. Qed.

Lemma renderNumberItem_ok item index s lines :
  split (pdf (check s)) item (contentWidth W - 20) = Ok lines ->
  renderNumberItem W H split item index s
  = Ok (mkLayout (text lines (margin + 20) (yPos (check s))
                       (text1 (Number_toString (index + 1) ++ ".") margin
                              (yPos (check s)) (pdf (check s))))
                 (yPos (check s) + (len lines * 14) + 5)).
Proof. intros E. unfold renderNumberItem. now rewrite E. Qed.

Lemma renderBulletItem_inv item index s s' :
  renderBulletItem W H split item index s = Ok s' ->
  exists lines,
    split (pdf (check s)) item (contentWidth W - 15) = Ok lines /\
    s' = mkLayout (text lines (margin + 15) (yPos (check s))
                        (text1 bulletPoint margin (yPos (check s)) (pdf (check s))))
                  (yPos (check s) + (len lines * 14) + 5).
Proof.
  unfold renderBulletItem.
  destruct (split (pdf (check s)) item (contentWidth W - 15)) as [lines|e];
    simpl; intros E; [|discriminate].
  exists lines. split; [reflexivity|congruence].
Qed.

Lemma renderNumberItem_inv item index s s' :
  renderNumberItem W H split item index s = Ok s' ->
  exists lines,
    split (pdf (check s)) item (contentWidth W - 20) = Ok lines /\
    s' = mkLayout (text lines (margin + 20) (yPos (check s))
                        (text1 (Number_toString (index + 1) ++ ".") margin
                               (yPos (check s)) (pdf (check s))))
                  (yPos (check s) + (len lines * 14) + 5).
Proof.
  unfold renderNumberItem.
  destruct (split (pdf (check s)) item (contentWidth W - 20)) as [lines|e];
    simpl; intros E; [|discriminate].
  exists lines. split; [reflexivity|congruence].
Qed.

(** *** A whole list *)

Lemma renderBlock_BulletList items i s :
  renderBlock W H split (BulletList items) i s
  = (s' <- forEach (renderBulletItem W H split) items
                   (mkLayout (selectFont "normal" 11 (pdf (check s))) (yPos (check s))) ;;
     Ok (mkLayout (pdf s') (yPos s' + 5))).
Proof. reflexivity. Qed.

Lemma renderBlock_NumberList items i s :
  renderBlock W H split (NumberList items) i s
  = (s' <- forEach (renderNumberItem W H split) items
                   (mkLayout (selectFont "normal" 11 (pdf (check s))) (yPos (check s))) ;;
     Ok (mkLayout (pdf s') (yPos s' + 5))).
Proof. reflexivity. Qed.

End LayoutFacts.

(** C8. The vertical advance of every step of the layout.  With the wrap
    returning [lines], the cursor (after the page check) moves by
    [lines * 20 + 10] for a first-level heading, [lines * 18 + 8] for a
    second-level one, [lines * 16 + 6] for a third-level one and
    [lines * 14 + 10] for a paragraph; a list item moves it by
    [lines * 14 + 5], and a list adds 5 after its last item.  The margin is
    40 and the content width is the page width minus twice 40. *)
Theorem cursor_advance_per_block :
  forall (W H : Q) (split : jsPDF -> string -> Q -> result (list string))
         (i : nat) (s : Layout),
    let y := yPos (newPageIfNeeded H s) in
    let p := pdf (newPageIfNeeded H s) in
    margin = 40%Z /\
    contentWidth W = W - 2 * 40 /\
    (forall txt lines,
        split (selectFont "bold" 14 p) txt (W - 2 * 40) = Ok lines ->
        exists s', renderBlock W H split (Heading1 txt) i s = Ok s' /\
                   yPos s' = (y + len lines * 20 + 10)%Z) /\
    (forall txt lines,
        split (selectFont "bold" 12 p) txt (W - 2 * 40) = Ok lines ->
        exists s', renderBlock W H split (Heading2 txt) i s = Ok s' /\
                   yPos s' = (y + len lines * 18 + 8)%Z) /\
    (forall txt lines,
        split (selectFont "bold" 11 p) txt (W - 2 * 40) = Ok lines ->
        exists s', renderBlock W H split (Heading3 txt) i s = Ok s' /\
                   yPos s' = (y + len lines * 16 + 6)%Z) /\
    (forall txt lines,
        split (selectFont "normal" 11 p) txt (W - 2 * 40) = Ok lines ->
        exists s', renderBlock W H split (Paragraph txt) i s = Ok s' /\
                   yPos s' = (y + len lines * 14 + 10)%Z) /\
    (forall item lines,
        split p item (W - 2 * 40 - 15) = Ok lines ->
        exists s', renderBulletItem W H split item i s = Ok s' /\
                   yPos s' = (y + len lines * 14 + 5)%Z) /\
    (forall item lines,
        split p item (W - 2 * 40 - 20) = Ok lines ->
        exists s', renderNumberItem W H split item i s = Ok s' /\
                   yPos s' = (y + len lines * 14 + 5)%Z) /\
    (forall items afterItems,
        forEach (renderBulletItem W H split) items
                (mkLayout (selectFont "normal" 11 p) y) = Ok afterItems ->
        exists s', renderBlock W H split (BulletList items) i s = Ok s' /\
                   yPos s' = (yPos afterItems + 5)%Z) /\
    (forall items afterItems,
        forEach (renderNumberItem W H split) items
                (mkLayout (selectFont "normal" 11 p) y) = Ok afterItems ->
        exists s', renderBlock W H split (NumberList items) i s = Ok s' /\
                   yPos s' = (yPos afterItems + 5)%Z).
Proof.
  intros W H split i s y p.
  assert (Hcw : contentWidth W = W - 2 * 40) by reflexivity.
  split; [reflexivity|]. split; [exact Hcw|].
  rewrite <- Hcw. subst y p.
  repeat split.
  - intros txt lines E. eexists. split.
    + eapply renderBlock_Heading1; exact E.
    + reflexivity.
  - intros txt lines E. eexists. split.
    + eapply renderBlock_Heading2; exact E.
    + reflexivity.
  - intros txt lines E. eexists. split.
    + eapply renderBlock_Heading3; exact E.
    + reflexivity.
  - intros txt lines E. eexists. split.
    + eapply renderBlock_Paragraph; exact E.
    + reflexivity.
  - intros item lines E. eexists. split.
    + eapply renderBulletItem_ok; exact E.
    + reflexivity.
  - intros item lines E. eexists. split.
    + eapply renderNumberItem_ok; exact E.
    + reflexivity.
  - intros items afterItems E. eexists. split.
    + rewrite renderBlock_BulletList. rewrite E. reflexivity.
    + reflexivity.
  - intros items afterItems E. eexists. split.
    + rewrite renderBlock_NumberList. rewrite E. reflexivity.
    + reflexivity.
Qed.

(** The cursor after the title lines of the first page. *)
Example titleBlock_cursor today topic : yPos (titleBlock today topic) = 95%Z.
Proof. reflexivity. Qed.

Lemma cursor_advance_per_block_witness :
  (exists s', renderBlock a4Width a4Height wideWrap (Heading1 (linesOfX 2)) 0
                          (titleBlock "1/1/2025" "Heat") = Ok s' /\
              yPos s' = (95 + 2 * 20 + 10)%Z) /\
  (exists s', renderBlock a4Width a4Height wideWrap (Paragraph (linesOfX 3)) 0
                          (titleBlock "1/1/2025" "Heat") = Ok s' /\
              yPos s' = (95 + 3 * 14 + 10)%Z) /\
  (exists s', renderBlock a4Width a4Height wideWrap (NumberList ["a"; "b"]) 0
                          (titleBlock "1/1/2025" "Heat") = Ok s' /\
              yPos s' = (95 + (1 * 14 + 5) + (1 * 14 + 5) + 5)%Z).
Proof.
  pose proof (@cursor_advance_per_block a4Width a4Height wideWrap 0
                (titleBlock "1/1/2025" "Heat")) as A.
  cbv zeta in A.
  destruct A as (_ & _ & A1 & _ & _ & A4 & _ & _ & _ & A8).
  split; [|split].
  - apply (A1 (linesOfX 2) (splitAtLineFeeds (linesOfX 2))). reflexivity.
  - apply (A4 (linesOfX 3) (splitAtLineFeeds (linesOfX 3))). reflexivity.
  - destruct (A8 ["a"; "b"] _ eq_refl) as (s' & E & Hy).
    exists s'. split; [exact E|]. rewrite Hy. reflexivity.
Defined.

(** ** List markers *)

Section ListMarkers.

Variables W H : Q.
Variable split : jsPDF -> string -> Q -> result (list string).

Lemma markers_app rs rs' : markers (rs ++ rs') = (markers rs ++ markers rs')%list.
Proof. unfold markers. now rewrite filter_app, map_app. Qed.

Lemma renderNumberItem_runs item index s s' :
  renderNumberItem W H split item index s = Ok s' ->
  exists placed,
    runs (pdf s') = (runs (pdf s) ++ placed)%list /\
    markers placed = [[Number_toString (index + 1) ++ "."]].
Proof.
  intros E. apply renderNumberItem_inv in E. destruct E as (lines & _ & ->).
  eexists. split.
  - simpl. rewrite newPageIfNeeded_runs, <- app_assoc. reflexivity.
  - reflexivity.
Qed.

Lemma renderBulletItem_runs item index s s' :
  renderBulletItem W H split item index s = Ok s' ->
  exists placed,
    runs (pdf s') = (runs (pdf s) ++ placed)%list /\
    markers placed = [[bulletPoint]].
Proof.
  intros E. apply renderBulletItem_inv in E. destruct E as (lines & _ & ->).
  eexists. split.
  - simpl. rewrite newPageIfNeeded_runs, <- app_assoc. reflexivity.
  - reflexivity.
Qed.

(** The markers of the items from position [index] on. *)
Lemma forEachFrom_number_markers items :
  forall index s s',
    forEachFrom (renderNumberItem W H split) index items s = Ok s' ->
    exists placed,
      runs (pdf s') = (runs (pdf s) ++ placed)%list /\
      markers placed
      = map (fun k => [Number_toString k ++ "."]) (seq (index + 1) (length items)).
Proof.
  induction items as [|item items IH]; intros index s s' E; simpl in E.
  - injection E as <-. exists []. split; [now rewrite app_nil_r|reflexivity].
  - destruct (renderNumberItem W H split item index s) as [s1|e] eqn:E1;
      simpl in E; [|discriminate].
    destruct (renderNumberItem_runs _ _ _ E1) as (placed1 & R1 & M1).
    destruct (IH _ _ _ E) as (placed & R & M).
    exists (placed1 ++ placed)%list. split.
    + now rewrite R, R1, app_assoc.
    + rewrite markers_app, M1, M. simpl.
      now replace (S index + 1)%nat with (S (index + 1)) by lia.
Qed.

Lemma forEachFrom_bullet_markers items :
  forall index s s',
    forEachFrom (renderBulletItem W H split) index items s = Ok s' ->
    exists placed,
      runs (pdf s') = (runs (pdf s) ++ placed)%list /\
      markers placed = repeat [bulletPoint] (length items).
Proof.
  induction items as [|item items IH]; intros index s s' E; simpl in E.
  - injection E as <-. exists []. split; [now rewrite app_nil_r|reflexivity].
  - destruct (renderBulletItem W H split item index s) as [s1|e] eqn:E1;
      simpl in E; [|discriminate].
    destruct (renderBulletItem_runs _ _ _ E1) as (placed1 & R1 & M1).
    destruct (IH _ _ _ E) as (placed & R & M).
    exists (placed1 ++ placed)%list. split.
    + now rewrite R, R1, app_assoc.
    + now rewrite markers_app, M1, M.
Qed.

Lemma forEachFrom_number_returns items :
  wrapsAll split items ->
  forall index s, exists s', forEachFrom (renderNumberItem W H split) index items s = Ok s'.
Proof.
  induction items as [|item items IH]; intros Hw index s; simpl.
  - now exists s.
  - destruct (Hw (pdf (newPageIfNeeded H s)) item (contentWidth W - 20))
      as (lines & E); [now left|].
    rewrite (@renderNumberItem_ok W H split item index s lines E). simpl.
    apply IH. intros p it w Hin. apply Hw. now right.
Qed.

Lemma forEachFrom_bullet_returns items :
  wrapsAll split items ->
  forall index s, exists s', forEachFrom (renderBulletItem W H split) index items s = Ok s'.
Proof.
  induction items as [|item items IH]; intros Hw index s; simpl.
  - now exists s.
  - destruct (Hw (pdf (newPageIfNeeded H s)) item (contentWidth W - 15))
      as (lines & E); [now left|].
    rewrite (@renderBulletItem_ok W H split item index s lines E). simpl.
    apply IH. intros p it w Hin. apply Hw. now right.
Qed.

(** [`${n}`] is the decimal numeral of [n]. *)
Lemma Number_toString_value n : decimalValue (Number_toString n) = Some n.
Proof.
  unfold decimalValue, Number_toString. rewrite NilEmpty.usu. simpl.
  now rewrite DecimalNat.Unsigned.of_to.
Qed.

Lemma to_uint_no_leading_zero n d : (1 <= n)%nat -> Nat.to_uint n <> Decimal.D0 d.
Proof.
  intros Hn E.
  assert (U : Decimal.unorm (Nat.to_uint n) = Nat.to_uint n)
    by (rewrite <- DecimalNat.Unsigned.to_of; now rewrite DecimalNat.Unsigned.of_to).
  rewrite E in U. unfold Decimal.unorm in U. cbn [Decimal.nzhead] in U.
  destruct (Decimal.nzhead d) eqn:Z; try discriminate U.
  - injection U as <-. change (Decimal.D0 Decimal.Nil) with (Nat.to_uint 0) in E.
    apply DecimalNat.Unsigned.to_uint_inj in E. lia.
  - now apply (@DecimalFacts.nzhead_nonzero d u).
Qed.

Lemma Number_toString_no_leading_zero n :
  (1 <= n)%nat -> prefix "0" (Number_toString n) = false.
Proof.
  intros Hn. unfold Number_toString.
  pose proof (fun d => @to_uint_no_leading_zero n d Hn) as Z.
  destruct (Nat.to_uint n) as [|d|d|d|d|d|d|d|d|d|d]; try reflexivity.
  now destruct (Z d).
Qed.

Lemma labelled_markers l :
  Forall (fun k => (1 <= k)%nat) l ->
  Forall2 labelled l (map (fun k => [Number_toString k ++ "."]) l).
Proof.
  induction 1 as [|k l Hk _ IH]; simpl; constructor; [|exact IH].
  exists (Number_toString k). split; [reflexivity|].
  split; [apply Number_toString_value|now apply Number_toString_no_leading_zero].
Qed.

End ListMarkers.

(** C7. A numbered list of K items whose texts the wrap accepts is rendered,
    and the markers it places, in order, are "1." to "K.": the marker of
    the item at position k (counted from 1) is the decimal numeral of k,
    without a leading zero, followed by a dot.  The numbering starts at 1
    in every list and does not depend on the page height or on where the
    cursor stands, so it stays contiguous when a page is added between two
    items.  The markers of a bullet list are K times the same glyph. *)
Theorem list_markers :
  forall (W H : Q) (split : jsPDF -> string -> Q -> result (list string))
         (items : list string) (i : nat) (s : Layout),
    wrapsAll split items ->
    (exists s' placed,
        renderBlock W H split (NumberList items) i s = Ok s' /\
        runs (pdf s') = (runs (pdf s) ++ placed)%list /\
        markers placed
        = map (fun k => [Number_toString k ++ "."]) (seq 1 (length items)) /\
        Forall2 labelled (seq 1 (length items)) (markers placed)) /\
    (exists s' placed,
        renderBlock W H split (BulletList items) i s = Ok s' /\
        runs (pdf s') = (runs (pdf s) ++ placed)%list /\
        markers placed = repeat ["•"] (length items)).
Proof.
  intros W H split items i s Hw. split.
  - rewrite renderBlock_NumberList. unfold forEach.
    destruct (@forEachFrom_number_returns W H split items Hw 0
                (mkLayout (selectFont "normal" 11 (pdf (newPageIfNeeded H s)))
                          (yPos (newPageIfNeeded H s)))) as (s1 & E).
    rewrite E. simpl.
    destruct (@forEachFrom_number_markers W H split items _ _ _ E) as (placed & R & M).
    eexists. exists placed. split; [reflexivity|]. split; [|split; [exact M|]].
    + simpl. rewrite R. simpl. now rewrite newPageIfNeeded_runs.
    + rewrite M. apply labelled_markers. apply Forall_forall.
      intros k Hk. apply in_seq in Hk. lia.
  - rewrite renderBlock_BulletList. unfold forEach.
    destruct (@forEachFrom_bullet_returns W H split items Hw 0
                (mkLayout (selectFont "normal" 11 (pdf (newPageIfNeeded H s)))
                          (yPos (newPageIfNeeded H s)))) as (s1 & E).
    rewrite E. simpl.
    destruct (@forEachFrom_bullet_markers W H split items _ _ _ E) as (placed & R & M).
    eexists. exists placed. split; [reflexivity|]. split; [|exact M].
    simpl. rewrite R. simpl. now rewrite newPageIfNeeded_runs.
Qed.

Lemma wideWrap_wrapsAll items : wrapsAll wideWrap items.
Proof. intros p item width _. eexists. reflexivity. Qed.

Example fortyItems_take_two_pages :
  exists s', renderBlock a4Width a4Height wideWrap (NumberList fortyItems) 0
                         (titleBlock "1/1/2025" "Heat") = Ok s' /\
             currentPage (pdf s') = 1%nat.
Proof. eexists. split; [vm_compute; reflexivity|reflexivity]. Qed.

Lemma list_markers_witness :
  wrapsAll wideWrap fortyItems /\
  exists s' placed,
    renderBlock a4Width a4Height wideWrap (NumberList fortyItems) 0
                (titleBlock "1/1/2025" "Heat") = Ok s' /\
    runs (pdf s') = (runs (pdf (titleBlock "1/1/2025" "Heat")) ++ placed)%list /\
    markers placed
    = [
       ["1."]; ["2."]; ["3."]; ["4."]; ["5."]; ["6."]; ["7."]; ["8."];
       ["9."]; ["10."]; ["11."]; ["12."]; ["13."]; ["14."]; ["15."];
       ["16."]; ["17."]; ["18."]; ["19."]; ["20."]; ["21."]; ["22."];
       ["23."]; ["24."]; ["25."]; ["26."]; ["27."]; ["28."]; ["29."];
       ["30."]; ["31."]; ["32."]; ["33."]; ["34."]; ["35."]; ["36."];
       ["37."]; ["38."]; ["39."]; ["40."] ].
Proof.
  split; [apply wideWrap_wrapsAll|].
  destruct (proj1 (@list_markers a4Width a4Height wideWrap fortyItems 0
                     (titleBlock "1/1/2025" "Heat") (wideWrap_wrapsAll fortyItems)))
    as (s' & placed & E & R & M & _).
  exists s', placed. split; [exact E|]. split; [exact R|].
  rewrite M. reflexivity.
Defined.

(** ** Page breaks *)

Section PageBreaks.

Variables W H : Q.
Variable split : jsPDF -> string -> Q -> result (list string).
Hypothesis roomForOneLine : 100 <= H.

Lemma renderNumberItem_above item index s s' :
  renderNumberItem W H split item index s = Ok s' ->
  exists placed,
    runs (pdf s') = (runs (pdf s) ++ placed)%list /\
    Forall (firstLineAboveThreshold H) placed.
Proof.
  intros E. apply renderNumberItem_inv in E. destruct E as (lines & _ & ->).
  eexists. split.
  - simpl. rewrite newPageIfNeeded_runs, <- app_assoc. reflexivity.
  - repeat constructor; unfold firstLineAboveThreshold; simpl;
      now apply newPageIfNeeded_above.
Qed.

Lemma renderBulletItem_above item index s s' :
  renderBulletItem W H split item index s = Ok s' ->
  exists placed,
    runs (pdf s') = (runs (pdf s) ++ placed)%list /\
    Forall (firstLineAboveThreshold H) placed.
Proof.
  intros E. apply renderBulletItem_inv in E. destruct E as (lines & _ & ->).
  eexists. split.
  - simpl. rewrite newPageIfNeeded_runs, <- app_assoc. reflexivity.
  - repeat constructor; unfold firstLineAboveThreshold; simpl;
      now apply newPageIfNeeded_above.
Qed.

(** Any loop whose steps place their runs above the threshold does so
    as a whole. *)
Lemma forEachFrom_above (f : string -> nat -> Layout -> result Layout) :
  (forall item index s s',
      f item index s = Ok s' ->
      exists placed, runs (pdf s') = (runs (pdf s) ++ placed)%list /\
                     Forall (firstLineAboveThreshold H) placed) ->
  forall items index s s',
    forEachFrom f index items s = Ok s' ->
    exists placed, runs (pdf s') = (runs (pdf s) ++ placed)%list /\
                   Forall (firstLineAboveThreshold H) placed.
Proof.
  intros Hf. induction items as [|item items IH]; intros index s s' E; simpl in E.
  - injection E as <-. exists []. split; [now rewrite app_nil_r|constructor].
  - destruct (f item index s) as [s1|e] eqn:E1; simpl in E; [|discriminate].
    destruct (Hf _ _ _ _ E1) as (placed1 & R1 & A1).
    destruct (IH _ _ _ E) as (placed & R & A).
    exists (placed1 ++ placed)%list. split.
    + now rewrite R, R1, app_assoc.
    + apply Forall_app. now split.
Qed.

(** A block that is not a list: one run, on the page and at the height
    the check leaves. *)
Lemma renderBlock_text_inv b i s s' :
  isList b = false ->
  renderBlock W H split b i s = Ok s' ->
  exists r,
    runs (pdf s') = (runs (pdf s) ++ [r])%list /\
    run_page r = currentPage (pdf (newPageIfNeeded H s)) /\
    run_y r = yPos (newPageIfNeeded H s) /\
    run_x r = margin /\
    currentPage (pdf s') = currentPage (pdf (newPageIfNeeded H s)).
Proof.
  intros Hb E. destruct b as [txt|txt|txt|txt|items|items]; try discriminate;
    unfold renderBlock in E;
    match type of E with
    | context [split ?p ?t ?w] => destruct (split p t w) as [lines|e]; simpl in E
    end; try discriminate; injection E as <-;
    eexists; simpl; rewrite newPageIfNeeded_runs; repeat split; reflexivity.
Qed.

Lemma newPageIfNeeded_page s :
  currentPage (pdf (newPageIfNeeded H s))
  = (currentPage (pdf s) + if pastThreshold H (yPos s) then 1 else 0)%nat.
Proof.
  unfold newPageIfNeeded. destruct (pastThreshold H (yPos s)); simpl; lia.
Qed.

End PageBreaks.

Section ListPlacement.

Variables W H : Q.
Variable split : jsPDF -> string -> Q -> result (list string).

Lemma newPageIfNeeded_pageAfterCheck s :
  currentPage (pdf (newPageIfNeeded H s)) = pageAfterCheck H (currentPage (pdf s)) (yPos s).
Proof.
  unfold newPageIfNeeded, pageAfterCheck. destruct (pastThreshold H (yPos s)); simpl; lia.
Qed.

Lemma newPageIfNeeded_cursorAfterCheck s :
  yPos (newPageIfNeeded H s) = cursorAfterCheck H (yPos s).
Proof.
  unfold newPageIfNeeded, cursorAfterCheck. now destruct (pastThreshold H (yPos s)).
Qed.

Lemma renderNumberItem_places : placesOneItem H (renderNumberItem W H split).
Proof.
  intros item index s s' E. apply renderNumberItem_inv in E.
  destruct E as (lines & _ & ->).
  eexists. eexists. cbn [pdf yPos text text1 runs currentPage].
  rewrite newPageIfNeeded_runs, <- app_assoc.
  split; [reflexivity|]. cbn [run_page run_y run_lines].
  rewrite newPageIfNeeded_pageAfterCheck, newPageIfNeeded_cursorAfterCheck.
  repeat split; reflexivity.
Qed.

Lemma renderBulletItem_places : placesOneItem H (renderBulletItem W H split).
Proof.
  intros item index s s' E. apply renderBulletItem_inv in E.
  destruct E as (lines & _ & ->).
  eexists. eexists. cbn [pdf yPos text text1 runs currentPage].
  rewrite newPageIfNeeded_runs, <- app_assoc.
  split; [reflexivity|]. cbn [run_page run_y run_lines].
  rewrite newPageIfNeeded_pageAfterCheck, newPageIfNeeded_cursorAfterCheck.
  repeat split; reflexivity.
Qed.

(** The loop over the items of a list. *)
Lemma forEachFrom_itemsPlaced (f : string -> nat -> Layout -> result Layout) :
  placesOneItem H f ->
  forall items index s s',
    forEachFrom f index items s = Ok s' ->
    exists placed,
      runs (pdf s') = (runs (pdf s) ++ placed)%list /\
      length placed = (2 * length items)%nat /\
      itemsPlaced H (currentPage (pdf s)) (yPos s) placed (currentPage (pdf s')) (yPos s').
Proof.
  intros Hf. induction items as [|item items IH]; intros index s s' E; simpl in E.
  - injection E as <-. exists []. split; [now rewrite app_nil_r|].
    split; [reflexivity|constructor].
  - destruct (f item index s) as [s1|e] eqn:E1; simpl in E; [|discriminate].
    destruct (Hf _ _ _ _ E1) as (marker & itemRun & R1 & Pm & Pi & Ym & Yi & Pc & Yc).
    destruct (IH _ _ _ E) as (placed & R & L & P).
    exists (marker :: itemRun :: placed). split; [|split].
    + rewrite R, R1, <- app_assoc. reflexivity.
    + simpl. lia.
    + constructor; try assumption. rewrite <- Pc, <- Yc. exact P.
Qed.

(** A list block: the check before the block, then the items. *)
Lemma renderBlock_list_placed b i s s' :
  isList b = true ->
  renderBlock W H split b i s = Ok s' ->
  exists placed,
    runs (pdf s') = (runs (pdf s) ++ placed)%list /\
    length placed = (2 * length (listItems b))%nat /\
    itemsPlaced H (pageAfterCheck H (currentPage (pdf s)) (yPos s))
                (cursorAfterCheck H (yPos s)) placed
                (currentPage (pdf s')) (yPos s' - 5).
Proof.
  intros Hb E. destruct b as [txt|txt|txt|txt|items|items]; try discriminate.
  - rewrite renderBlock_BulletList in E. unfold forEach in E.
    match type of E with
    | context [forEachFrom ?f ?n ?l ?s0] => destruct (forEachFrom f n l s0) as [s1|e] eqn:E1
    end; simpl in E; [|discriminate]. injection E as <-.
    destruct (forEachFrom_itemsPlaced renderBulletItem_places _ _ _ E1)
      as (placed & R & L & P).
    exists placed. cbn [pdf yPos selectFont setTextColor setFontSize setFont runs
                        currentPage listItems] in *.
    rewrite newPageIfNeeded_runs in R.
    rewrite newPageIfNeeded_pageAfterCheck, newPageIfNeeded_cursorAfterCheck in P.
    split; [exact R|]. split; [exact L|].
    now replace (yPos s1 + 5 - 5)%Z with (yPos s1) by lia.
  - rewrite renderBlock_NumberList in E. unfold forEach in E.
    match type of E with
    | context [forEachFrom ?f ?n ?l ?s0] => destruct (forEachFrom f n l s0) as [s1|e] eqn:E1
    end; simpl in E; [|discriminate]. injection E as <-.
    destruct (forEachFrom_itemsPlaced renderNumberItem_places _ _ _ E1)
      as (placed & R & L & P).
    exists placed. cbn [pdf yPos selectFont setTextColor setFontSize setFont runs
                        currentPage listItems] in *.
    rewrite newPageIfNeeded_runs in R.
    rewrite newPageIfNeeded_pageAfterCheck, newPageIfNeeded_cursorAfterCheck in P.
    split; [exact R|]. split; [exact L|].
    now replace (yPos s1 + 5 - 5)%Z with (yPos s1) by lia.
Qed.

End ListPlacement.

(** C2, as the code has it.  The check [yPos > pageHeight - 60] runs before
    every block and before every list item and looks at the cursor alone:
    a page is added (and the cursor set to 40) before a block, and before
    a list item, exactly when the cursor has already passed the threshold,
    whatever the height of what follows.  A block that is not a list is
    placed by one [pdf.text] call, hence on one page, the one the check
    leaves.  A list block places, after its own check, two runs for each
    item, the marker and the text, on the page and at the height the check
    before that item leaves.  The first line of every run (a text block, a
    list marker, a list item) is at or above [pageHeight - 60] on a page of
    height at least 100. *)
Theorem page_break_checks_cursor_only :
  forall (W H : Q) (split : jsPDF -> string -> Q -> result (list string))
         (b : ContentBlock) (i : nat) (s s' : Layout),
    100 <= H ->
    renderBlock W H split b i s = Ok s' ->
    (pastThreshold H (yPos s) = true <-> H - 60 < inject_Z (yPos s)) /\
    exists placed,
      runs (pdf s') = (runs (pdf s) ++ placed)%list /\
      Forall (firstLineAboveThreshold H) placed /\
      (isList b = false ->
       exists r,
         placed = [r] /\
         run_page r = currentPage (pdf s') /\
         currentPage (pdf s')
         = (currentPage (pdf s) + if pastThreshold H (yPos s) then 1 else 0)%nat /\
         run_y r = if pastThreshold H (yPos s) then 40%Z else yPos s) /\
      (isList b = true ->
       length placed = (2 * length (listItems b))%nat /\
       itemsPlaced H
                   (currentPage (pdf s) + if pastThreshold H (yPos s) then 1 else 0)%nat
                   (if pastThreshold H (yPos s) then 40%Z else yPos s)
                   placed (currentPage (pdf s')) (yPos s' - 5)).
Proof.
  intros W H split b i s s' HH E.
  split; [apply pastThreshold_iff|].
  destruct (isList b) eqn:Hb.
  - destruct (@renderBlock_list_placed W H split b i s s' Hb E) as (placed & R & L & P).
    exists placed. split; [exact R|]. split; [|split; [discriminate|]].
    + destruct b as [txt|txt|txt|txt|items|items]; try discriminate.
      * rewrite renderBlock_BulletList in E. unfold forEach in E.
        match type of E with
        | context [forEachFrom ?f ?n ?l ?s0] =>
            destruct (forEachFrom f n l s0) as [s1|e] eqn:E1
        end; simpl in E; [|discriminate]. injection E as <-.
        destruct (@forEachFrom_above H (renderBulletItem W H split)
                    (fun item index s s' =>
                       @renderBulletItem_above W H split HH item index s s')
                    _ _ _ _ E1) as (placed' & R' & A).
        simpl in R, R'. rewrite newPageIfNeeded_runs in R'. rewrite R in R'.
        apply app_inv_head in R'. now subst placed'.
      * rewrite renderBlock_NumberList in E. unfold forEach in E.
        match type of E with
        | context [forEachFrom ?f ?n ?l ?s0] =>
            destruct (forEachFrom f n l s0) as [s1|e] eqn:E1
        end; simpl in E; [|discriminate]. injection E as <-.
        destruct (@forEachFrom_above H (renderNumberItem W H split)
                    (fun item index s s' =>
                       @renderNumberItem_above W H split HH item index s s')
                    _ _ _ _ E1) as (placed' & R' & A).
        simpl in R, R'. rewrite newPageIfNeeded_runs in R'. rewrite R in R'.
        apply app_inv_head in R'. now subst placed'.
    + intros _. split; [exact L|exact P].
  - destruct (@renderBlock_text_inv W H split b i s s' Hb E) as (r & R & Hp & Hy & _ & Hc).
    exists [r]. split; [exact R|]. split; [|split; [|discriminate]].
    + constructor; [|constructor]. unfold firstLineAboveThreshold. rewrite Hy.
      now apply newPageIfNeeded_above.
    + intros _. exists r. split; [reflexivity|]. split; [congruence|]. split.
      * rewrite Hc. apply newPageIfNeeded_page.
      * rewrite Hy. unfold newPageIfNeeded.
        now destruct (pastThreshold H (yPos s)).
Qed.

Lemma page_break_checks_cursor_only_witness :
  100 <= a4Height /\
  (exists s0 s1 placed,
      layoutContent a4Width a4Height wideWrap "1/1/2025" "Heat" [Paragraph (linesOfX 48)]
      = Ok s0 /\
      renderBlock a4Width a4Height wideWrap (Paragraph (linesOfX 10)) 1 s0 = Ok s1 /\
      runs (pdf s1) = (runs (pdf s0) ++ placed)%list /\
      Forall (firstLineAboveThreshold a4Height) placed) /\
  (exists s1 placed,
      renderBlock a4Width a4Height wideWrap (NumberList fortyItems) 0
                  (titleBlock "1/1/2025" "Heat") = Ok s1 /\
      runs (pdf s1) = (runs (pdf (titleBlock "1/1/2025" "Heat")) ++ placed)%list /\
      length placed = 80%nat /\
      itemsPlaced a4Height 0 95 placed 1 97).
Proof.
  assert (HH : 100 <= a4Height) by (unfold a4Height; lra).
  split; [exact HH|]. split.
  - eexists. eexists.
    assert (E : renderBlock a4Width a4Height wideWrap (Paragraph (linesOfX 10)) 1
                  (mkLayout (text (splitAtLineFeeds (linesOfX 48)) margin 95
                               (selectFont "normal" 11 (pdf (titleBlock "1/1/2025" "Heat"))))
                            777)
                = Ok (mkLayout
                        (text (splitAtLineFeeds (linesOfX 10)) margin 777
                           (selectFont "normal" 11
                              (text (splitAtLineFeeds (linesOfX 48)) margin 95
                                 (selectFont "normal" 11 (pdf (titleBlock "1/1/2025" "Heat"))))))
                        927)) by (vm_compute; reflexivity).
    destruct (@page_break_checks_cursor_only a4Width a4Height wideWrap _ _ _ _ HH E)
      as (_ & placed & R & A & _).
    exists placed. split; [vm_compute; reflexivity|]. split; [exact E|]. split; assumption.
  - assert (E : renderBlock a4Width a4Height wideWrap (NumberList fortyItems) 0
                    (titleBlock "1/1/2025" "Heat") = Ok fortyItemsLayout)
      by (vm_compute; reflexivity).
    destruct (@page_break_checks_cursor_only a4Width a4Height wideWrap _ _ _ _ HH E)
      as (_ & placed & R & _ & _ & Hlist).
    destruct (Hlist eq_refl) as (L & P).
    exists fortyItemsLayout, placed.
    split; [exact E|]. split; [exact R|]. split; [exact L|].
    vm_compute in P. exact P.
Defined.

(** C2 as stated fails on [twoParagraphs]: the second paragraph starts at
    777, above the threshold 781.89, so no page is added before it; its ten
    lines run below the threshold (and off the page) at any line pitch of a
    point or more, although on a fresh page they would all stay above it at
    any pitch up to the 14 units the cursor allows per line. *)
Lemma block_placed_across_threshold :
  exists s r,
    layoutContent a4Width a4Height wideWrap "1/1/2025" "Heat" twoParagraphs = Ok s /\
    currentPage (pdf s) = 0%nat /\
    nth_error (runs (pdf s)) 3 = Some r /\
    run_page r = 0%nat /\
    run_y r = 777%Z /\
    length (run_lines r) = 10%nat /\
    (forall pitch, 1 <= pitch -> ~ linesAboveThreshold a4Height pitch r) /\
    (forall pitch (k : nat), 0 <= pitch -> pitch <= 14 -> (k < 10)%nat ->
                     40 + inject_Z (Z.of_nat k) * pitch <= a4Height - 60).
Proof.
  eexists. eexists.
  split; [vm_compute; reflexivity|].
  split; [reflexivity|]. split; [reflexivity|].
  split; [reflexivity|]. split; [reflexivity|]. split; [reflexivity|].
  split.
  - intros pitch Hp Habove.
    specialize (Habove 9%nat). simpl in Habove.
    assert (L : (9 < 10)%nat) by lia. specialize (Habove L).
    unfold a4Height, inject_Z in Habove. lra.
  - intros pitch k H0 H14 Hk. unfold a4Height.
    assert (Hk' : inject_Z (Z.of_nat k) <= 9).
    { change 9 with (inject_Z 9). rewrite <- Zle_Qle. lia. }
    assert (Hk0 : 0 <= inject_Z (Z.of_nat k)).
    { change 0 with (inject_Z 0). rewrite <- Zle_Qle. lia. }
    set (q := inject_Z (Z.of_nat k)) in *. clearbody q.
    assert (Hprod : q * pitch <= 9 * 14).
    { apply Qle_trans with (9 * pitch).
      - apply Qmult_le_compat_r; assumption.
      - lra. }
    lra.
Qed.

(** ** The name of the downloaded file *)

Lemma toLowerCase_hasBackslash s : hasBackslash (toLowerCase s) = hasBackslash s.
Proof.
  induction s as [|c s IH]; simpl; [reflexivity|]. rewrite IH. f_equal.
  unfold lowerChar. destruct (isUpper c) eqn:U; [|reflexivity].
  destruct c as [[] [] [] [] [] [] [] []]; try discriminate U; reflexivity.
Qed.

Lemma replaceAll_backslashThenS_id s :
  hasBackslash s = false -> replaceAll backslashThenS "-" s = s.
Proof.
  unfold replaceAll. induction s as [|c s IH]; simpl; [reflexivity|].
  intros Hb. apply orb_false_iff in Hb. destruct Hb as [Hc Hs].
  destruct c as [[] [] [] [] [] [] [] []]; try discriminate Hc;
    simpl; now rewrite IH.
Qed.

(** On a topic without a backslash the replacement of [handleDownload]
    changes nothing: white space stays in the file name. *)
Lemma downloadName_without_backslash topic :
  hasBackslash topic = false ->
  downloadName topic = toLowerCase topic ++ "-notes.pdf".
Proof.
  intros Hb. unfold downloadName.
  rewrite replaceAll_backslashThenS_id; [reflexivity|].
  now rewrite toLowerCase_hasBackslash.
Qed.

(** C3 at the topic "WW2 History".  [handleDownload] offers the file as
    "ww2 history-notes.pdf": the pattern of its [replace] is a backslash
    followed by letters s, not white space, so the blank is kept; the name
    the specification describes is "ww2-history-notes.pdf". *)
Theorem handleDownload_name_keeps_blank :
  let st := setTopic "WW2 History" (setFiles [photo] initialState) in
  snd (handleDownload helpfulServer st emptyWorld)
  = mkWorld 1 [EvPost generateNotesPdfUrl photo "WW2 History";
               EvCreateObjectURL 0 (BlobObject "%PDF-1.3" "application/pdf");
               EvLinkClick 0 "ww2 history-notes.pdf";
               EvRevokeObjectURL 0] /\
  downloadName "WW2 History" = "ww2 history-notes.pdf" /\
  specifiedDownloadName "WW2 History" = "ww2-history-notes.pdf" /\
  downloadName "WW2 History" <> specifiedDownloadName "WW2 History".
Proof.
  repeat split; try reflexivity. discriminate.
Qed.

(** ** Submitting *)

(** C4. A submission with no file, or with a topic that is empty or made of
    white space only (white space as [String.prototype.trim] has it,
    U+00A0 and U+3000 included), is stopped before anything else happens:
    the browser is left as it was (so no request is sent), the notes are
    unchanged, and an error message is set: the file error when there is
    no file, the general error otherwise. *)
Theorem handleSubmit_blocked :
  forall (axios_post : World -> string -> File -> string -> result ResponseData)
         (st : AppState) (w : World),
    files st = [] \/ WhiteSpaceOnly (topic st) ->
    snd (handleSubmit axios_post st w) = w /\
    notes (fst (handleSubmit axios_post st w)) = notes st /\
    files (fst (handleSubmit axios_post st w)) = files st /\
    loading (fst (handleSubmit axios_post st w)) = loading st /\
    (files st = [] ->
     fileError (fst (handleSubmit axios_post st w))
     = "Please upload at least one image file") /\
    (files st <> [] ->
     error (fst (handleSubmit axios_post st w)) = "Please enter a subject/topic").
Proof.
  intros axios_post st w Hblocked. unfold handleSubmit.
  destruct (files st) as [|file rest] eqn:Hf; simpl.
  - repeat split; try reflexivity; try assumption; congruence.
  - destruct Hblocked as [Hfiles|Htopic]; [discriminate|].
    apply trim_blank in Htopic.
    rewrite Htopic. simpl. repeat split; try reflexivity; try assumption; discriminate.
Qed.

Lemma handleSubmit_blocked_witness :
  (files (setTopic wideBlank (setFiles [photo] (setNotes "<p>old</p>" initialState))) = [] \/
   WhiteSpaceOnly
     (topic (setTopic wideBlank (setFiles [photo] (setNotes "<p>old</p>" initialState))))) /\
  snd (handleSubmit helpfulServer
         (setTopic wideBlank (setFiles [photo] (setNotes "<p>old</p>" initialState)))
         emptyWorld) = emptyWorld /\
  notes (fst (handleSubmit helpfulServer
                (setTopic wideBlank (setFiles [photo] (setNotes "<p>old</p>" initialState)))
                emptyWorld)) = "<p>old</p>" /\
  error (fst (handleSubmit helpfulServer
                (setTopic wideBlank (setFiles [photo] (setNotes "<p>old</p>" initialState)))
                emptyWorld)) = "Please enter a subject/topic".
Proof.
  assert (Hb : files (setTopic wideBlank
                        (setFiles [photo] (setNotes "<p>old</p>" initialState))) = [] \/
               WhiteSpaceOnly
                 (topic (setTopic wideBlank
                           (setFiles [photo] (setNotes "<p>old</p>" initialState)))))
    by (right; apply blank_WhiteSpaceOnly; reflexivity).
  split; [exact Hb|].
  destruct (@handleSubmit_blocked helpfulServer
              (setTopic wideBlank (setFiles [photo] (setNotes "<p>old</p>" initialState)))
              emptyWorld Hb) as (Hw & Hn & _ & _ & _ & He).
  split; [exact Hw|]. split; [exact Hn|]. apply He. discriminate.
Defined.

(** ** Choosing files *)

Lemma setFileError_same st : setFileError (fileError st) st = st.
Proof. now destruct st. Qed.

Lemma setFileError_twice a b st : setFileError a (setFileError b st) = setFileError a st.
Proof. reflexivity. Qed.

Lemma acceptable_iff file :
  acceptable file = true <->
  (type file = "image/jpeg" \/ type file = "image/jpg" \/ type file = "image/png") /\
  (size file <= 5 * 1024 * 1024)%N.
Proof.
  unfold acceptable, typeListed, validTypes. simpl.
  rewrite andb_true_iff, !orb_true_iff, !String.eqb_eq, N.leb_le.
  intuition discriminate.
Qed.

Lemma validateFile_accept validFiles st file :
  acceptable file = true ->
  validateFile (validFiles, st) file = ((validFiles ++ [file])%list, st).
Proof.
  unfold acceptable, typeListed, validateFile. intros Ha.
  apply andb_true_iff in Ha. destruct Ha as [Ht Hs]. rewrite Ht. simpl.
  apply N.leb_le in Hs.
  destruct (N.ltb_spec maxFileSize (size file)) as [Hlt|_]; [|reflexivity].
  unfold maxFileSize in Hlt. lia.
Qed.

Lemma validateFile_refuse validFiles st file :
  acceptable file = false ->
  validateFile (validFiles, st) file = (validFiles, setFileError (refusal file) st).
Proof.
  unfold acceptable, refusal, typeListed, validateFile. intros Ha.
  destruct (existsb (String.eqb (type file)) validTypes); simpl in *; [|reflexivity].
  apply N.leb_gt in Ha.
  destruct (N.ltb_spec maxFileSize (size file)) as [_|Hle]; [reflexivity|].
  unfold maxFileSize in Hle. lia.
Qed.

(** The loop keeps the acceptable files, in order; the other cells of the
    state are not touched. *)
Lemma validate_loop selectedFiles :
  forall validFiles st,
    exists msg,
      fold_left validateFile selectedFiles (validFiles, st)
      = ((validFiles ++ filter acceptable selectedFiles)%list, setFileError msg st) /\
      (Forall (fun f => acceptable f = true) selectedFiles -> msg = fileError st) /\
      (forall before file after,
          selectedFiles = (before ++ file :: after)%list ->
          acceptable file = false ->
          Forall (fun f => acceptable f = true) after ->
          msg = refusal file).
Proof.
  induction selectedFiles as [|f l IH]; intros validFiles st; cbn [fold_left filter].
  - exists (fileError st). rewrite app_nil_r, setFileError_same.
    split; [reflexivity|]. split; [reflexivity|].
    intros [|b before] file after E; discriminate.
  - destruct (acceptable f) eqn:Ha.
    + rewrite validateFile_accept by assumption.
      destruct (IH (validFiles ++ [f])%list st) as (msg & E & Hall & Hlast).
      exists msg. rewrite E, <- app_assoc. split; [reflexivity|]. split.
      * intros HF. inversion HF; subst. now apply Hall.
      * intros [|b before] file after Heq Hr Hafter; simpl in Heq;
          injection Heq as -> ->; [congruence|]. eapply Hlast; eauto.
    + rewrite validateFile_refuse by assumption.
      destruct (IH validFiles (setFileError (refusal f) st)) as (msg & E & Hall & Hlast).
      exists msg. rewrite E, setFileError_twice. split; [reflexivity|]. split.
      * intros HF. inversion HF; subst. congruence.
      * intros [|b before] file after Heq Hr Hafter; simpl in Heq;
          injection Heq as -> ->.
        -- now apply Hall in Hafter.
        -- eapply Hlast; eauto.
Qed.

Lemma createPreviewUrls_log fileList :
  forall w, exists created,
    log (snd (createPreviewUrls fileList w)) = (log w ++ created)%list /\
    forallb isCreateObjectURL created = true.
Proof.
  induction fileList as [|f l IH]; intros w; simpl.
  - exists []. now rewrite app_nil_r.
  - destruct (IH (mkWorld (S (nextObjectURL w))
                          (log w ++ [EvCreateObjectURL (nextObjectURL w) (FileObject f)])%list))
      as (created & E & Hc).
    destruct (createPreviewUrls l _) as [us w2] eqn:Ecp. simpl in *.
    exists (EvCreateObjectURL (nextObjectURL w) (FileObject f) :: created).
    split; [now rewrite E, <- app_assoc|exact Hc].
Qed.

(** C5, as the code has it.  [handleFileChange] appends exactly the
    acceptable files of the batch (listed type, at most 5 MB), in order,
    whatever else the batch contains; it sends nothing (the only effects
    are the preview URLs).  There is one error message for the batch, that
    of the last refused file: the type error when its type is not listed
    (whatever its size), the size error when its type is listed but it is
    too large; with no refused file the message is empty. *)
Theorem handleFileChange_keeps_valid_files :
  forall (selectedFiles : list File) (st : AppState) (w : World),
    let st' := fst (handleFileChange selectedFiles st w) in
    let w' := snd (handleFileChange selectedFiles st w) in
    (forall file,
        acceptable file = true <->
        (type file = "image/jpeg" \/ type file = "image/jpg" \/ type file = "image/png") /\
        (size file <= 5 * 1024 * 1024)%N) /\
    files st' = (files st ++ filter acceptable selectedFiles)%list /\
    (exists created,
        log w' = (log w ++ created)%list /\
        forallb isCreateObjectURL created = true /\
        requests created = []) /\
    (Forall (fun f => acceptable f = true) selectedFiles -> fileError st' = "") /\
    (forall before file after,
        selectedFiles = (before ++ file :: after)%list ->
        acceptable file = false ->
        Forall (fun f => acceptable f = true) after ->
        fileError st' = refusal file /\
        (typeListed file = false -> fileError st' = typeError) /\
        (typeListed file = true ->
         (5 * 1024 * 1024 < size file)%N /\ fileError st' = sizeError)).
Proof.
  intros selectedFiles st w st' w'. subst st' w'.
  split; [exact acceptable_iff|]. unfold handleFileChange.
  destruct selectedFiles as [|f0 l0] eqn:Hsel.
  - simpl. rewrite app_nil_r. split; [reflexivity|]. split.
    + exists []. now rewrite app_nil_r.
    + split; [reflexivity|]. intros [|b before] file after E; discriminate.
  - rewrite <- Hsel. replace (length selectedFiles =? 0)%nat with false
      by (subst; reflexivity).
    destruct (validate_loop selectedFiles [] (setFileError "" st))
      as (msg & E & Hall & Hlast).
    rewrite E. cbn [app].
    assert (Hrefusal : forall file, acceptable file = false ->
              (typeListed file = false -> refusal file = typeError) /\
              (typeListed file = true ->
               (5 * 1024 * 1024 < size file)%N /\ refusal file = sizeError)).
    { intros file Ha. unfold acceptable, refusal in *.
      destruct (typeListed file); simpl in *.
      - split; [discriminate|]. intros _. apply N.leb_gt in Ha. now split.
      - split; [reflexivity|discriminate]. }
    destruct (filter acceptable selectedFiles) as [|v vs] eqn:Hfilter.
    + simpl. rewrite app_nil_r. split; [reflexivity|]. split.
      * exists []. now rewrite app_nil_r.
      * split; [exact Hall|].
        intros before file after Hs Ha Hafter.
        destruct (Hrefusal file Ha) as [Ht Hz].
        rewrite (Hlast before file after Hs Ha Hafter).
        split; [reflexivity|]. split; assumption.
    + cbn [length Nat.ltb Nat.leb].
      destruct (createPreviewUrls_log (files st ++ v :: vs)%list w)
        as (created & Hlog & Hc).
      destruct (createPreviewUrls (files st ++ v :: vs)%list w) as [urls w1] eqn:Ecp.
      simpl in *. split; [reflexivity|]. split.
      * exists created. split; [exact Hlog|]. split; [exact Hc|].
        clear - Hc. induction created as [|e created IH]; [reflexivity|].
        simpl in Hc. apply andb_true_iff in Hc. destruct Hc as [He Hc].
        destruct e; try discriminate He. simpl. now apply IH.
      * split; [exact Hall|].
        intros before file after Hs Ha Hafter.
        destruct (Hrefusal file Ha) as [Ht Hz].
        rewrite (Hlast before file after Hs Ha Hafter).
        split; [reflexivity|]. split; assumption.
Qed.

Lemma handleFileChange_keeps_valid_files_witness :
  files (fst (handleFileChange [animation; photo; hugePhoto; scan]
                               (setFiles [scan] initialState) emptyWorld))
  = [scan; photo; scan] /\
  fileError (fst (handleFileChange [animation; photo; hugePhoto; scan]
                                   (setFiles [scan] initialState) emptyWorld))
  = sizeError /\
  fileError (fst (handleFileChange [photo; animation; scan]
                                   (setFiles [scan] initialState) emptyWorld))
  = typeError.
Proof.
  pose proof (@handleFileChange_keeps_valid_files [animation; photo; hugePhoto; scan]
                (setFiles [scan] initialState) emptyWorld) as A.
  pose proof (@handleFileChange_keeps_valid_files [photo; animation; scan]
                (setFiles [scan] initialState) emptyWorld) as B.
  cbv zeta in A, B.
  destruct A as (_ & Afiles & _ & _ & Alast).
  destruct B as (_ & _ & _ & _ & Blast).
  split; [exact Afiles|]. split.
  - destruct (Alast [animation; photo] hugePhoto [scan] eq_refl eq_refl) as (_ & _ & Hs).
    + repeat constructor.
    + apply Hs. reflexivity.
  - destruct (Blast [photo] animation [scan] eq_refl eq_refl) as (_ & Ht & _).
    + repeat constructor.
    + apply Ht. reflexivity.
Defined.

(** C5 as stated fails: a refused file does not always leave the error of
    its own defect.  In the batch of a 6 MB PNG followed by a GIF, the PNG
    is refused for its size, yet the message after the batch is the type
    error of the GIF; and a GIF of 6 MB, which exceeds the size limit, is
    given the type error, the type being tested first. *)
Lemma refused_file_without_its_error :
  (typeListed hugePhoto = true /\ (5 * 1024 * 1024 < size hugePhoto)%N /\
   files (fst (handleFileChange [hugePhoto; animation] initialState emptyWorld)) = [] /\
   fileError (fst (handleFileChange [hugePhoto; animation] initialState emptyWorld))
   = typeError /\
   fileError (fst (handleFileChange [hugePhoto; animation] initialState emptyWorld))
   <> sizeError) /\
  ((5 * 1024 * 1024 < size hugeAnimation)%N /\
   files (fst (handleFileChange [hugeAnimation] initialState emptyWorld)) = [] /\
   fileError (fst (handleFileChange [hugeAnimation] initialState emptyWorld))
   = typeError /\
   fileError (fst (handleFileChange [hugeAnimation] initialState emptyWorld))
   <> sizeError).
Proof.
  split.
  - split; [reflexivity|]. split; [reflexivity|]. split; [reflexivity|].
    split; [reflexivity|discriminate].
  - split; [reflexivity|]. split; [reflexivity|].
    split; [reflexivity|discriminate].
Qed.

(** ** Failure of the client-side PDF *)

Section GeneratePDF.

Variables pageWidth pageHeight : Q.
Variable splitTextToSize : jsPDF -> string -> Q -> result (list string).
Variable parseFromString : string -> result node.
Variable output : jsPDF -> result string.
Variable today : string.

Local Abbreviation generate :=
  (generatePDF pageWidth pageHeight splitTextToSize parseFromString output today).
Local Abbreviation attempt :=
  (generatePDF_try pageWidth pageHeight splitTextToSize parseFromString output today).
Local Abbreviation throws :=
  (stepThrows pageWidth pageHeight splitTextToSize parseFromString output today).

Lemma stepThrows_attempt st w e : throws st e -> attempt st w = Throw e.
Proof.
  unfold generatePDF_try. intros [Hp|blocks Hp Hl|blocks s Hp Hl Ho].
  - now rewrite Hp.
  - rewrite Hp. simpl. now rewrite Hl.
  - rewrite Hp. simpl. rewrite Hl. simpl. now rewrite Ho.
Qed.

Lemma attempt_stepThrows st w e : attempt st w = Throw e -> throws st e.
Proof.
  unfold generatePDF_try. intros E.
  destruct (parseNotesContent parseFromString (notes st)) as [blocks|e1] eqn:Hp;
    simpl in E; [|injection E as ->; now apply parsingThrows].
  destruct (layoutContent pageWidth pageHeight splitTextToSize today (topic st) blocks)
    as [s|e2] eqn:Hl; simpl in E;
    [|injection E as ->; now apply layoutThrows with blocks].
  destruct (output (pdf s)) as [bytes|e3] eqn:Ho; simpl in E;
    [discriminate|injection E as ->; now apply renderingThrows with blocks s].
Qed.

Lemma generatePDF_notes st w : notes (fst (generate st w)) = notes st.
Proof. unfold generatePDF. now destruct (attempt st w). Qed.

End GeneratePDF.

(** C6. Whatever throws in the [try] block of [generatePDF] (the parser,
    the layout, the serialisation), the handler returns with the error set
    to the one generic message, every other cell of the state as it was, and
    no object URL created or window opened; and [generatePDF] never changes
    the notes, whether it fails or not. *)
Theorem generatePDF_failure_is_caught :
  forall (pageWidth pageHeight : Q)
         (splitTextToSize : jsPDF -> string -> Q -> result (list string))
         (parseFromString : string -> result node)
         (output : jsPDF -> result string) (today : string)
         (st : AppState) (w : World),
    notes (fst (generatePDF pageWidth pageHeight splitTextToSize parseFromString
                            output today st w)) = notes st /\
    forall e,
      stepThrows pageWidth pageHeight splitTextToSize parseFromString output today st e ->
      generatePDF pageWidth pageHeight splitTextToSize parseFromString output today st w
      = (setError "Failed to generate PDF. Please try again." st,
         emit (EvConsoleError "Error generating PDF:") w).
Proof.
  intros. split; [apply generatePDF_notes|].
  intros e Hthrows. unfold generatePDF.
  now rewrite (stepThrows_attempt w Hthrows).
Qed.

Lemma generatePDF_failure_is_caught_witness :
  (let st' := fst (generatePDF a4Width a4Height wideWrap brokenParser pdfBytes
                               "1/1/2025" studying emptyWorld) in
   error st' = "Failed to generate PDF. Please try again." /\ notes st' = "<h1>Heat</h1>") /\
  (let st' := fst (generatePDF a4Width a4Height failingWrap
                               (fun _ => Ok (ElementNode "BODY" [ElementNode "P" []]))
                               pdfBytes "1/1/2025" studying emptyWorld) in
   error st' = "Failed to generate PDF. Please try again." /\ notes st' = "<h1>Heat</h1>") /\
  (let st' := fst (generatePDF a4Width a4Height wideWrap sampleParser failingOutput
                               "1/1/2025" studying emptyWorld) in
   error st' = "Failed to generate PDF. Please try again." /\ notes st' = "<h1>Heat</h1>").
Proof.
  split; [|split]; cbv zeta.
  - destruct (@generatePDF_failure_is_caught a4Width a4Height wideWrap brokenParser pdfBytes
                "1/1/2025" studying emptyWorld) as [Hn Hc].
    rewrite (Hc (JsError "DOMParser is not defined"));
      [split; reflexivity|]. now apply parsingThrows.
  - destruct (@generatePDF_failure_is_caught a4Width a4Height failingWrap
                (fun _ => Ok (ElementNode "BODY" [ElementNode "P" []]))
                pdfBytes "1/1/2025" studying emptyWorld) as [Hn Hc].
    rewrite (Hc (JsError "Invalid arguments"));
      [split; reflexivity|]. now apply layoutThrows with [Paragraph ""].
  - destruct (@generatePDF_failure_is_caught a4Width a4Height wideWrap sampleParser
                failingOutput "1/1/2025" studying emptyWorld) as [Hn Hc].
    rewrite (Hc (JsError "output failed")); [split; reflexivity|].
    eapply renderingThrows; reflexivity.
Defined.

(** ** Which files are sent *)

Lemma requests_app l l' : requests (l ++ l') = (requests l ++ requests l')%list.
Proof. apply filter_app. Qed.

Lemma requests_posts url topic (l : list File) :
  requests (map (fun f => EvPost url f topic) l) = map (fun f => EvPost url f topic) l.
Proof.
  unfold requests. induction l as [|f l IH]; simpl; [reflexivity|now rewrite IH].
Qed.

Section Requests.

Variable axios_post : World -> string -> File -> string -> result ResponseData.




End Requests.




(** ** Object URLs *)

Lemma revoked_app u l l' : revoked u (l ++ l') <-> revoked u l \/ revoked u l'.
Proof. unfold revoked. apply in_app_iff. Qed.

Lemma revoked_emit u e w :
  revoked u (log (emit e w)) <-> revoked u (log w) \/ e = EvRevokeObjectURL u.
Proof.
  unfold emit. simpl. rewrite revoked_app. unfold revoked. simpl. tauto.
Qed.

Lemma revokeAll_next urls : forall w, nextObjectURL (revokeAll urls w) = nextObjectURL w.
Proof.
  unfold revokeAll. induction urls as [|v urls IH]; intros w; simpl; [reflexivity|].
  now rewrite IH.
Qed.

Lemma revokeAll_revoked u urls :
  forall w, revoked u (log (revokeAll urls w)) <-> revoked u (log w) \/ In u urls.
Proof.
  unfold revokeAll. induction urls as [|v urls IH]; intros w; simpl.
  - tauto.
  - rewrite IH. unfold revokeObjectURL. rewrite revoked_emit.
    split.
    + intros [[H|H]|H]; auto. injection H as ->. auto.
    + intros [H|[->|H]]; auto.
Qed.

Lemma createPreviewUrls_fresh fileList :
  forall w,
    (nextObjectURL w <= nextObjectURL (snd (createPreviewUrls fileList w)))%nat /\
    (forall v, In v (fst (createPreviewUrls fileList w)) -> (nextObjectURL w <= v)%nat) /\
    (forall u, revoked u (log (snd (createPreviewUrls fileList w))) <-> revoked u (log w)).
Proof.
  induction fileList as [|f l IH]; intros w; simpl.
  - repeat split; auto; intros v [].
  - specialize (IH (mkWorld (S (nextObjectURL w))
                            (log w ++ [EvCreateObjectURL (nextObjectURL w) (FileObject f)])%list)).
    destruct (createPreviewUrls l _) as [us w2]. simpl in *.
    destruct IH as (Hn & Hv & Hr). split; [lia|]. split.
    + intros v [<-|Hin]; [lia|]. apply Hv in Hin. lia.
    + intros u. rewrite Hr, revoked_app. unfold revoked. simpl.
      split; [intros [H|[H|[]]]; [exact H|discriminate]|auto].
Qed.

Lemma splice1_In {A : Type} (x : A) index : forall l, In x (splice1 index l) -> In x l.
Proof.
  unfold splice1. induction index as [|k IH]; intros [|a l]; simpl; auto.
  intros [->|H]; auto.
Qed.

Lemma pasteLoop_previewUrls items :
  forall newFiles hasAdded st,
    previewUrls (snd (pasteLoop items newFiles hasAdded st)) = previewUrls st /\
    previewUrlsId (snd (pasteLoop items newFiles hasAdded st)) = previewUrlsId st.
Proof.
  induction items as [|item items IH]; intros newFiles hasAdded st; simpl; [auto|].
  destruct (includes "image" (item_type item)); [|apply IH].
  destruct (getAsFile item) as [file|]; [|auto].
  destruct (maxFileSize <? size file)%N; [|apply IH].
  destruct (IH newFiles hasAdded (setFileError "File size exceeds 5MB limit" st)) as [-> ->].
  auto.
Qed.

Lemma validate_loop_previewUrls selectedFiles validFiles st :
  previewUrls (snd (fold_left validateFile selectedFiles (validFiles, st))) = previewUrls st /\
  previewUrlsId (snd (fold_left validateFile selectedFiles (validFiles, st)))
  = previewUrlsId st.
Proof.
  destruct (validate_loop selectedFiles validFiles st) as (msg & -> & _). auto.
Qed.

Lemma unmount_unreleased u sw : unreleased u sw -> ~ revoked u (log (unmount sw)).
Proof.
  destruct sw as [st w]. unfold unreleased, unmount. simpl.
  intros (_ & Hprev & Hrev). rewrite revokeAll_revoked. tauto.
Qed.

Section ObjectURLs.

Variable axios_post : World -> string -> File -> string -> result ResponseData.
Variables pageWidth pageHeight : Q.
Variable splitTextToSize : jsPDF -> string -> Q -> result (list string).
Variable parseFromString : string -> result node.
Variable output : jsPDF -> result string.
Variable today : string.

Local Abbreviation attempt :=
  (generatePDF_try pageWidth pageHeight splitTextToSize parseFromString output today).
Local Abbreviation doStep :=
  (step axios_post pageWidth pageHeight splitTextToSize parseFromString output today).
Local Abbreviation doRun :=
  (run axios_post pageWidth pageHeight splitTextToSize parseFromString output today).

(** What a successful [try] block of [generatePDF] does to the browser. *)
Lemma attempt_ok st w w1 :
  attempt st w = Ok w1 ->
  exists bytes,
    w1 = mkWorld (S (nextObjectURL w))
                 (log w ++ [EvCreateObjectURL (nextObjectURL w)
                                              (BlobObject bytes "application/pdf");
                            EvWindowOpen (nextObjectURL w) "_blank"])%list.
Proof.
  unfold generatePDF_try. intros E.
  destruct (parseNotesContent parseFromString (notes st)) as [blocks|]; [|discriminate].
  simpl in E.
  destruct (layoutContent pageWidth pageHeight splitTextToSize today (topic st) blocks)
    as [s|]; [|discriminate].
  simpl in E. destruct (output (pdf s)) as [bytes|]; [|discriminate].
  simpl in E. injection E as <-. exists bytes. unfold emit. simpl.
  now rewrite <- app_assoc.
Qed.

Lemma submitLoop_world remaining topic :
  forall combinedNotes w,
    nextObjectURL (snd (submitLoop axios_post remaining topic combinedNotes w))
    = nextObjectURL w /\
    forall u, revoked u (log (snd (submitLoop axios_post remaining topic combinedNotes w)))
              <-> revoked u (log w).
Proof.
  induction remaining as [|file rest IH]; intros combinedNotes w; cbn [submitLoop post].
  - simpl. split; [reflexivity|tauto].
  - assert (Hemit : forall u, revoked u (log (emit (EvPost generateNotesUrl file topic) w))
                              <-> revoked u (log w)).
    { intros u. rewrite revoked_emit. split; [intros [H|H]; [exact H|discriminate]|auto]. }
    destruct (axios_post w generateNotesUrl file topic) as [[notes|bytes]|err];
      try (simpl; split; [reflexivity|exact Hemit]).
    destruct (IH (combinedNotes ++ (cleanNotes notes ++ newline))
                 (emit (EvPost generateNotesUrl file topic) w)) as [Hn Hr].
    split; [exact Hn|]. intros u. now rewrite Hr.
Qed.

(** Every action leaves an unreleased URL unreleased. *)
Lemma step_unreleased u a sw : unreleased u sw -> unreleased u (doStep a sw).
Proof.
  destruct sw as [st w]. unfold unreleased, step. simpl.
  intros (Hlt & Hprev & Hrev).
  destruct a as [selectedFiles|clipboardItems|value| |index| | ]; simpl.
  - (* handleFileChange *)
    unfold handleFileChange.
    destruct (length selectedFiles =? 0)%nat;
      [unfold commit; simpl; rewrite Nat.eqb_refl; auto|].
    destruct (fold_left validateFile selectedFiles ([], setFileError "" st))
      as [validFiles st2] eqn:Eloop.
    pose proof (validate_loop_previewUrls selectedFiles [] (setFileError "" st)) as Hloop.
    rewrite Eloop in Hloop. simpl in Hloop. destruct Hloop as [Hp Hid].
    destruct (0 <? length validFiles)%nat.
    + destruct (createPreviewUrls_fresh (files st ++ validFiles)%list w)
        as (Hn & Hv & Hr).
      destruct (createPreviewUrls (files st ++ validFiles)%list w) as [urls w1].
      simpl in *. unfold commit. simpl. rewrite Hid.
      replace (previewUrlsId st =? S (previewUrlsId st))%nat with false
        by (symmetry; apply Nat.eqb_neq; lia).
      rewrite revokeAll_next, revokeAll_revoked, Hr. split; [lia|]. split.
      * intros Hin. apply Hv in Hin. lia.
      * tauto.
    + simpl. unfold commit. rewrite Hid, Hp, Nat.eqb_refl. auto.
  - (* handlePaste *)
    unfold handlePaste. destruct clipboardItems as [items|].
    + pose proof (pasteLoop_previewUrls items (files st) false st) as [Hp Hid].
      destruct (pasteLoop items (files st) false st) as [[[newFiles [|]]|] st1];
        simpl in Hp, Hid.
      * destruct (createPreviewUrls_fresh newFiles w) as (Hn & Hv & Hr).
        destruct (createPreviewUrls newFiles w) as [urls w1].
        simpl in *. unfold commit. simpl. rewrite Hid.
        replace (previewUrlsId st =? S (previewUrlsId st))%nat with false
          by (symmetry; apply Nat.eqb_neq; lia).
        rewrite revokeAll_next, revokeAll_revoked, Hr. split; [lia|]. split.
        -- intros Hin. apply Hv in Hin. lia.
        -- tauto.
      * simpl. unfold commit. rewrite Hid, Hp, Nat.eqb_refl. auto.
      * simpl. unfold commit. rewrite Hid, Hp, Nat.eqb_refl. auto.
    + simpl. unfold commit. rewrite Nat.eqb_refl. auto.
  - (* the topic field *)
    unfold commit. simpl. rewrite Nat.eqb_refl. auto.
  - (* handleSubmit *)
    unfold handleSubmit.
    destruct (length (files st) =? 0)%nat;
      [unfold commit; simpl; rewrite Nat.eqb_refl; auto|].
    destruct (isEmpty (trim (topic st)));
      [unfold commit; simpl; rewrite Nat.eqb_refl; auto|].
    destruct (submitLoop_world (files st) (topic st) "" w) as [Hn Hr].
    destruct (submitLoop axios_post (files st) (topic st) "" w) as [[combined|err] w1];
      simpl in *; unfold commit; simpl; rewrite Nat.eqb_refl.
    + rewrite Hn, Hr. auto.
    + unfold consoleError, emit. simpl. rewrite Hn, revoked_app, Hr.
      split; [exact Hlt|]. split; [exact Hprev|].
      intros [H|[H|[]]]; [auto|discriminate].
  - (* removeFile *)
    unfold removeFile, commit. simpl.
    replace (previewUrlsId st =? S (previewUrlsId st))%nat with false
      by (symmetry; apply Nat.eqb_neq; lia).
    rewrite revokeAll_next, revokeAll_revoked.
    destruct (nth_error (previewUrls st) index) as [v|] eqn:Enth.
    + unfold revokeObjectURL. simpl. rewrite revoked_app.
      split; [exact Hlt|]. split.
      * intros Hin. apply splice1_In in Hin. auto.
      * intros [[H|[H|[]]]|H]; auto. injection H as ->.
        apply nth_error_In in Enth. auto.
    + split; [exact Hlt|]. split.
      * intros Hin. apply splice1_In in Hin. auto.
      * tauto.
  - (* generatePDF *)
    unfold generatePDF.
    destruct (attempt st w) as [w1|err] eqn:E; unfold commit; simpl;
      rewrite Nat.eqb_refl.
    + destruct (attempt_ok _ _ E) as (bytes & ->). simpl.
      split; [lia|]. split; [exact Hprev|].
      rewrite revoked_app.
      intros [H|[H|[H|[]]]]; auto; discriminate.
    + unfold consoleError, emit. simpl. rewrite revoked_app.
      split; [exact Hlt|]. split; [exact Hprev|].
      intros [H|[H|[]]]; [auto|discriminate].
  - (* handleDownload *)
    unfold handleDownload. destruct (files st) as [|file0 rest];
      [unfold commit; simpl; rewrite Nat.eqb_refl; auto|].
    destruct (isEmpty (trim (topic st)));
      [unfold commit; simpl; rewrite Nat.eqb_refl; auto|].
    cbn [post].
    destruct (axios_post w generateNotesPdfUrl file0 (topic st)) as [data|err];
      unfold commit; simpl; rewrite Nat.eqb_refl.
    + unfold revokeObjectURL, emit. simpl.
      split; [lia|]. split; [exact Hprev|].
      rewrite !revoked_app. unfold revoked in *. simpl.
      intros HH.
      repeat match goal with
             | H : _ \/ _ |- _ => destruct H
             end; try discriminate; try contradiction.
      match goal with
      | H : EvRevokeObjectURL _ = EvRevokeObjectURL _ |- _ => injection H as Hu; lia
      end.
    + unfold consoleError, emit. simpl. rewrite !revoked_app.
      split; [exact Hlt|]. split; [exact Hprev|].
      unfold revoked in *. simpl. intros HH.
      repeat match goal with
             | H : _ \/ _ |- _ => destruct H
             end; try discriminate; contradiction.
Qed.

Lemma run_unreleased u actions :
  forall sw, unreleased u sw -> unreleased u (doRun actions sw).
Proof.
  unfold run. induction actions as [|a actions IH]; intros sw Hu; simpl; [exact Hu|].
  apply IH. now apply step_unreleased.
Qed.

End ObjectURLs.

(** C9 at the preview path.  When [generatePDF] succeeds it creates an
    object URL for the PDF blob, and nothing releases it: whatever the user
    does afterwards, and after the component unmounts, the log holds no
    [URL.revokeObjectURL] for that URL.  (The download path revokes its URL
    right after the click, and the preview images are revoked by the
    effect clean-up.) *)
Theorem preview_blob_url_never_revoked :
  forall (axios_post : World -> string -> File -> string -> result ResponseData)
         (pageWidth pageHeight : Q)
         (splitTextToSize : jsPDF -> string -> Q -> result (list string))
         (parseFromString : string -> result node)
         (output : jsPDF -> result string) (today : string)
         (st : AppState) (w w1 : World) (actions : list action),
    (forall v, In v (previewUrls st) -> (v < nextObjectURL w)%nat) ->
    (forall v, revoked v (log w) -> (v < nextObjectURL w)%nat) ->
    generatePDF_try pageWidth pageHeight splitTextToSize parseFromString output today st w
    = Ok w1 ->
    (exists bytes,
        In (EvCreateObjectURL (nextObjectURL w) (BlobObject bytes "application/pdf"))
           (log w1)) /\
    ~ revoked (nextObjectURL w)
        (log (unmount
                (run axios_post pageWidth pageHeight splitTextToSize parseFromString
                     output today (PreviewPDF :: actions) (st, w)))).
Proof.
  intros axios_post pageWidth pageHeight splitTextToSize parseFromString output today
         st w w1 actions Hprev Hrev E.
  destruct (@attempt_ok pageWidth pageHeight splitTextToSize parseFromString output today
              st w w1 E) as (bytes & Hw1).
  split.
  - exists bytes. rewrite Hw1. simpl. apply in_app_iff. right. now left.
  - apply unmount_unreleased. unfold run. cbn [fold_left].
    apply (@run_unreleased axios_post pageWidth pageHeight splitTextToSize
             parseFromString output today (nextObjectURL w) actions).
    unfold step, handle, generatePDF. rewrite E. unfold commit.
    rewrite Nat.eqb_refl. unfold unreleased. rewrite Hw1. simpl.
    split; [lia|]. split.
    + intros Hin. apply Hprev in Hin. lia.
    + rewrite revoked_app. unfold revoked at 2. simpl.
      intros [H|[H|[H|[]]]]; try discriminate. apply Hrev in H. lia.
Qed.

Lemma preview_blob_url_never_revoked_witness :
  nextObjectURL (snd afterUpload) = 2%nat /\
  (exists bytes,
      In (EvCreateObjectURL 2 (BlobObject bytes "application/pdf"))
         (log (snd (generatePDF a4Width a4Height wideWrap sampleParser pdfBytes "1/1/2025"
                                (fst afterUpload) (snd afterUpload))))) /\
  ~ revoked 2
      (log (unmount
              (run helpfulServer a4Width a4Height wideWrap sampleParser pdfBytes "1/1/2025"
                   (PreviewPDF :: session) (fst afterUpload, snd afterUpload)))).
Proof.
  split; [reflexivity|].
  assert (Hprev : forall v, In v (previewUrls (fst afterUpload)) ->
                            (v < nextObjectURL (snd afterUpload))%nat).
  { simpl. intros v [<-|[<-|[]]]; lia. }
  assert (Hrev : forall v, revoked v (log (snd afterUpload)) ->
                           (v < nextObjectURL (snd afterUpload))%nat).
  { unfold revoked. simpl. intros v H.
    repeat match goal with
           | H : _ \/ _ |- _ => destruct H
           end; try discriminate; contradiction. }
  destruct (@preview_blob_url_never_revoked helpfulServer a4Width a4Height wideWrap
              sampleParser pdfBytes "1/1/2025" (fst afterUpload) (snd afterUpload)
              (snd (generatePDF a4Width a4Height wideWrap sampleParser pdfBytes "1/1/2025"
                                (fst afterUpload) (snd afterUpload)))
              session Hprev Hrev eq_refl) as [Hcreated Hnever].
  split; [exact Hcreated|exact Hnever].
Defined.

(** The same session as a computation: up to the unmount the log creates
    the URLs 0 to 5 and revokes 0, 1, 3, 4 and 5 (0 and 1 twice), never 2. *)
Example session_log :
  filter (fun e => match e with
                   | EvCreateObjectURL _ _ | EvRevokeObjectURL _ => true
                   | _ => false
                   end)
         (log (unmount
                 (run helpfulServer a4Width a4Height wideWrap sampleParser pdfBytes
                      "1/1/2025" (PreviewPDF :: session) afterUpload)))
  = [EvCreateObjectURL 0 (FileObject photo);
     EvCreateObjectURL 1 (FileObject scan);
     EvCreateObjectURL 2 (BlobObject "%PDF-1.3" "application/pdf");
     EvRevokeObjectURL 0;
     EvRevokeObjectURL 0;
     EvRevokeObjectURL 1;
     EvCreateObjectURL 3 (BlobObject "%PDF-1.3" "application/pdf");
     EvRevokeObjectURL 3;
     EvCreateObjectURL 4 (FileObject scan);
     EvCreateObjectURL 5 (FileObject scan);
     EvRevokeObjectURL 1;
     EvRevokeObjectURL 4;
     EvRevokeObjectURL 5].
Proof. vm_compute. reflexivity. Qed.

(** * Further properties

    Properties of the same handlers beyond the claims above. *)

(** ** White space and fences *)

Lemma prefix_cons a b s1 s2 :
  prefix (String a s1) (String b s2) = Ascii.eqb a b && prefix s1 s2.
Proof.
  cbn [prefix]. destruct (ascii_dec a b) as [->|N].
  - now rewrite Ascii.eqb_refl.
  - apply Ascii.eqb_neq in N. now rewrite N.
Qed.

Lemma prefix_empty_l s : prefix "" s = true.
Proof. now destruct s. Qed.

Lemma prefix_nil_r a s1 : prefix (String a s1) "" = false.
Proof. reflexivity. Qed.

Lemma prefix_fence s :
  prefix fence s = match s with
                   | String a (String b (String c _)) =>
                       Ascii.eqb tick a && Ascii.eqb tick b && Ascii.eqb tick c
                   | _ => false
                   end.
Proof.
  unfold fence, tick. destruct s as [|a [|b [|c s]]];
    rewrite ?prefix_cons, ?prefix_nil_r, ?andb_false_r; try reflexivity.
  rewrite prefix_empty_l.
  destruct (Ascii.eqb "`" a), (Ascii.eqb "`" b), (Ascii.eqb "`" c); reflexivity.
Qed.

Lemma replaceFrom_fenceOnly_cons a rest :
  replaceFrom fenceOnly "" 0 (String a rest)
  = if prefix fence (String a rest) then replaceFrom fenceOnly "" 2 rest
    else String a (replaceFrom fenceOnly "" 0 rest).
Proof.
  cbn [replaceFrom]. unfold fenceOnly at 1.
  now destruct (prefix fence (String a rest)).
Qed.

(** Where the output of the last replacement starts with a backtick, so
    does its input. *)
Lemma replaceFrom_fence_first s :
  firstChar (replaceFrom fenceOnly "" 0 s) = Some tick -> firstChar s = Some tick.
Proof.
  destruct s as [|a rest]; [discriminate|].
  rewrite replaceFrom_fenceOnly_cons.
  destruct (prefix fence (String a rest)) eqn:P.
  - rewrite prefix_fence in P. destruct rest as [|b [|c rest]]; try discriminate.
    apply andb_true_iff in P. destruct P as [P _].
    apply andb_true_iff in P. destruct P as [P _].
    apply Ascii.eqb_eq in P. now subst.
  - trivial.
Qed.

Lemma replaceFrom_fence_two s :
  twoTicks s = false -> twoTicks (replaceFrom fenceOnly "" 0 s) = false.
Proof.
  destruct s as [|a rest]; [reflexivity|]. intros P2.
  assert (P3 : prefix fence (String a rest) = false).
  { rewrite prefix_fence. destruct rest as [|b [|c rest]]; try reflexivity.
    cbn [twoTicks] in P2. now rewrite P2. }
  rewrite replaceFrom_fenceOnly_cons, P3.
  destruct (replaceFrom fenceOnly "" 0 rest) as [|b out] eqn:E; [reflexivity|].
  cbn [twoTicks].
  destruct (Ascii.eqb tick a) eqn:Ea; [|reflexivity].
  destruct (Ascii.eqb tick b) eqn:Eb; [|reflexivity].
  apply Ascii.eqb_eq in Eb. subst b.
  assert (F : firstChar rest = Some tick).
  { apply replaceFrom_fence_first. now rewrite E. }
  destruct rest as [|b rest]; [discriminate|]. cbn [firstChar] in F. injection F as ->.
  cbn [twoTicks] in P2. rewrite Ea, Ascii.eqb_refl in P2. discriminate.
Qed.

Lemma replaceFrom_fence_free s :
  forall skip, hasFence (replaceFrom fenceOnly "" skip s) = false.
Proof.
  unfold hasFence. induction s as [|a rest IH]; intros skip; [reflexivity|].
  destruct skip as [|k]; [|apply IH].
  rewrite replaceFrom_fenceOnly_cons.
  destruct (prefix fence (String a rest)) eqn:P3; [apply IH|].
  cbn [includes]. rewrite IH, orb_false_r.
  rewrite prefix_fence.
  destruct (replaceFrom fenceOnly "" 0 rest) as [|b [|c out]] eqn:E; try reflexivity.
  destruct (Ascii.eqb tick a) eqn:Ea; [|reflexivity]. cbn [andb].
  assert (T : twoTicks (replaceFrom fenceOnly "" 0 rest) = false).
  { apply replaceFrom_fence_two.
    rewrite prefix_fence in P3. destruct rest as [|x [|y rest]]; try reflexivity.
    rewrite Ea in P3. cbn [andb] in P3. cbn [twoTicks]. exact P3. }
  rewrite E in T. exact T.
Qed.

Lemma prefix_trans a b c : prefix a b = true -> prefix b c = true -> prefix a c = true.
Proof.
  revert b c. induction a as [|x a IH]; intros [|y b] [|z c]; try reflexivity;
    try discriminate.
  rewrite !prefix_cons, !andb_true_iff, !Ascii.eqb_eq.
  intros [-> Hab] [-> Hbc]. split; [reflexivity|]. now apply IH with b.
Qed.

Lemma prefix_empty_r a : prefix a "" = true -> a = "".
Proof. destruct a; [reflexivity|discriminate]. Qed.

Lemma includes_prefix sub x : forall s,
  prefix x s = true -> includes sub x = true -> includes sub s = true.
Proof.
  induction x as [|a x IH]; intros s Hp Hi.
  - cbn [includes] in Hi. rewrite orb_false_r in Hi.
    apply prefix_empty_r in Hi. subst sub.
    destruct s; reflexivity.
  - destruct s as [|b s]; [discriminate|].
    rewrite prefix_cons in Hp. apply andb_true_iff in Hp. destruct Hp as [Hab Hp].
    apply Ascii.eqb_eq in Hab. subst b.
    cbn [includes] in *. apply orb_true_iff in Hi. apply orb_true_iff.
    destruct Hi as [Hi|Hi].
    + left. apply prefix_trans with (String a x); [exact Hi|].
      rewrite prefix_cons, Ascii.eqb_refl. exact Hp.
    + right. now apply IH.
Qed.

Lemma prefix_append a : forall b, prefix a (a ++ b) = true.
Proof.
  induction a as [|x a IH]; intros b; [apply prefix_empty_l|].
  cbn [append]. now rewrite prefix_cons, Ascii.eqb_refl, IH.
Qed.

Lemma trimEnd_prefix s : prefix (trimEnd s) s = true.
Proof.
  destruct (trimEnd_split s) as (tail & _ & E). rewrite E at 2. apply prefix_append.
Qed.

Lemma includes_append_l sub pre : forall s,
  includes sub s = true -> includes sub (pre ++ s) = true.
Proof.
  induction pre as [|x pre IH]; intros s H; [exact H|].
  cbn [append includes]. apply orb_true_iff. right. now apply IH.
Qed.

Lemma includes_trimStart sub s :
  includes sub (trimStart s) = true -> includes sub s = true.
Proof.
  destruct (trimStart_split s) as (pre & _ & E & _). intros H.
  rewrite E. now apply includes_append_l.
Qed.

Lemma includes_trim sub s : includes sub (trim s) = true -> includes sub s = true.
Proof.
  unfold trim. intros H. apply includes_trimStart.
  apply includes_prefix with (trimEnd (trimStart s)); [apply trimEnd_prefix|exact H].
Qed.

Lemma cleanNotes_no_fence notes : hasFence (cleanNotes notes) = false.
Proof.
  unfold cleanNotes, hasFence.
  destruct (includes fence (trim _)) eqn:E; [|reflexivity].
  apply includes_trim in E. unfold replaceAll in E at 1.
  now rewrite (replaceFrom_fence_free _ 0) in E.
Qed.

(** X12.  What [handleSubmit] keeps of an answer: there is nowhere a run of three
    backticks left in it, and it neither starts nor ends with white
    space. *)
Theorem cleanNotes_fence_free :
  forall notes : string,
    hasFence (cleanNotes notes) = false /\ trimmed (cleanNotes notes).
Proof.
  intros notes. split; [apply cleanNotes_no_fence|]. unfold cleanNotes. apply trim_trimmed.
Qed.

(** A pattern that starts with a fence finds nothing in a text without
    fences. *)
Lemma replaceAll_without_fence (m : matcher) r s :
  (forall x, prefix fence x = false -> m x = None) ->
  hasFence s = false -> replaceAll m r s = s.
Proof.
  intros Hm. unfold replaceAll, hasFence.
  induction s as [|a s IH]; [reflexivity|].
  cbn [includes replaceFrom]. intros H. apply orb_false_iff in H. destruct H as [P H].
  rewrite (Hm _ P). now rewrite IH.
Qed.

(** X13.  Cleaning an answer twice changes nothing more. *)
Theorem cleanNotes_idem :
  forall notes : string, cleanNotes (cleanNotes notes) = cleanNotes notes.
Proof.
  intros notes. pose proof (cleanNotes_no_fence notes) as F.
  unfold cleanNotes at 1.
  rewrite (@replaceAll_without_fence fenceLangNewline "" (cleanNotes notes)); [| |exact F].
  - rewrite (@replaceAll_without_fence fenceNewline "" (cleanNotes notes)); [| |exact F].
    + rewrite (@replaceAll_without_fence fenceOnly "" (cleanNotes notes)); [| |exact F].
      * unfold cleanNotes. apply trim_idem.
      * intros x P. unfold fenceOnly. now rewrite P.
    + intros x P. unfold fenceNewline.
      destruct (prefix (fence ++ newline) x) eqn:Q; [|reflexivity].
      assert (prefix fence x = true); [|congruence].
      apply prefix_trans with (fence ++ newline); [reflexivity|exact Q].
  - intros x P. unfold fenceLangNewline. now rewrite P.
Qed.

(** ** Preview URLs of a file list *)

Lemma createPreviewUrls_eq fileList :
  forall w,
    createPreviewUrls fileList w
    = (seq (nextObjectURL w) (length fileList),
       mkWorld (nextObjectURL w + length fileList)
               (log w ++ previewEvents (seq (nextObjectURL w) (length fileList)) fileList)%list).
Proof.
  unfold previewEvents.
  induction fileList as [|file rest IH]; intros w; cbn [createPreviewUrls].
  - simpl. rewrite app_nil_r, Nat.add_0_r. now destruct w.
  - unfold createObjectURL. rewrite IH. cbn [nextObjectURL log length seq combine map fst snd].
    rewrite <- app_assoc. cbn [app]. now rewrite Nat.add_succ_r.
Qed.

Lemma previewEvents_requests urls fileList : requests (previewEvents urls fileList) = [].
Proof.
  unfold previewEvents, requests.
  induction (combine urls fileList) as [|p l IH]; [reflexivity|exact IH].
Qed.

Lemma previewEvents_nth urls fileList i u f :
  nth_error urls i = Some u -> nth_error fileList i = Some f ->
  In (EvCreateObjectURL u (FileObject f)) (previewEvents urls fileList).
Proof.
  unfold previewEvents. revert fileList i.
  induction urls as [|v urls IH]; intros [|g l] [|i]; simpl; try discriminate.
  - intros Hu Hf. injection Hu as ->. injection Hf as ->. now left.
  - intros Hu Hf. right. now apply IH with i.
Qed.

Lemma previewEvents_In urls fileList e :
  In e (previewEvents urls fileList) ->
  exists u f, e = EvCreateObjectURL u (FileObject f) /\ In u urls.
Proof.
  unfold previewEvents. revert fileList.
  induction urls as [|v urls IH]; intros [|g l]; simpl; try contradiction.
  intros [<-|H].
  - exists v, g. auto.
  - destruct (IH l H) as (u & f & -> & Hin). exists u, f. auto.
Qed.

(** ** The file chooser *)

(** What [handleFileChange] returns: nothing but a message when no file
    of the batch passes; otherwise the files that pass are appended and
    every file of the new list gets a new preview URL. *)
Lemma handleFileChange_cases selectedFiles st w :
  exists msg,
    (filter acceptable selectedFiles = [] /\
     handleFileChange selectedFiles st w = (setFileError msg st, w)) \/
    (filter acceptable selectedFiles <> [] /\
     let newFiles := (files st ++ filter acceptable selectedFiles)%list in
     let urls := seq (nextObjectURL w) (length newFiles) in
     handleFileChange selectedFiles st w
     = (setPreviewUrls urls (setFiles newFiles (setFileError msg st)),
        mkWorld (nextObjectURL w + length newFiles)
                (log w ++ previewEvents urls newFiles)%list)).
Proof.
  unfold handleFileChange.
  destruct selectedFiles as [|f0 l0] eqn:Hsel.
  - exists "". left. split; reflexivity.
  - rewrite <- Hsel.
    replace (length selectedFiles =? 0)%nat with false by (subst; reflexivity).
    destruct (validate_loop selectedFiles [] (setFileError "" st)) as (msg & E & _).
    rewrite E. cbn [app]. rewrite setFileError_twice.
    exists msg. destruct (filter acceptable selectedFiles) as [|v vs] eqn:Hfilter.
    + left. split; reflexivity.
    + right. split; [discriminate|]. cbn [length Nat.ltb Nat.leb].
      cbv zeta. rewrite createPreviewUrls_eq. reflexivity.
Qed.

Lemma handleFileChange_files selectedFiles st w :
  files (fst (handleFileChange selectedFiles st w))
  = (files st ++ filter acceptable selectedFiles)%list.
Proof.
  destruct (handleFileChange_cases selectedFiles st w) as (msg & [[E ->]|[_ ->]]).
  - simpl. now rewrite E, app_nil_r.
  - reflexivity.
Qed.

(** X7.  Choosing two batches one after the other keeps the same files as
    choosing them at once. *)
Theorem handleFileChange_batches :
  forall (first second : list File) (st : AppState) (w : World),
    files (fst (handleFileChange second
                  (fst (handleFileChange first st w))
                  (snd (handleFileChange first st w))))
    = files (fst (handleFileChange (first ++ second) st w)).
Proof.
  intros. rewrite !handleFileChange_files, filter_app. now rewrite app_assoc.
Qed.

Lemma splice1_last {A : Type} (l : list A) (x : A) : splice1 (length l) (l ++ [x]) = l.
Proof.
  unfold splice1. induction l as [|a l IH]; [reflexivity|].
  simpl. f_equal. exact IH.
Qed.

Lemma splice1_length {A B : Type} (l : list A) (l' : list B) index :
  length l = length l' -> length (splice1 index l) = length (splice1 index l').
Proof.
  unfold splice1. revert l l'.
  induction index as [|k IH]; intros [|a l] [|b l']; simpl; try discriminate; auto.
Qed.

(** X8.  Choosing one acceptable file and removing the last preview gives the
    former list of files back. *)
Theorem removeFile_undoes_handleFileChange :
  forall (file : File) (st : AppState) (w : World),
    acceptable file = true ->
    let chosen := handleFileChange [file] st w in
    files (fst chosen) = (files st ++ [file])%list /\
    files (fst (removeFile (length (files st)) (fst chosen) (snd chosen))) = files st.
Proof.
  intros file st w Ha chosen. subst chosen.
  assert (E : files (fst (handleFileChange [file] st w)) = (files st ++ [file])%list).
  { rewrite handleFileChange_files. simpl. now rewrite Ha. }
  split; [exact E|].
  unfold removeFile. cbn [fst files setFiles setPreviewUrls]. rewrite E.
  apply splice1_last.
Qed.

Lemma removeFile_undoes_handleFileChange_witness :
  acceptable photo = true /\
  files (fst (removeFile 1 (fst (handleFileChange [photo] (setFiles [scan] initialState)
                                                  emptyWorld))
                         (snd (handleFileChange [photo] (setFiles [scan] initialState)
                                                emptyWorld))))
  = [scan].
Proof.
  split; [reflexivity|].
  exact (proj2 (@removeFile_undoes_handleFileChange photo (setFiles [scan] initialState)
                  emptyWorld eq_refl)).
Defined.

(** ** Pasting *)

Lemma pasteLoop_state items :
  forall newFiles hasAdded st,
    exists msg, snd (pasteLoop items newFiles hasAdded st) = setFileError msg st.
Proof.
  induction items as [|item items IH]; intros newFiles hasAdded st; cbn [pasteLoop].
  - exists (fileError st). simpl. now rewrite setFileError_same.
  - destruct (includes "image" (item_type item)); [|apply IH].
    destruct (getAsFile item) as [file|].
    + destruct (maxFileSize <? size file)%N; [|apply IH].
      destruct (IH newFiles hasAdded (setFileError "File size exceeds 5MB limit" st))
        as (msg & E).
      exists msg. now rewrite E.
    + exists (fileError st). simpl. now rewrite setFileError_same.
Qed.

Lemma pasteLoop_unreadable items :
  forall newFiles hasAdded st,
    existsb unreadable items = true ->
    fst (pasteLoop items newFiles hasAdded st) = None.
Proof.
  induction items as [|item items IH]; intros newFiles hasAdded st; [discriminate|].
  cbn [existsb pasteLoop]. unfold unreadable at 1.
  destruct (includes "image" (item_type item)); cbn [andb orb]; [|apply IH].
  destruct (getAsFile item) as [file|]; cbn [orb]; [|reflexivity].
  destruct (maxFileSize <? size file)%N; apply IH.
Qed.

Lemma pasteLoop_readable items :
  forall newFiles hasAdded st,
    existsb unreadable items = false ->
    fst (pasteLoop items newFiles hasAdded st)
    = Some ((newFiles ++ pastedFiles items)%list,
            hasAdded || negb (length (pastedFiles items) =? 0)%nat).
Proof.
  unfold pastedFiles.
  induction items as [|item items IH]; intros newFiles hasAdded st.
  - intros _. simpl. now rewrite app_nil_r, orb_false_r.
  - cbn [existsb pasteLoop flat_map]. unfold unreadable at 1, pastedFile at 1 3.
    destruct (includes "image" (item_type item)); cbn [andb orb]; [|apply IH].
    destruct (getAsFile item) as [file|]; cbn [orb]; [|discriminate].
    destruct (maxFileSize <? size file)%N; [apply IH|].
    intros H. rewrite (IH _ _ _ H). cbn [app length Nat.eqb negb].
    now rewrite <- app_assoc, orb_true_r.
Qed.

Lemma handlePaste_cases items st w :
  exists msg,
    ((existsb unreadable items = true \/ pastedFiles items = []) /\
     handlePaste (Some items) st w = (setFileError msg st, w)) \/
    (existsb unreadable items = false /\ pastedFiles items <> [] /\
     let newFiles := (files st ++ pastedFiles items)%list in
     let urls := seq (nextObjectURL w) (length newFiles) in
     handlePaste (Some items) st w
     = (setFileError "" (setPreviewUrls urls (setFiles newFiles (setFileError msg st))),
        mkWorld (nextObjectURL w + length newFiles)
                (log w ++ previewEvents urls newFiles)%list)).
Proof.
  unfold handlePaste.
  destruct (pasteLoop_state items (files st) false st) as (msg & Est).
  exists msg.
  destruct (existsb unreadable items) eqn:Hu.
  - left. split; [now left|].
    pose proof (pasteLoop_unreadable items (files st) false st Hu) as Ef.
    destruct (pasteLoop items (files st) false st) as [r st1]. simpl in *.
    subst r st1. reflexivity.
  - pose proof (pasteLoop_readable items (files st) false st Hu) as Ef.
    destruct (pasteLoop items (files st) false st) as [r st1]. simpl in *.
    subst r st1. destruct (pastedFiles items) as [|f fs] eqn:Hp.
    + left. split; [now right|]. reflexivity.
    + right. split; [reflexivity|]. split; [discriminate|].
      cbn [length Nat.eqb negb]. cbv zeta. rewrite createPreviewUrls_eq. reflexivity.
Qed.

(** X9.  A paste is checked for size only.  When every item announced as an
    image yields a file and at least one of them is within 5 MB, those
    files are appended in order, every file of the new list gets a new
    preview URL, and the file error is cleared, also when other items were
    too large. *)
Theorem handlePaste_appends_pasted_files :
  forall (items : list ClipboardItem) (st : AppState) (w : World),
    existsb unreadable items = false ->
    pastedFiles items <> [] ->
    let st' := fst (handlePaste (Some items) st w) in
    files st' = (files st ++ pastedFiles items)%list /\
    previewUrls st' = seq (nextObjectURL w) (length (files st')) /\
    fileError st' = "".
Proof.
  intros items st w Hu Hp st'. subst st'.
  destruct (handlePaste_cases items st w) as (msg & [[[H|H] _]|(_ & _ & E)]);
    [congruence|contradiction|].
  cbv zeta in E. rewrite E. repeat split; reflexivity.
Qed.

Lemma handlePaste_appends_pasted_files_witness :
  (existsb unreadable clipboard = false /\ pastedFiles clipboard <> []) /\
  files (fst (handlePaste (Some clipboard) (setFiles [scan] initialState) emptyWorld))
  = [scan; animation] /\
  fileError (fst (handlePaste (Some clipboard) (setFiles [scan] initialState) emptyWorld))
  = "".
Proof.
  assert (Hu : existsb unreadable clipboard = false) by reflexivity.
  assert (Hp : pastedFiles clipboard <> []) by discriminate.
  split; [split; assumption|].
  destruct (@handlePaste_appends_pasted_files clipboard (setFiles [scan] initialState)
              emptyWorld Hu Hp) as (Hf & _ & He).
  split; [exact Hf|exact He].
Defined.

(** X10.  The file chooser and the paste handler disagree on types: a file
    whose type is not in the list of the chooser, pasted as an item whose
    type mentions "image", is refused by the one and appended by the
    other. *)
Theorem paste_accepts_what_chooser_refuses :
  forall (file : File) (itemType : string) (st : AppState) (w : World),
    typeListed file = false ->
    includes "image" itemType = true ->
    (size file <= 5 * 1024 * 1024)%N ->
    files (fst (handleFileChange [file] st w)) = files st /\
    fileError (fst (handleFileChange [file] st w)) = typeError /\
    files (fst (handlePaste (Some [mkItem itemType (Some file)]) st w))
    = (files st ++ [file])%list.
Proof.
  intros file itemType st w Ht Hi Hs.
  assert (Ha : acceptable file = false) by (unfold acceptable; now rewrite Ht).
  split; [|split].
  - rewrite handleFileChange_files. simpl. now rewrite Ha, app_nil_r.
  - unfold handleFileChange. cbn [length Nat.eqb fold_left].
    rewrite validateFile_refuse by exact Ha. cbn [length Nat.ltb Nat.leb].
    unfold refusal. now rewrite Ht.
  - assert (Hp : pastedFiles [mkItem itemType (Some file)] = [file]).
    { unfold pastedFiles, pastedFile. cbn [flat_map item_type getAsFile]. rewrite Hi.
      destruct (N.ltb_spec maxFileSize (size file)) as [Hlt|_]; [|reflexivity].
      unfold maxFileSize in Hlt. lia. }
    destruct (handlePaste_cases [mkItem itemType (Some file)] st w)
      as (msg & [[[H|H] _]|(_ & _ & E)]).
    + unfold unreadable in H. cbn [existsb item_type getAsFile] in H.
      rewrite Hi in H. discriminate.
    + rewrite Hp in H. discriminate.
    + cbv zeta in E. rewrite E, Hp. reflexivity.
Qed.

Lemma paste_accepts_what_chooser_refuses_witness :
  (typeListed animation = false /\ includes "image" "image/gif" = true /\
   (size animation <= 5 * 1024 * 1024)%N) /\
  files (fst (handleFileChange [animation] initialState emptyWorld)) = [] /\
  files (fst (handlePaste (Some [mkItem "image/gif" (Some animation)])
                          initialState emptyWorld)) = [animation].
Proof.
  assert (Ht : typeListed animation = false) by reflexivity.
  assert (Hi : includes "image" "image/gif" = true) by reflexivity.
  assert (Hs : (size animation <= 5 * 1024 * 1024)%N) by (simpl; lia).
  split; [repeat split; assumption|].
  destruct (@paste_accepts_what_chooser_refuses animation "image/gif" initialState
              emptyWorld Ht Hi Hs) as (Hc & _ & Hp).
  split; [exact Hc|exact Hp].
Defined.

(** X11.  When an item announced as an image yields no file, reading its size
    throws and the handler ends there: no file is added, no preview URL is
    created, whatever the other items are. *)
Theorem handlePaste_unreadable_item :
  forall (items : list ClipboardItem) (st : AppState) (w : World),
    existsb unreadable items = true ->
    snd (handlePaste (Some items) st w) = w /\
    files (fst (handlePaste (Some items) st w)) = files st /\
    previewUrls (fst (handlePaste (Some items) st w)) = previewUrls st.
Proof.
  intros items st w Hu.
  destruct (handlePaste_cases items st w) as (msg & [[_ ->]|(H & _)]);
    [|congruence].
  repeat split; reflexivity.
Qed.

Lemma handlePaste_unreadable_item_witness :
  existsb unreadable brokenClipboard = true /\
  snd (handlePaste (Some brokenClipboard) initialState emptyWorld) = emptyWorld /\
  files (fst (handlePaste (Some brokenClipboard) initialState emptyWorld)) = [].
Proof.
  split; [reflexivity|].
  destruct (@handlePaste_unreadable_item brokenClipboard initialState emptyWorld eq_refl)
    as (Hw & Hf & _).
  split; [exact Hw|exact Hf].
Defined.

(** ** Generating notes *)

Section Submitting.

Variable axios_post : World -> string -> File -> string -> result ResponseData.

(** Whatever the back end answers, the loop sends the files in order
    and stops at the first request that fails. *)
Lemma submitLoop_prefix topic remaining :
  forall combinedNotes w,
    exists k,
      (k <= length remaining)%nat /\
      snd (submitLoop axios_post remaining topic combinedNotes w)
      = mkWorld (nextObjectURL w)
                (log w ++ map (fun file => EvPost generateNotesUrl file topic)
                              (firstn k remaining))%list /\
      (forall combined,
          fst (submitLoop axios_post remaining topic combinedNotes w) = Ok combined ->
          k = length remaining) /\
      (remaining <> [] -> (1 <= k)%nat).
Proof.
  induction remaining as [|file rest IH]; intros combinedNotes w.
  - exists 0%nat. simpl. rewrite app_nil_r. repeat split; auto.
    + now destruct w.
    + congruence.
  - cbn [submitLoop post].
    destruct (axios_post w generateNotesUrl file topic) as [[notes|bytes]|err].
    + destruct (IH (combinedNotes ++ (cleanNotes notes ++ newline))
                   (emit (EvPost generateNotesUrl file topic) w))
        as (k & Hk & Hw & Hok & _).
      exists (S k). split; [simpl; lia|]. split; [|split].
      * rewrite Hw. cbn [emit nextObjectURL log firstn map].
        now rewrite <- app_assoc.
      * intros combined E. simpl. f_equal. now apply Hok with combined.
      * intros _. lia.
    + exists 1%nat. simpl. repeat split; try lia. discriminate.
    + exists 1%nat. simpl. repeat split; try lia. discriminate.
Qed.

Lemma submitErrorMessage_not_empty err : submitErrorMessage err <> "".
Proof.
  destruct err as [[m|]|m]; simpl; try discriminate.
  destruct m; simpl; discriminate.
Qed.

Lemma afterRequests_nil topic w : afterRequests topic [] w = w.
Proof. unfold afterRequests. simpl. rewrite app_nil_r. now destruct w. Qed.

Lemma afterRequests_cons topic file sent w :
  afterRequests topic (file :: sent) w
  = afterRequests topic sent (emit (EvPost generateNotesUrl file topic) w).
Proof.
  unfold afterRequests, emit. cbn [nextObjectURL log notesRequests map].
  now rewrite <- app_assoc.
Qed.

Lemma answered_cons topic file rest w j :
  answered axios_post topic (file :: rest) w (S j)
  <-> answered axios_post topic rest (emit (EvPost generateNotesUrl file topic) w) j.
Proof.
  unfold answered. cbn [nth_error firstn]. now rewrite afterRequests_cons.
Qed.

Lemma answered_first topic file rest w :
  answered axios_post topic (file :: rest) w 0
  <-> exists notes, axios_post w generateNotesUrl file topic = Ok (NotesData notes).
Proof.
  unfold answered. cbn [nth_error firstn]. rewrite afterRequests_nil. split.
  - intros (f & notes & E & H). injection E as <-. now exists notes.
  - intros (notes & H). now exists file, notes.
Qed.

(** The loop answers the question of where it stops: every request before
    the last one sent was answered with notes, and the loop ends with the
    combined notes exactly when the last one was answered too. *)
Lemma submitLoop_trace topic remaining :
  forall combinedNotes w,
    exists k,
      (k <= length remaining)%nat /\
      snd (submitLoop axios_post remaining topic combinedNotes w)
      = afterRequests topic (firstn k remaining) w /\
      (forall j, (S j < k)%nat -> answered axios_post topic remaining w j) /\
      (forall combined,
          fst (submitLoop axios_post remaining topic combinedNotes w) = Ok combined ->
          k = length remaining) /\
      (remaining <> [] ->
       (1 <= k)%nat /\
       ((exists combined,
            fst (submitLoop axios_post remaining topic combinedNotes w) = Ok combined)
        <-> answered axios_post topic remaining w (k - 1))).
Proof.
  induction remaining as [|file rest IH]; intros combinedNotes w.
  - exists 0%nat. cbn [submitLoop firstn snd fst length]. rewrite afterRequests_nil.
    repeat split; auto; try lia; congruence.
  - cbn [submitLoop post].
    destruct (axios_post w generateNotesUrl file topic) as [[notes|blob]|err] eqn:R.
    + destruct (IH (combinedNotes ++ (cleanNotes notes ++ newline))
                   (emit (EvPost generateNotesUrl file topic) w))
        as (k & Hk & Hw & Hans & Hok & Hlast).
      assert (H0 : answered axios_post topic (file :: rest) w 0)
        by (apply answered_first; now exists notes).
      exists (S k). split; [simpl; lia|]. split; [|split; [|split]].
      * rewrite Hw. cbn [firstn]. now rewrite afterRequests_cons.
      * intros [|j] Hj; [exact H0|]. apply answered_cons. apply Hans. lia.
      * intros combined E. simpl. f_equal. now apply Hok with combined.
      * intros _. split; [lia|].
        replace (S k - 1)%nat with k by lia.
        destruct rest as [|file' rest'].
        -- assert (k = 0)%nat by (simpl in Hk; lia). subst k.
           cbn [submitLoop fst]. split; [intros _; exact H0|eauto].
        -- destruct Hlast as [Hk1 Hiff]; [discriminate|].
           rewrite Hiff. destruct k as [|k']; [lia|].
           replace (S k' - 1)%nat with k' by lia. symmetry. apply answered_cons.
    + exists 1%nat. cbn [fst snd firstn length]. rewrite afterRequests_cons, afterRequests_nil.
      split; [lia|]. split; [reflexivity|]. split; [intros j Hj; lia|].
      split; [discriminate|]. intros _. split; [lia|]. cbn [Nat.sub].
      rewrite answered_first. split; intros (x & Hx); congruence.
    + exists 1%nat. cbn [fst snd firstn length]. rewrite afterRequests_cons, afterRequests_nil.
      split; [lia|]. split; [reflexivity|]. split; [intros j Hj; lia|].
      split; [discriminate|]. intros _. split; [lia|]. cbn [Nat.sub].
      rewrite answered_first. split; intros (x & Hx); congruence.
Qed.

End Submitting.

(** X14.  The requests of [handleSubmit], for any back end.  They are the
    first [k] files of the list, in order, and no object URL is created.
    When a guard blocks (no file, or a topic of white space only) nothing
    is sent.  Otherwise at least one file is sent, every request before
    the last one sent was answered with notes, and the last one sent was
    answered too exactly when every file has been sent and no error is
    shown: the requests stop at the first one that fails. *)
Theorem handleSubmit_requests_are_a_prefix :
  forall (axios_post : World -> string -> File -> string -> result ResponseData)
         (st : AppState) (w : World),
    exists k,
      (k <= length (files st))%nat /\
      requests (log (snd (handleSubmit axios_post st w)))
      = (requests (log w) ++ notesRequests (topic st) (firstn k (files st)))%list /\
      nextObjectURL (snd (handleSubmit axios_post st w)) = nextObjectURL w /\
      (files st = [] \/ WhiteSpaceOnly (topic st) -> k = 0%nat) /\
      (files st <> [] -> ~ WhiteSpaceOnly (topic st) ->
       (1 <= k)%nat /\
       (forall j, (S j < k)%nat -> answered axios_post (topic st) (files st) w j) /\
       (answered axios_post (topic st) (files st) w (k - 1)
        <-> k = length (files st) /\ error (fst (handleSubmit axios_post st w)) = "")).
Proof.
  intros axios_post st w. unfold handleSubmit.
  destruct (Nat.eqb_spec (length (files st)) 0) as [E0|E0].
  { exists 0%nat. cbn [snd firstn notesRequests map]. rewrite app_nil_r.
    split; [lia|]. split; [reflexivity|]. split; [reflexivity|].
    split; [reflexivity|]. intros Hn. apply length_zero_iff_nil in E0. congruence. }
  destruct (trim (topic st)) as [|c t] eqn:Et; cbn [isEmpty].
  { exists 0%nat. cbn [snd firstn notesRequests map]. rewrite app_nil_r.
    split; [lia|]. split; [reflexivity|]. split; [reflexivity|].
    split; [reflexivity|]. intros _ Hn. exfalso. apply Hn. now apply trim_blank. }
  assert (Hnb : ~ WhiteSpaceOnly (topic st))
    by (intros Hb; apply trim_blank in Hb; congruence).
  assert (Hne : files st <> [])
    by (intros Hn; apply E0; now rewrite Hn).
  destruct (submitLoop_trace axios_post (topic st) (files st) "" w)
    as (k & Hk & Hw & Hans & Hok & Hlast).
  destruct (Hlast Hne) as [Hk1 Hiff].
  exists k. split; [exact Hk|].
  destruct (submitLoop axios_post (files st) (topic st) "" w) as [[combined|err] w1];
    cbn [snd fst] in Hw, Hok, Hiff; subst w1;
    unfold afterRequests, consoleError, emit; cbn [snd fst log nextObjectURL].
  - rewrite requests_app. unfold notesRequests at 1. rewrite requests_posts.
    split; [reflexivity|]. split; [reflexivity|].
    split; [intros [H|H]; [congruence|contradiction]|].
    intros _ _. split; [exact Hk1|]. split; [exact Hans|].
    split; [intros _; split; [now apply Hok with combined|reflexivity]|].
    intros _. apply Hiff. now exists combined.
  - rewrite !requests_app. unfold notesRequests at 1. rewrite requests_posts.
    simpl. rewrite app_nil_r.
    split; [reflexivity|]. split; [reflexivity|].
    split; [intros [H|H]; [congruence|contradiction]|].
    intros _ _. split; [exact Hk1|]. split; [exact Hans|].
    split.
    + intros Ha. apply Hiff in Ha. destruct Ha as (x & Hx). discriminate.
    + intros [_ He]. exfalso. now apply (submitErrorMessage_not_empty err).
Qed.

Lemma handleSubmit_requests_are_a_prefix_witness :
  exists k,
    requests (log (snd (handleSubmit tiredServer threeFiles emptyWorld)))
    = notesRequests "Heat" (firstn k [photo; scan; photo]) /\
    k = 2%nat /\
    answered tiredServer "Heat" [photo; scan; photo] emptyWorld 0 /\
    ~ answered tiredServer "Heat" [photo; scan; photo] emptyWorld 1.
Proof.
  destruct (@handleSubmit_requests_are_a_prefix tiredServer threeFiles emptyWorld)
    as (k & Hk & Hreq & _ & _ & Hrun).
  exists k. split; [exact Hreq|].
  assert (E : k = 2%nat).
  { destruct k as [|[|[|[|k]]]]; try reflexivity;
      try (vm_compute in Hreq; discriminate Hreq). }
  split; [exact E|]. subst k.
  destruct Hrun as (_ & Hans & Hiff).
  - discriminate.
  - intros Hb. apply trim_blank in Hb. discriminate.
  - split; [apply Hans; lia|].
    intros Ha. apply Hiff in Ha. destruct Ha as [He _]. discriminate.
Defined.

(** X15.  How a submission that passes the guards ends: the loading flag is
    off again, and either every file was sent and no error is shown, or the
    notes are empty (nothing partial is kept) and a non-empty error is
    shown. *)
Theorem handleSubmit_all_or_nothing :
  forall (axios_post : World -> string -> File -> string -> result ResponseData)
         (st : AppState) (w : World),
    files st <> [] ->
    trim (topic st) <> "" ->
    let st' := fst (handleSubmit axios_post st w) in
    let w' := snd (handleSubmit axios_post st w) in
    loading st' = false /\
    ((error st' = "" /\
      requests (log w')
      = (requests (log w)
         ++ map (fun file => EvPost generateNotesUrl file (topic st)) (files st))%list) \/
     (notes st' = "" /\ error st' <> "")).
Proof.
  intros axios_post st w Hf Ht st' w'. subst st' w'. unfold handleSubmit.
  destruct (files st) as [|file0 rest] eqn:Ef; [congruence|]. cbn [length Nat.eqb].
  destruct (trim (topic st)) as [|c t] eqn:Et; [congruence|]. cbn [isEmpty].
  rewrite <- Ef.
  destruct (submitLoop_prefix axios_post (topic st) (files st) "" w)
    as (k & Hk & Hw & Hok & _).
  destruct (submitLoop axios_post (files st) (topic st) "" w) as [[combined|err] w1];
    simpl in Hw, Hok; subst w1; cbn [snd fst].
  - split; [reflexivity|]. left. split; [reflexivity|].
    rewrite (Hok combined eq_refl), firstn_all. simpl.
    now rewrite requests_app, requests_posts.
  - split; [reflexivity|]. right. split; [reflexivity|].
    simpl. apply submitErrorMessage_not_empty.
Qed.

Lemma handleSubmit_all_or_nothing_witness :
  (files twoFiles <> [] /\ trim (topic twoFiles) <> "") /\
  loading (fst (handleSubmit downServer twoFiles emptyWorld)) = false /\
  ((error (fst (handleSubmit downServer twoFiles emptyWorld)) = "" /\
    requests (log (snd (handleSubmit downServer twoFiles emptyWorld)))
    = (requests (log emptyWorld)
       ++ map (fun file => EvPost generateNotesUrl file (topic twoFiles))
              (files twoFiles))%list) \/
   (notes (fst (handleSubmit downServer twoFiles emptyWorld)) = "" /\
    error (fst (handleSubmit downServer twoFiles emptyWorld)) <> "")).
Proof.
  assert (Hf : files twoFiles <> []) by discriminate.
  assert (Ht : trim (topic twoFiles) <> "") by discriminate.
  split; [split; assumption|].
  exact (@handleSubmit_all_or_nothing downServer twoFiles emptyWorld Hf Ht).
Defined.

Lemma app_same_l {A : Type} (l added : list A) : l = (l ++ added)%list -> added = [].
Proof.
  intros E. apply (app_inv_head l). now rewrite app_nil_r.
Qed.

(** X16.  With at least one file, a submission sends nothing exactly when the
    topic is made of white-space characters only (the empty topic
    included); white space is that of [String.prototype.trim], U+00A0 and
    U+3000 for instance. *)
Theorem handleSubmit_silent_iff_topic_blank :
  forall (axios_post : World -> string -> File -> string -> result ResponseData)
         (st : AppState) (w : World),
    files st <> [] ->
    (requests (log (snd (handleSubmit axios_post st w))) = requests (log w)
     <-> WhiteSpaceOnly (topic st)).
Proof.
  intros axios_post st w Hf. rewrite <- trim_blank.
  unfold handleSubmit.
  destruct (files st) as [|file0 rest] eqn:Ef; [congruence|]. cbn [length Nat.eqb].
  destruct (trim (topic st)) as [|c t] eqn:Eb; [simpl; tauto|]. cbn [isEmpty].
  split; [|discriminate]. rewrite <- Ef. intros Hsame. exfalso.
  destruct (submitLoop_prefix axios_post (topic st) (files st) "" w)
    as (k & Hk & Hw & _ & Hpos).
  assert (Hk1 : (1 <= k)%nat) by (apply Hpos; congruence).
  destruct (submitLoop axios_post (files st) (topic st) "" w) as [[combined|err] w1];
    simpl in Hw; subst w1; cbn [snd fst consoleError emit log] in Hsame;
    rewrite ?requests_app, requests_posts in Hsame; simpl in Hsame;
    rewrite ?app_nil_r in Hsame; symmetry in Hsame; apply app_same_l in Hsame;
    rewrite Ef in Hsame; destruct k; [lia|discriminate|lia|discriminate].
Qed.

Lemma handleSubmit_silent_iff_topic_blank_witness :
  files (setTopic wideBlank (setFiles [photo] initialState)) <> [] /\
  requests (log (snd (handleSubmit helpfulServer
                        (setTopic wideBlank (setFiles [photo] initialState)) emptyWorld)))
  = requests (log emptyWorld).
Proof.
  assert (Hf : files (setTopic wideBlank (setFiles [photo] initialState)) <> [])
    by discriminate.
  split; [exact Hf|].
  apply (proj2 (@handleSubmit_silent_iff_topic_blank helpfulServer
                  (setTopic wideBlank (setFiles [photo] initialState)) emptyWorld Hf)).
  apply blank_WhiteSpaceOnly. reflexivity.
Defined.

(** ** Downloading *)

Section Downloading.

Variable axios_post : World -> string -> File -> string -> result ResponseData.

Lemma handleDownload_cases st w :
  ((files st = [] \/ trim (topic st) = "") /\
   handleDownload axios_post st w
   = (setError "Please upload an image and enter a topic first." st, w)) \/
  (exists file0 rest,
      files st = file0 :: rest /\ trim (topic st) <> "" /\
      ((exists err,
           axios_post w generateNotesPdfUrl file0 (topic st) = Throw err /\
           handleDownload axios_post st w
           = (setError "Failed to download PDF. Please try again." st,
              mkWorld (nextObjectURL w)
                      (log w ++ [EvPost generateNotesPdfUrl file0 (topic st);
                                 EvConsoleError "Error downloading PDF:"])%list)) \/
       (exists data,
           axios_post w generateNotesPdfUrl file0 (topic st) = Ok data /\
           exists bytes,
             handleDownload axios_post st w
             = (st,
                mkWorld (S (nextObjectURL w))
                        (log w ++ [EvPost generateNotesPdfUrl file0 (topic st);
                                   EvCreateObjectURL (nextObjectURL w)
                                                     (BlobObject bytes "application/pdf");
                                   EvLinkClick (nextObjectURL w) (downloadName (topic st));
                                   EvRevokeObjectURL (nextObjectURL w)])%list)))).
Proof.
  unfold handleDownload.
  destruct (files st) as [|file0 rest]; [left; split; [now left|reflexivity]|].
  destruct (trim (topic st)) as [|c t] eqn:Et; cbn [isEmpty];
    [left; split; [now right|reflexivity]|].
  right. exists file0, rest. split; [reflexivity|]. split; [discriminate|].
  cbn [post].
  destruct (axios_post w generateNotesPdfUrl file0 (topic st)) as [data|err].
  - right. exists data. split; [reflexivity|]. eexists.
    unfold createObjectURL, revokeObjectURL, emit. simpl.
    rewrite <- !app_assoc. reflexivity.
  - left. exists err. split; [reflexivity|].
    unfold consoleError, emit. simpl. now rewrite <- app_assoc.
Qed.

End Downloading.

(** X17.  A download with no file, or with a topic that is empty or made of
    white space only (that of [String.prototype.trim], U+00A0 and U+3000
    included), only sets the error: nothing is sent and no object URL is
    created. *)
Theorem handleDownload_blocked :
  forall (axios_post : World -> string -> File -> string -> result ResponseData)
         (st : AppState) (w : World),
    files st = [] \/ WhiteSpaceOnly (topic st) ->
    handleDownload axios_post st w
    = (setError "Please upload an image and enter a topic first." st, w).
Proof.
  intros axios_post st w Hb.
  destruct (handleDownload_cases axios_post st w)
    as [[_ E]|(file0 & rest & Hf & Ht & _)]; [exact E|].
  destruct Hb as [Hb|Hb]; [congruence|]. now apply trim_blank in Hb.
Qed.

Lemma handleDownload_blocked_witness :
  (files (setTopic wideBlank (setFiles [photo] initialState)) = [] \/
   WhiteSpaceOnly (topic (setTopic wideBlank (setFiles [photo] initialState)))) /\
  handleDownload helpfulServer (setTopic wideBlank (setFiles [photo] initialState)) emptyWorld
  = (setError "Please upload an image and enter a topic first."
              (setTopic wideBlank (setFiles [photo] initialState)),
     emptyWorld).
Proof.
  assert (Hb : files (setTopic wideBlank (setFiles [photo] initialState)) = [] \/
               WhiteSpaceOnly (topic (setTopic wideBlank (setFiles [photo] initialState))))
    by (right; apply blank_WhiteSpaceOnly; reflexivity).
  split; [exact Hb|].
  exact (@handleDownload_blocked helpfulServer
           (setTopic wideBlank (setFiles [photo] initialState)) emptyWorld Hb).
Defined.

(** X18.  Whatever the back end answers, [handleDownload] changes at most the
    error of the state, sends at most one request, and revokes, before it
    returns, every object URL it created. *)
Theorem handleDownload_releases_its_url :
  forall (axios_post : World -> string -> File -> string -> result ResponseData)
         (st : AppState) (w : World),
    exists added,
      log (snd (handleDownload axios_post st w)) = (log w ++ added)%list /\
      (length (requests added) <= 1)%nat /\
      (forall u source, In (EvCreateObjectURL u source) added ->
                        In (EvRevokeObjectURL u) added) /\
      exists message,
        fst (handleDownload axios_post st w) = st \/
        fst (handleDownload axios_post st w) = setError message st.
Proof.
  intros axios_post st w.
  destruct (handleDownload_cases axios_post st w)
    as [[_ ->]|(file0 & rest & _ & _ & [(err & _ & ->)|(data & _ & bytes & ->)])].
  - exists []. simpl. rewrite app_nil_r. repeat split; try lia; try contradiction.
    eexists. right. reflexivity.
  - eexists. split; [reflexivity|]. split; [simpl; lia|]. split.
    + intros u source [H|[H|[]]]; discriminate.
    + eexists. right. reflexivity.
  - eexists. split; [reflexivity|]. split; [simpl; lia|]. split.
    + intros u source [H|[H|[H|[H|[]]]]]; try discriminate.
      injection H as <- _. simpl. auto.
    + exists "". left. reflexivity.
Qed.

(** X19.  When the request for the PDF fails, the error is set and nothing is
    offered for download: no object URL, no click. *)
Theorem handleDownload_failure :
  forall (axios_post : World -> string -> File -> string -> result ResponseData)
         (st : AppState) (w : World) (file0 : File) (rest : list File) (err : exn),
    files st = file0 :: rest ->
    trim (topic st) <> "" ->
    axios_post w generateNotesPdfUrl file0 (topic st) = Throw err ->
    handleDownload axios_post st w
    = (setError "Failed to download PDF. Please try again." st,
       mkWorld (nextObjectURL w)
               (log w ++ [EvPost generateNotesPdfUrl file0 (topic st);
                          EvConsoleError "Error downloading PDF:"])%list).
Proof.
  intros axios_post st w file0 rest err Hf Ht Herr.
  destruct (handleDownload_cases axios_post st w)
    as [[[H|H] _]|(f & r & Hf' & _ & [(e & _ & E)|(data & Hd & _)])];
    congruence.
Qed.

Lemma handleDownload_failure_witness :
  (files twoFiles = photo :: [scan] /\ trim (topic twoFiles) <> "" /\
   downServer emptyWorld generateNotesPdfUrl photo (topic twoFiles)
   = Throw (AxiosError (Some "OCR failed"))) /\
  handleDownload downServer twoFiles emptyWorld
  = (setError "Failed to download PDF. Please try again." twoFiles,
     mkWorld 0 [EvPost generateNotesPdfUrl photo "Heat";
                EvConsoleError "Error downloading PDF:"]).
Proof.
  assert (Hf : files twoFiles = photo :: [scan]) by reflexivity.
  assert (Ht : trim (topic twoFiles) <> "") by discriminate.
  split; [repeat split; assumption|].
  exact (@handleDownload_failure downServer twoFiles emptyWorld photo [scan]
           (AxiosError (Some "OCR failed")) Hf Ht eq_refl).
Defined.

(** ** The life cycle of the preview URLs *)

Lemma revokeAll_eq urls :
  forall w, revokeAll urls w
            = mkWorld (nextObjectURL w) (log w ++ map EvRevokeObjectURL urls)%list.
Proof.
  unfold revokeAll. induction urls as [|u urls IH]; intros w; simpl.
  - rewrite app_nil_r. now destruct w.
  - rewrite IH. unfold revokeObjectURL, emit. simpl. now rewrite <- app_assoc.
Qed.

Lemma numbered_le n m e : (n <= m)%nat -> numbered n e -> numbered m e.
Proof. destruct e; simpl; auto; lia. Qed.

Lemma nth_error_splice1 {A : Type} index : forall (l : list A) i,
  nth_error (splice1 index l) i
  = nth_error l (if (i <? index)%nat then i else S i).
Proof.
  unfold splice1. induction index as [|k IH]; intros [|a l] i; simpl.
  - now destruct i.
  - reflexivity.
  - now destruct (i <? S k)%nat; destruct i.
  - destruct i as [|i]; [reflexivity|]. simpl. rewrite IH.
    change (S i <? S k)%nat with (i <? k)%nat. now destruct (i <? k)%nat.
Qed.

Lemma splice1_NoDup {A : Type} index : forall l : list A,
  NoDup l -> NoDup (splice1 index l).
Proof.
  unfold splice1. induction index as [|k IH]; intros [|a l] Hnd; simpl; auto.
  - now inversion Hnd.
  - inversion Hnd as [|? ? Hnotin Hl]; subst. constructor; [|now apply IH].
    intros Hin. apply Hnotin. apply (splice1_In a k l). exact Hin.
Qed.

Section LifeCycle.

Variable axios_post : World -> string -> File -> string -> result ResponseData.
Variables pageWidth pageHeight : Q.
Variable splitTextToSize : jsPDF -> string -> Q -> result (list string).
Variable parseFromString : string -> result node.
Variable output : jsPDF -> result string.
Variable today : string.

Local Abbreviation doHandle :=
  (handle axios_post pageWidth pageHeight splitTextToSize parseFromString output today).
Local Abbreviation doStep :=
  (step axios_post pageWidth pageHeight splitTextToSize parseFromString output today).
Local Abbreviation doRun :=
  (run axios_post pageWidth pageHeight splitTextToSize parseFromString output today).

(** What a handler other than [removeFile] does to the previews: it
    leaves them alone and logs no URL of a file, or it replaces them all by
    new URLs, one per file. *)
Lemma handle_summary a st w :
  (forall index, a <> RemoveFile index) ->
  exists added,
    log (snd (doHandle a st w)) = (log w ++ added)%list /\
    (nextObjectURL w <= nextObjectURL (snd (doHandle a st w)))%nat /\
    Forall (numbered (nextObjectURL (snd (doHandle a st w)))) added /\
    ((previewUrlsId (fst (doHandle a st w)) = previewUrlsId st /\
      previewUrls (fst (doHandle a st w)) = previewUrls st /\
      files (fst (doHandle a st w)) = files st /\
      Forall (fun e => isFileCreate e = false) added) \/
     (previewUrlsId (fst (doHandle a st w)) = S (previewUrlsId st) /\
      previewUrls (fst (doHandle a st w))
      = seq (nextObjectURL w) (length (files (fst (doHandle a st w)))) /\
      nextObjectURL (snd (doHandle a st w))
      = (nextObjectURL w + length (files (fst (doHandle a st w))))%nat /\
      added = previewEvents (previewUrls (fst (doHandle a st w)))
                            (files (fst (doHandle a st w))))).
Proof.
  intros Hnot.
  assert (Hfresh : forall n (l : list File),
             Forall (numbered (n + length l)) (previewEvents (seq n (length l)) l)).
  { intros n l. apply Forall_forall. intros e He.
    apply previewEvents_In in He. destruct He as (u & f & -> & Hu).
    apply in_seq in Hu. simpl. lia. }
  assert (Hnone : forall (st' : AppState) (w' : World),
             w' = w -> previewUrlsId st' = previewUrlsId st ->
             previewUrls st' = previewUrls st -> files st' = files st ->
             exists added,
               log w' = (log w ++ added)%list /\
               (nextObjectURL w <= nextObjectURL w')%nat /\
               Forall (numbered (nextObjectURL w')) added /\
               ((previewUrlsId st' = previewUrlsId st /\ previewUrls st' = previewUrls st /\
                 files st' = files st /\ Forall (fun e => isFileCreate e = false) added) \/
                (previewUrlsId st' = S (previewUrlsId st) /\
                 previewUrls st' = seq (nextObjectURL w) (length (files st')) /\
                 nextObjectURL w' = (nextObjectURL w + length (files st'))%nat /\
                 added = previewEvents (previewUrls st') (files st')))).
  { intros st' w' -> Hi Hp Hf. exists []. rewrite app_nil_r.
    split; [reflexivity|]. split; [lia|]. split; [constructor|].
    left. repeat split; auto. }
  destruct a as [selectedFiles|clipboardItems|value| |index| | ]; cbn [handle].
  - destruct (handleFileChange_cases selectedFiles st w) as (msg & [[_ ->]|[_ E]]).
    + now apply Hnone.
    + cbv zeta in E. rewrite E. cbn [fst snd log nextObjectURL].
      eexists. split; [reflexivity|]. split; [lia|]. split; [apply Hfresh|].
      right. repeat split; reflexivity.
  - destruct clipboardItems as [items|]; [|now apply Hnone].
    destruct (handlePaste_cases items st w) as (msg & [[_ ->]|(_ & _ & E)]).
    + now apply Hnone.
    + cbv zeta in E. rewrite E. cbn [fst snd log nextObjectURL].
      eexists. split; [reflexivity|]. split; [lia|]. split; [apply Hfresh|].
      right. repeat split; reflexivity.
  - now apply Hnone.
  - unfold handleSubmit.
    destruct (length (files st) =? 0)%nat; [now apply Hnone|].
    destruct (isEmpty (trim (topic st))); [now apply Hnone|].
    destruct (submitLoop_prefix axios_post (topic st) (files st) "" w)
      as (k & _ & Hw & _).
    destruct (submitLoop axios_post (files st) (topic st) "" w) as [[combined|err] w1];
      simpl in Hw; subst w1; cbn [fst snd consoleError emit log nextObjectURL].
    + eexists. split; [reflexivity|]. split; [lia|]. split.
      * apply Forall_forall. intros e He. apply in_map_iff in He.
        destruct He as (f & <- & _). exact I.
      * left. repeat split; try reflexivity.
        apply Forall_forall. intros e He. apply in_map_iff in He.
        now destruct He as (f & <- & _).
    + rewrite <- app_assoc. eexists. split; [reflexivity|]. split; [lia|]. split.
      * apply Forall_forall. intros e He. apply in_app_iff in He.
        destruct He as [He|[<-|[]]]; [|exact I].
        apply in_map_iff in He. destruct He as (f & <- & _). exact I.
      * left. repeat split; try reflexivity.
        apply Forall_forall. intros e He. apply in_app_iff in He.
        destruct He as [He|[<-|[]]]; [|reflexivity].
        apply in_map_iff in He. now destruct He as (f & <- & _).
  - now elim (Hnot index).
  - unfold generatePDF.
    destruct (generatePDF_try pageWidth pageHeight splitTextToSize parseFromString
                              output today st w) as [w1|err] eqn:E.
    + destruct (@attempt_ok pageWidth pageHeight splitTextToSize parseFromString output
                  today st w w1 E) as (bytes & ->).
      cbn [fst snd log nextObjectURL].
      eexists. split; [reflexivity|]. split; [lia|]. split.
      * repeat constructor; simpl; lia.
      * left. repeat split; try reflexivity. repeat constructor.
    + cbn [fst snd consoleError emit log nextObjectURL].
      eexists. split; [reflexivity|]. split; [lia|]. split.
      * repeat constructor.
      * left. repeat split; try reflexivity. repeat constructor.
  - destruct (handleDownload_cases axios_post st w)
      as [[_ ->]|(file0 & rest & _ & _ & [(err & _ & ->)|(data & _ & bytes & ->)])].
    + now apply Hnone.
    + cbn [fst snd log nextObjectURL].
      eexists. split; [reflexivity|]. split; [lia|]. split.
      * repeat constructor.
      * left. repeat split; try reflexivity. repeat constructor.
    + cbn [fst snd log nextObjectURL].
      eexists. split; [reflexivity|]. split; [lia|]. split.
      * repeat constructor; simpl; lia.
      * left. repeat split; try reflexivity. repeat constructor.
Qed.

(** A step, the re-render included: the previews are kept and no URL of
    a file is logged; or all previews are replaced and the former ones
    revoked by the effect clean-up; or a file is removed, its preview
    revoked, and then all former previews revoked by the clean-up. *)
Lemma step_summary a st w :
  (previewUrls (fst (doStep a (st, w))) = previewUrls st /\
   files (fst (doStep a (st, w))) = files st /\
   (nextObjectURL w <= nextObjectURL (snd (doStep a (st, w))))%nat /\
   exists added,
     log (snd (doStep a (st, w))) = (log w ++ added)%list /\
     Forall (numbered (nextObjectURL (snd (doStep a (st, w))))) added /\
     Forall (fun e => isFileCreate e = false) added) \/
  (previewUrls (fst (doStep a (st, w)))
   = seq (nextObjectURL w) (length (files (fst (doStep a (st, w))))) /\
   nextObjectURL (snd (doStep a (st, w)))
   = (nextObjectURL w + length (files (fst (doStep a (st, w)))))%nat /\
   log (snd (doStep a (st, w)))
   = (log w ++ previewEvents (previewUrls (fst (doStep a (st, w))))
                             (files (fst (doStep a (st, w))))
            ++ map EvRevokeObjectURL (previewUrls st))%list) \/
  (exists index,
      a = RemoveFile index /\
      previewUrls (fst (doStep a (st, w))) = splice1 index (previewUrls st) /\
      files (fst (doStep a (st, w))) = splice1 index (files st) /\
      nextObjectURL (snd (doStep a (st, w))) = nextObjectURL w /\
      log (snd (doStep a (st, w)))
      = (log w ++ match nth_error (previewUrls st) index with
                  | Some u => [EvRevokeObjectURL u]
                  | None => []
                  end
               ++ map EvRevokeObjectURL (previewUrls st))%list).
Proof.
  destruct a as [selectedFiles|clipboardItems|value| |index| | ] eqn:Ha;
    try (rewrite <- Ha;
         assert (Hnot : forall index, a <> RemoveFile index) by (subst a; discriminate);
         destruct (handle_summary st w Hnot)
           as (added & Hlog & Hnext & Hnum & [(Hid & Hp & Hf & Hnc)|(Hid & Hp & Hn & Hadd)]);
         unfold step;
         destruct (doHandle a st w) as [st' w'] eqn:E; cbn [fst snd] in *;
         unfold commit; rewrite Hid;
         [rewrite Nat.eqb_refl; left; repeat split; auto; exists added; auto
         |replace (previewUrlsId st =? S (previewUrlsId st))%nat with false
            by (symmetry; apply Nat.eqb_neq; lia);
          right; left; rewrite revokeAll_eq; cbn [fst snd log nextObjectURL];
          rewrite Hlog, Hadd, <- app_assoc; auto]).
  right. right. exists index. split; [reflexivity|].
  unfold step, handle, removeFile, commit. cbn [fst snd setFiles setPreviewUrls
    previewUrlsId previewUrls files].
  replace (previewUrlsId st =? S (previewUrlsId st))%nat with false
    by (symmetry; apply Nat.eqb_neq; lia).
  rewrite revokeAll_eq.
  destruct (nth_error (previewUrls st) index) as [u|];
    cbn [revokeObjectURL emit log nextObjectURL]; rewrite <- ?app_assoc;
    repeat split; reflexivity.
Qed.

Lemma step_wellNumbered a sw : wellNumbered sw -> wellNumbered (doStep a sw).
Proof.
  destruct sw as [st w]. unfold wellNumbered. cbn [fst snd]. intros [Hlog Hprev].
  assert (Hrevs : forall n, (nextObjectURL w <= n)%nat ->
             Forall (numbered n) (map EvRevokeObjectURL (previewUrls st))).
  { intros n Hn. apply Forall_forall. intros e He. apply in_map_iff in He.
    destruct He as (u & <- & Hu). simpl.
    rewrite Forall_forall in Hprev. apply Hprev in Hu. lia. }
  destruct (step_summary a st w)
    as [(Hp & _ & Hn & added & Hl & Hnum & _)
       |[(Hp & Hn & Hl)|(index & _ & Hp & _ & Hn & Hl)]].
  - rewrite Hp, Hl. split.
    + apply Forall_app. split; [|exact Hnum].
      eapply Forall_impl; [|exact Hlog]. intros e. now apply numbered_le.
    + eapply Forall_impl; [|exact Hprev]. intros v Hv.
      eapply Nat.lt_le_trans; [exact Hv|exact Hn].
  - rewrite Hl, Hn, !Hp.
    set (k := length (files (fst (doStep a (st, w))))). clearbody k. split.
    + rewrite !Forall_app. repeat split.
      * eapply Forall_impl; [|exact Hlog]. intros e. apply numbered_le. lia.
      * apply Forall_forall. intros e He. apply previewEvents_In in He.
        destruct He as (u & f & -> & Hu). apply in_seq in Hu. simpl. lia.
      * apply Hrevs. lia.
    + apply Forall_forall. intros v Hv. apply in_seq in Hv. lia.
  - rewrite Hl, Hn, Hp. split.
    + rewrite !Forall_app. repeat split; [exact Hlog| |now apply Hrevs].
      destruct (nth_error (previewUrls st) index) as [u|] eqn:E; [|constructor].
      constructor; [|constructor]. simpl. apply nth_error_In in E.
      rewrite Forall_forall in Hprev. now apply Hprev.
    + apply Forall_forall. intros v Hv. apply splice1_In in Hv.
      rewrite Forall_forall in Hprev. now apply Hprev.
Qed.

Lemma step_previewsMatch a sw : previewsMatch sw -> previewsMatch (doStep a sw).
Proof.
  destruct sw as [st w]. unfold previewsMatch. cbn [fst snd]. intros [Hlen Hnth].
  destruct (step_summary a st w)
    as [(Hp & Hf & _ & added & Hl & _)
       |[(Hp & _ & Hl)|(index & _ & Hp & Hf & _ & Hl)]].
  - rewrite Hp, Hf, Hl. split; [exact Hlen|].
    intros i u f Hu Hfile. apply in_app_iff. left. now apply Hnth with i.
  - rewrite Hl. split; [rewrite Hp; apply length_seq|].
    intros i u f Hu Hfile. apply in_app_iff. right. apply in_app_iff. left.
    now apply previewEvents_nth with i.
  - rewrite Hp, Hf, Hl. split; [now apply splice1_length|].
    intros i u f Hu Hfile. rewrite nth_error_splice1 in Hu.
    rewrite nth_error_splice1 in Hfile.
    apply in_app_iff. left. eapply Hnth; eassumption.
Qed.

Lemma step_previewsAccounted a sw :
  previewsAccounted sw -> previewsAccounted (doStep a sw).
Proof.
  destruct sw as [st w]. unfold previewsAccounted. cbn [fst snd]. intros Hacc.
  assert (Hold : forall u f tail,
             In (EvCreateObjectURL u (FileObject f)) (log w) ->
             revoked u (log w ++ tail ++ map EvRevokeObjectURL (previewUrls st))).
  { intros u f tail Hin. unfold revoked. rewrite !in_app_iff.
    destruct (Hacc u f Hin) as [H|H]; [now left|].
    right. right. now apply in_map. }
  assert (Hrev : forall (us : list nat) u f,
             ~ In (EvCreateObjectURL u (FileObject f)) (map EvRevokeObjectURL us)).
  { intros us u f H. apply in_map_iff in H. now destruct H as (v & H & _). }
  destruct (step_summary a st w)
    as [(Hp & _ & _ & added & Hl & _ & Hnc)
       |[(Hp & _ & Hl)|(index & _ & Hp & _ & _ & Hl)]];
    rewrite Hl; intros u f Hin; rewrite !in_app_iff in Hin.
  - destruct Hin as [Hin|Hin].
    + rewrite Hp. destruct (Hacc u f Hin) as [H|H]; [left|now right].
      unfold revoked. apply in_app_iff. now left.
    + rewrite Forall_forall in Hnc. apply Hnc in Hin. discriminate.
  - destruct Hin as [Hin|[Hin|Hin]].
    + left. now apply Hold with f.
    + right. apply previewEvents_In in Hin.
      destruct Hin as (u' & f' & E & Hu). now injection E as -> _.
    + now apply Hrev in Hin.
  - destruct Hin as [Hin|[Hin|Hin]].
    + left. now apply Hold with f.
    + destruct (nth_error (previewUrls st) index); [|contradiction].
      destruct Hin as [Hin|[]]. discriminate.
    + now apply Hrev in Hin.
Qed.

Lemma step_distinct a sw :
  NoDup (previewUrls (fst sw)) -> NoDup (previewUrls (fst (doStep a sw))).
Proof.
  destruct sw as [st w]. cbn [fst]. intros Hnd.
  destruct (step_summary a st w)
    as [(Hp & _)|[(Hp & _)|(index & _ & Hp & _)]]; rewrite Hp.
  - exact Hnd.
  - apply seq_NoDup.
  - now apply splice1_NoDup.
Qed.

Lemma run_invariant (P : AppState * World -> Prop) :
  (forall a sw, P sw -> P (doStep a sw)) ->
  forall actions sw, P sw -> P (doRun actions sw).
Proof.
  intros Hstep. unfold run.
  induction actions as [|a actions IH]; intros sw HP; [exact HP|].
  simpl. apply IH. now apply Hstep.
Qed.

End LifeCycle.

Lemma initial_invariants :
  wellNumbered (initialState, emptyWorld) /\
  previewsMatch (initialState, emptyWorld) /\
  previewsAccounted (initialState, emptyWorld).
Proof.
  unfold wellNumbered, previewsMatch, previewsAccounted. simpl.
  repeat split; try constructor; try contradiction.
  intros [|i] u f H; discriminate.
Qed.

(** X21.  From the first render on, after any sequence of actions and with any
    back end, the component holds one preview URL per file, and the URL at
    position i was created for the file at position i. *)
Theorem previews_match_files :
  forall (axios_post : World -> string -> File -> string -> result ResponseData)
         (pageWidth pageHeight : Q)
         (splitTextToSize : jsPDF -> string -> Q -> result (list string))
         (parseFromString : string -> result node)
         (output : jsPDF -> result string) (today : string)
         (actions : list action),
    previewsMatch
      (run axios_post pageWidth pageHeight splitTextToSize parseFromString output today
           actions (initialState, emptyWorld)).
Proof.
  intros. apply run_invariant; [intros a sw; apply step_previewsMatch|].
  apply initial_invariants.
Qed.

(** X22.  No two files ever share a preview URL. *)
Theorem preview_urls_are_distinct :
  forall (axios_post : World -> string -> File -> string -> result ResponseData)
         (pageWidth pageHeight : Q)
         (splitTextToSize : jsPDF -> string -> Q -> result (list string))
         (parseFromString : string -> result node)
         (output : jsPDF -> result string) (today : string)
         (actions : list action),
    NoDup (previewUrls
             (fst (run axios_post pageWidth pageHeight splitTextToSize parseFromString
                       output today actions (initialState, emptyWorld)))).
Proof.
  intros.
  apply (@run_invariant axios_post pageWidth pageHeight splitTextToSize parseFromString
           output today (fun sw => NoDup (previewUrls (fst sw)))).
  - intros a sw. apply step_distinct.
  - constructor.
Qed.

(** X23.  Every object URL created for a file is revoked by the time the
    component has unmounted, after any sequence of actions. *)
Theorem file_urls_revoked_at_unmount :
  forall (axios_post : World -> string -> File -> string -> result ResponseData)
         (pageWidth pageHeight : Q)
         (splitTextToSize : jsPDF -> string -> Q -> result (list string))
         (parseFromString : string -> result node)
         (output : jsPDF -> result string) (today : string)
         (actions : list action) (u : nat) (f : File),
    let final := unmount (run axios_post pageWidth pageHeight splitTextToSize
                              parseFromString output today actions
                              (initialState, emptyWorld)) in
    In (EvCreateObjectURL u (FileObject f)) (log final) ->
    revoked u (log final).
Proof.
  intros axios_post pageWidth pageHeight splitTextToSize parseFromString output today
         actions u f final. subst final.
  assert (Hacc : previewsAccounted
                   (run axios_post pageWidth pageHeight splitTextToSize parseFromString
                        output today actions (initialState, emptyWorld))).
  { apply run_invariant; [intros a sw; apply step_previewsAccounted|].
    apply initial_invariants. }
  destruct (run axios_post pageWidth pageHeight splitTextToSize parseFromString output
                today actions (initialState, emptyWorld)) as [st w].
  unfold unmount, previewsAccounted, revoked in *. cbn [fst snd] in Hacc.
  rewrite revokeAll_eq. cbn [log]. rewrite !in_app_iff.
  intros [Hin|Hin].
  - destruct (Hacc u f Hin) as [H|H]; [now left|]. right. now apply in_map.
  - apply in_map_iff in Hin. now destruct Hin as (v & H & _).
Qed.

Lemma file_urls_revoked_at_unmount_witness :
  In (EvCreateObjectURL 1 (FileObject scan))
     (log (unmount (run helpfulServer a4Width a4Height wideWrap sampleParser pdfBytes
                        "1/1/2025"
                        [FileChange [photo; scan]; RemoveFile 0; PreviewPDF]
                        (initialState, emptyWorld)))) /\
  revoked 1
     (log (unmount (run helpfulServer a4Width a4Height wideWrap sampleParser pdfBytes
                        "1/1/2025"
                        [FileChange [photo; scan]; RemoveFile 0; PreviewPDF]
                        (initialState, emptyWorld)))).
Proof.
  assert (Hin : In (EvCreateObjectURL 1 (FileObject scan))
                   (log (unmount (run helpfulServer a4Width a4Height wideWrap sampleParser
                                      pdfBytes "1/1/2025"
                                      [FileChange [photo; scan]; RemoveFile 0; PreviewPDF]
                                      (initialState, emptyWorld))))).
  { simpl. auto. }
  split; [exact Hin|].
  exact (@file_urls_revoked_at_unmount helpfulServer a4Width a4Height wideWrap sampleParser
           pdfBytes "1/1/2025" [FileChange [photo; scan]; RemoveFile 0; PreviewPDF]
           1%nat scan Hin).
Defined.

Lemma requests_revocations urls : requests (map EvRevokeObjectURL urls) = [].
Proof. induction urls as [|u urls IH]; [reflexivity|exact IH]. Qed.

(** X24.  Removing a file leaves no preview alive: after the re-render every
    preview URL the component still shows has been revoked, because the
    effect clean-up revokes all the URLs of the previous render. *)
Theorem removeFile_revokes_remaining_previews :
  forall (axios_post : World -> string -> File -> string -> result ResponseData)
         (pageWidth pageHeight : Q)
         (splitTextToSize : jsPDF -> string -> Q -> result (list string))
         (parseFromString : string -> result node)
         (output : jsPDF -> result string) (today : string)
         (index : nat) (st : AppState) (w : World),
    let after := step axios_post pageWidth pageHeight splitTextToSize parseFromString
                      output today (RemoveFile index) (st, w) in
    Forall (fun u => revoked u (log (snd after))) (previewUrls (fst after)) /\
    ((index < length (previewUrls st))%nat ->
     S (length (previewUrls (fst after))) = length (previewUrls st)).
Proof.
  intros axios_post pageWidth pageHeight splitTextToSize parseFromString output today
         index st w after. subst after.
  unfold step, handle, removeFile, commit.
  cbn [fst snd setFiles setPreviewUrls previewUrlsId previewUrls].
  replace (previewUrlsId st =? S (previewUrlsId st))%nat with false
    by (symmetry; apply Nat.eqb_neq; lia).
  rewrite revokeAll_eq. cbn [log]. split.
  - apply Forall_forall. intros u Hu. apply splice1_In in Hu.
    unfold revoked. apply in_app_iff. right. now apply in_map.
  - clear. unfold splice1. revert index.
    induction (previewUrls st) as [|v l IH]; intros [|k]; simpl; try lia.
    intros Hk. rewrite <- (IH k) by lia. reflexivity.
Qed.

Lemma removeFile_revokes_remaining_previews_witness :
  previewUrls (fst afterUpload) = [0; 1]%nat /\
  previewUrls (fst (step helpfulServer a4Width a4Height wideWrap sampleParser pdfBytes
                         "1/1/2025" (RemoveFile 0) afterUpload)) = [1]%nat /\
  revoked 1 (log (snd (step helpfulServer a4Width a4Height wideWrap sampleParser pdfBytes
                            "1/1/2025" (RemoveFile 0) afterUpload))).
Proof.
  split; [reflexivity|]. split; [reflexivity|].
  destruct (@removeFile_revokes_remaining_previews helpfulServer a4Width a4Height wideWrap
              sampleParser pdfBytes "1/1/2025" 0 (fst afterUpload) (snd afterUpload))
    as [Hall _].
  change (fst afterUpload, snd afterUpload) with afterUpload in Hall.
  inversion Hall as [|u us Hu _ Heq]. exact Hu.
Defined.

(** X25.  After any sequence of actions, choosing a batch with at least one
    acceptable file replaces the previews by fresh URLs: there is at least
    one, and none of them has been revoked when the re-render is done. *)
Theorem chosen_files_get_live_previews :
  forall (axios_post : World -> string -> File -> string -> result ResponseData)
         (pageWidth pageHeight : Q)
         (splitTextToSize : jsPDF -> string -> Q -> result (list string))
         (parseFromString : string -> result node)
         (output : jsPDF -> result string) (today : string)
         (actions : list action) (selectedFiles : list File),
    filter acceptable selectedFiles <> [] ->
    let after := run axios_post pageWidth pageHeight splitTextToSize parseFromString
                     output today (actions ++ [FileChange selectedFiles])
                     (initialState, emptyWorld) in
    previewUrls (fst after) <> [] /\
    Forall (fun u => ~ revoked u (log (snd after))) (previewUrls (fst after)).
Proof.
  intros axios_post pageWidth pageHeight splitTextToSize parseFromString output today
         actions selectedFiles Hsome after. subst after.
  unfold run. rewrite fold_left_app. cbn [fold_left].
  fold (run axios_post pageWidth pageHeight splitTextToSize parseFromString output today
            actions (initialState, emptyWorld)).
  assert (Hwn : wellNumbered
                  (run axios_post pageWidth pageHeight splitTextToSize parseFromString
                       output today actions (initialState, emptyWorld))).
  { apply run_invariant; [intros a sw; apply step_wellNumbered|].
    apply initial_invariants. }
  destruct (run axios_post pageWidth pageHeight splitTextToSize parseFromString output
                today actions (initialState, emptyWorld)) as [st w].
  destruct Hwn as [Hlog Hprev]. cbn [fst snd] in Hlog, Hprev.
  unfold step, handle.
  destruct (handleFileChange_cases selectedFiles st w) as (msg & [[E _]|[_ E]]);
    [contradiction|].
  cbv zeta in E. rewrite E. unfold commit.
  cbn [fst snd setFiles setPreviewUrls setFileError previewUrlsId previewUrls].
  replace (previewUrlsId st =? S (previewUrlsId st))%nat with false
    by (symmetry; apply Nat.eqb_neq; lia).
  rewrite revokeAll_eq. cbn [log]. split.
  - destruct (filter acceptable selectedFiles) as [|v vs]; [contradiction|].
    rewrite length_app. cbn [length]. rewrite Nat.add_succ_r. discriminate.
  - apply Forall_forall. intros u Hu. apply in_seq in Hu.
    unfold revoked. rewrite !in_app_iff. intros [[H|H]|H].
    + rewrite Forall_forall in Hlog. apply Hlog in H. simpl in H. lia.
    + apply previewEvents_In in H. destruct H as (u' & f & H & _). discriminate.
    + apply in_map_iff in H. destruct H as (v & Hv & Hin). injection Hv as ->.
      rewrite Forall_forall in Hprev. apply Hprev in Hin. lia.
Qed.

Lemma chosen_files_get_live_previews_witness :
  filter acceptable [animation; scan] <> [] /\
  previewUrls (fst (run helpfulServer a4Width a4Height wideWrap sampleParser pdfBytes
                        "1/1/2025"
                        ([FileChange [photo; scan]; RemoveFile 0]
                           ++ [FileChange [animation; scan]])
                        (initialState, emptyWorld))) = [2; 3]%nat /\
  Forall (fun u =>
            ~ revoked u
                (log (snd (run helpfulServer a4Width a4Height wideWrap sampleParser
                               pdfBytes "1/1/2025"
                               ([FileChange [photo; scan]; RemoveFile 0]
                                  ++ [FileChange [animation; scan]])
                               (initialState, emptyWorld)))))
         (previewUrls (fst (run helpfulServer a4Width a4Height wideWrap sampleParser
                                pdfBytes "1/1/2025"
                                ([FileChange [photo; scan]; RemoveFile 0]
                                   ++ [FileChange [animation; scan]])
                                (initialState, emptyWorld)))).
Proof.
  assert (Hsome : filter acceptable [animation; scan] <> []) by discriminate.
  split; [exact Hsome|]. split; [reflexivity|].
  exact (proj2 (@chosen_files_get_live_previews helpfulServer a4Width a4Height wideWrap
                  sampleParser pdfBytes "1/1/2025"
                  [FileChange [photo; scan]; RemoveFile 0] [animation; scan] Hsome)).
Defined.

(** X26.  What the handlers never do: only a submission changes the notes, only
    a change of the topic field changes the topic, and only a submission or
    a download sends a request. *)
Theorem actions_keep_to_their_cells :
  forall (axios_post : World -> string -> File -> string -> result ResponseData)
         (pageWidth pageHeight : Q)
         (splitTextToSize : jsPDF -> string -> Q -> result (list string))
         (parseFromString : string -> result node)
         (output : jsPDF -> result string) (today : string)
         (a : action) (st : AppState) (w : World),
    let after := step axios_post pageWidth pageHeight splitTextToSize parseFromString
                      output today a (st, w) in
    (a <> Submit -> notes (fst after) = notes st) /\
    ((forall value, a <> TopicChange value) -> topic (fst after) = topic st) /\
    (a <> Submit -> a <> Download -> requests (log (snd after)) = requests (log w)).
Proof.
  intros axios_post pageWidth pageHeight splitTextToSize parseFromString output today
         a st w after. subst after.
  assert (Hcommit : forall st' w',
             requests (log (commit st st' w')) = requests (log w')).
  { intros st' w'. unfold commit.
    destruct (previewUrlsId st =? previewUrlsId st')%nat; [reflexivity|].
    rewrite revokeAll_eq. cbn [log].
    now rewrite requests_app, requests_revocations, app_nil_r. }
  unfold step.
  destruct (handle axios_post pageWidth pageHeight splitTextToSize parseFromString output
                   today a st w) as [st' w'] eqn:E.
  cbn [fst snd]. rewrite Hcommit.
  destruct a as [selectedFiles|clipboardItems|value| |index| | ]; cbn [handle] in E.
  - destruct (handleFileChange_cases selectedFiles st w) as (msg & [[_ E']|[_ E']]);
      cbv zeta in E'; rewrite E' in E; injection E as <- <-; cbn [log];
      rewrite ?requests_app, ?previewEvents_requests, ?app_nil_r; repeat split.
  - destruct clipboardItems as [items|]; [|injection E as <- <-; repeat split].
    destruct (handlePaste_cases items st w) as (msg & [[_ E']|(_ & _ & E')]);
      cbv zeta in E'; rewrite E' in E; injection E as <- <-; cbn [log];
      rewrite ?requests_app, ?previewEvents_requests, ?app_nil_r; repeat split.
  - injection E as <- <-. split; [reflexivity|]. split; [|reflexivity].
    intros Hnot. now elim (Hnot value).
  - split; [congruence|]. split; [|congruence]. intros _.
    unfold handleSubmit in E.
    destruct (length (files st) =? 0)%nat; [now injection E as <- <-|].
    destruct (isEmpty (trim (topic st))); [now injection E as <- <-|].
    destruct (submitLoop axios_post (files st) (topic st) "" w) as [[c|err] w1];
      now injection E as <- <-.
  - unfold removeFile in E. injection E as <- <-.
    destruct (nth_error (previewUrls st) index); cbn [revokeObjectURL emit log];
      rewrite ?requests_app, ?app_nil_r; repeat split.
  - unfold generatePDF in E.
    destruct (generatePDF_try pageWidth pageHeight splitTextToSize parseFromString
                              output today st w) as [w1|err] eqn:Et.
    + destruct (@attempt_ok pageWidth pageHeight splitTextToSize parseFromString output
                  today st w w1 Et) as (bytes & ->).
      injection E as <- <-. cbn [log]. rewrite requests_app, app_nil_r.
      repeat split.
    + injection E as <- <-. cbn [consoleError emit log].
      rewrite requests_app, app_nil_r. repeat split.
  - split; [|split; [|congruence]]; intros _;
      destruct (handleDownload_cases axios_post st w)
        as [[_ E']|(file0 & rest & _ & _ & [(err & _ & E')|(data & _ & bytes & E')])];
      rewrite E' in E; now injection E as <- <-.
Qed.

Lemma actions_keep_to_their_cells_witness :
  (PreviewPDF <> Submit /\ PreviewPDF <> Download) /\
  notes (fst (step helpfulServer a4Width a4Height wideWrap sampleParser pdfBytes "1/1/2025"
                   PreviewPDF (studying, emptyWorld))) = "<h1>Heat</h1>" /\
  requests (log (snd (step helpfulServer a4Width a4Height wideWrap sampleParser pdfBytes
                           "1/1/2025" PreviewPDF (studying, emptyWorld)))) = [].
Proof.
  assert (H1 : PreviewPDF <> Submit) by discriminate.
  assert (H2 : PreviewPDF <> Download) by discriminate.
  split; [split; assumption|].
  destruct (@actions_keep_to_their_cells helpfulServer a4Width a4Height wideWrap
              sampleParser pdfBytes "1/1/2025" PreviewPDF studying emptyWorld)
    as (Hn & _ & Hr).
  split; [exact (Hn H1)|exact (Hr H1 H2)].
Defined.

(** ** The document as a whole *)

Lemma pagesInOrder_snoc rs r :
  pagesInOrder rs ->
  Forall (fun r' => (run_page r' <= run_page r)%nat) rs ->
  pagesInOrder (rs ++ [r]).
Proof.
  induction rs as [|a rs IH]; simpl; intros Hord Hle.
  - split; [constructor|exact I].
  - destruct Hord as [Ha Hrs]. inversion Hle as [|? ? Har Hle']; subst. split.
    + apply Forall_app. split; [exact Ha|]. constructor; [exact Har|constructor].
    + now apply IH.
Qed.

Lemma forEachFrom_invariant {A St : Type} (P : St -> Prop)
      (f : A -> nat -> St -> result St) :
  (forall a i s s', P s -> f a i s = Ok s' -> P s') ->
  forall l i s s', P s -> forEachFrom f i l s = Ok s' -> P s'.
Proof.
  intros Hf. induction l as [|a l IH]; intros i s s' HP E; simpl in E.
  - now injection E as <-.
  - destruct (f a i s) as [s1|e] eqn:E1; simpl in E; [|discriminate].
    apply (IH (S i) s1 s'); [|exact E]. now apply Hf with a i s.
Qed.

Section Document.

Variables W H : Q.
Variable split : jsPDF -> string -> Q -> result (list string).
Variable s0 : Layout.

Local Abbreviation check := (newPageIfNeeded H).
Local Abbreviation good := (laidOut H s0).

Lemma laidOut_check s : good s -> good (check s).
Proof.
  unfold laidOut, newPageIfNeeded. intros (Hpl & Hord & Hpage & Hy).
  destruct (pastThreshold H (yPos s)); [|now repeat split].
  simpl. repeat split; auto; try lia.
  eapply Forall_impl; [|exact Hpage]. simpl. intros r Hr. lia.
Qed.

Lemma laidOut_font style size p y :
  good (mkLayout p y) -> good (mkLayout (selectFont style size p) y).
Proof. trivial. Qed.

(** Placing text at the cursor, right after the page check or after
    another text placed there. *)
Lemma laidOut_text lines x s :
  good s ->
  (100 <= H -> inject_Z (yPos s) <= H - 60) ->
  (x = 40 \/ x = 55 \/ x = 60)%Z ->
  good (mkLayout (text lines x (yPos s) (pdf s)) (yPos s)).
Proof.
  unfold laidOut. intros ((placed & Hr & Hc) & Hord & Hpage & Hy) Habove Hx.
  cbn [pdf yPos text runs currentPage]. repeat split.
  - exists (placed ++ [mkRun (currentPage (pdf s)) lines x (yPos s)
                              (fontStyle (pdf s)) (fontSize (pdf s))])%list.
    split; [now rewrite Hr, app_assoc|].
    apply Forall_app. split; [exact Hc|].
    constructor; [|constructor]. unfold contentRun. simpl. auto.
  - apply pagesInOrder_snoc; assumption.
  - apply Forall_app. split; [exact Hpage|]. constructor; [simpl; lia|constructor].
  - exact Hy.
Qed.

Lemma laidOut_advance p y d :
  good (mkLayout p y) -> (0 <= d)%Z -> good (mkLayout p (y + d)).
Proof.
  unfold laidOut. cbn [pdf yPos]. intros (Hpl & Hord & Hpage & Hy) Hd.
  repeat split; auto. lia.
Qed.

Lemma check_above s : 100 <= H -> inject_Z (yPos (check s)) <= H - 60.
Proof. intros HH. now apply newPageIfNeeded_above. Qed.

Lemma len_nonneg lines : (0 <= len lines)%Z.
Proof. unfold len. lia. Qed.

Lemma laidOut_bulletItem item index s s' :
  good s -> renderBulletItem W H split item index s = Ok s' -> good s'.
Proof.
  intros Hg E. apply renderBulletItem_inv in E. destruct E as (lines & _ & ->).
  pose proof (len_nonneg lines).
  replace (yPos (check s) + len lines * 14 + 5)%Z
    with (yPos (check s) + (len lines * 14 + 5))%Z by lia.
  apply laidOut_advance; [|lia].
  apply (@laidOut_text lines (margin + 15)%Z
           (mkLayout (text1 bulletPoint margin (yPos (check s)) (pdf (check s)))
                     (yPos (check s)))).
  - apply (@laidOut_text [bulletPoint] margin (check s)).
    + now apply laidOut_check.
    + apply check_above.
    + now left.
  - apply check_above.
  - right. now left.
Qed.

Lemma laidOut_numberItem item index s s' :
  good s -> renderNumberItem W H split item index s = Ok s' -> good s'.
Proof.
  intros Hg E. apply renderNumberItem_inv in E. destruct E as (lines & _ & ->).
  pose proof (len_nonneg lines).
  replace (yPos (check s) + len lines * 14 + 5)%Z
    with (yPos (check s) + (len lines * 14 + 5))%Z by lia.
  apply laidOut_advance; [|lia].
  apply (@laidOut_text lines (margin + 20)%Z
           (mkLayout (text1 (Number_toString (index + 1) ++ ".") margin
                            (yPos (check s)) (pdf (check s)))
                     (yPos (check s)))).
  - apply (@laidOut_text [Number_toString (index + 1) ++ "."] margin (check s)).
    + now apply laidOut_check.
    + apply check_above.
    + now left.
  - apply check_above.
  - right. now right.
Qed.

Lemma laidOut_block b index s s' :
  good s -> renderBlock W H split b index s = Ok s' -> good s'.
Proof.
  intros Hg E. pose proof (laidOut_check Hg) as Hc.
  assert (Htext : forall style size lines d,
             (0 <= d)%Z ->
             good (mkLayout (text lines margin (yPos (check s))
                                  (selectFont style size (pdf (check s))))
                            (yPos (check s) + d))).
  { intros style size lines d Hd. apply laidOut_advance; [|exact Hd].
    apply (@laidOut_text lines margin
             (mkLayout (selectFont style size (pdf (check s))) (yPos (check s)))).
    - apply laidOut_font. now destruct (check s).
    - apply check_above.
    - now left. }
  destruct b as [txt|txt|txt|txt|items|items].
  - unfold renderBlock in E.
    match type of E with
    | context [split ?p ?t ?w] => destruct (split p t w) as [lines|e]; simpl in E
    end; [|discriminate]. injection E as <-.
    pose proof (len_nonneg lines).
    replace (yPos (check s) + len lines * 20 + 10)%Z
      with (yPos (check s) + (len lines * 20 + 10))%Z by lia.
    apply (Htext "bold" 14%Z). lia.
  - unfold renderBlock in E.
    match type of E with
    | context [split ?p ?t ?w] => destruct (split p t w) as [lines|e]; simpl in E
    end; [|discriminate]. injection E as <-.
    pose proof (len_nonneg lines).
    replace (yPos (check s) + len lines * 18 + 8)%Z
      with (yPos (check s) + (len lines * 18 + 8))%Z by lia.
    apply (Htext "bold" 12%Z). lia.
  - unfold renderBlock in E.
    match type of E with
    | context [split ?p ?t ?w] => destruct (split p t w) as [lines|e]; simpl in E
    end; [|discriminate]. injection E as <-.
    pose proof (len_nonneg lines).
    replace (yPos (check s) + len lines * 16 + 6)%Z
      with (yPos (check s) + (len lines * 16 + 6))%Z by lia.
    apply (Htext "bold" 11%Z). lia.
  - unfold renderBlock in E.
    match type of E with
    | context [split ?p ?t ?w] => destruct (split p t w) as [lines|e]; simpl in E
    end; [|discriminate]. injection E as <-.
    pose proof (len_nonneg lines).
    replace (yPos (check s) + len lines * 14 + 10)%Z
      with (yPos (check s) + (len lines * 14 + 10))%Z by lia.
    apply (Htext "normal" 11%Z). lia.
  - rewrite renderBlock_BulletList in E. unfold forEach in E.
    match type of E with
    | context [forEachFrom ?f ?n ?l ?st] =>
        destruct (forEachFrom f n l st) as [s1|e] eqn:E1
    end; simpl in E; [|discriminate]. injection E as <-.
    assert (G1 : good s1).
    { eapply (@forEachFrom_invariant string Layout good (renderBulletItem W H split));
        [|apply laidOut_font with (p := pdf (check s)) (y := yPos (check s));
          now destruct (check s) | exact E1].
      intros a i x x' Hx Ex. eapply laidOut_bulletItem; eassumption. }
    apply laidOut_advance; [now destruct s1|lia].
  - rewrite renderBlock_NumberList in E. unfold forEach in E.
    match type of E with
    | context [forEachFrom ?f ?n ?l ?st] =>
        destruct (forEachFrom f n l st) as [s1|e] eqn:E1
    end; simpl in E; [|discriminate]. injection E as <-.
    assert (G1 : good s1).
    { eapply (@forEachFrom_invariant string Layout good (renderNumberItem W H split));
        [|apply laidOut_font with (p := pdf (check s)) (y := yPos (check s));
          now destruct (check s) | exact E1].
      intros a i x x' Hx Ex. eapply laidOut_numberItem; eassumption. }
    apply laidOut_advance; [now destruct s1|lia].
Qed.

End Document.

Section RunCount.

Variables W H : Q.
Variable split : jsPDF -> string -> Q -> result (list string).

Lemma forEachFrom_bullet_count items :
  forall index s s',
    forEachFrom (renderBulletItem W H split) index items s = Ok s' ->
    length (runs (pdf s')) = (length (runs (pdf s)) + 2 * length items)%nat.
Proof.
  induction items as [|item items IH]; intros index s s' E; simpl in E.
  - injection E as <-. simpl. lia.
  - destruct (renderBulletItem W H split item index s) as [s1|e] eqn:E1;
      simpl in E; [|discriminate].
    apply renderBulletItem_inv in E1. destruct E1 as (lines & _ & ->).
    rewrite (IH _ _ _ E). cbn [pdf text text1 runs length].
    rewrite !length_app, newPageIfNeeded_runs. simpl. lia.
Qed.

Lemma forEachFrom_number_count items :
  forall index s s',
    forEachFrom (renderNumberItem W H split) index items s = Ok s' ->
    length (runs (pdf s')) = (length (runs (pdf s)) + 2 * length items)%nat.
Proof.
  induction items as [|item items IH]; intros index s s' E; simpl in E.
  - injection E as <-. simpl. lia.
  - destruct (renderNumberItem W H split item index s) as [s1|e] eqn:E1;
      simpl in E; [|discriminate].
    apply renderNumberItem_inv in E1. destruct E1 as (lines & _ & ->).
    rewrite (IH _ _ _ E). cbn [pdf text text1 runs length].
    rewrite !length_app, newPageIfNeeded_runs. simpl. lia.
Qed.

Lemma renderBlock_count b index s s' :
  renderBlock W H split b index s = Ok s' ->
  length (runs (pdf s')) = (length (runs (pdf s)) + runCount b)%nat.
Proof.
  intros E. destruct b as [txt|txt|txt|txt|items|items];
    try (unfold renderBlock in E;
         match type of E with
         | context [split ?p ?t ?w] => destruct (split p t w) as [lines|e]; simpl in E
         end; [|discriminate]; injection E as <-;
         cbn [pdf text runs runCount]; rewrite length_app;
         simpl; now rewrite newPageIfNeeded_runs).
  - rewrite renderBlock_BulletList in E. unfold forEach in E.
    match type of E with
    | context [forEachFrom ?f ?n ?l ?st] =>
        destruct (forEachFrom f n l st) as [s1|e] eqn:E1
    end; simpl in E; [|discriminate]. injection E as <-.
    apply forEachFrom_bullet_count in E1. cbn [pdf runCount] in *.
    rewrite E1. simpl. now rewrite newPageIfNeeded_runs.
  - rewrite renderBlock_NumberList in E. unfold forEach in E.
    match type of E with
    | context [forEachFrom ?f ?n ?l ?st] =>
        destruct (forEachFrom f n l st) as [s1|e] eqn:E1
    end; simpl in E; [|discriminate]. injection E as <-.
    apply forEachFrom_number_count in E1. cbn [pdf runCount] in *.
    rewrite E1. simpl. now rewrite newPageIfNeeded_runs.
Qed.

Lemma forEachFrom_block_count blocks :
  forall index s s',
    forEachFrom (renderBlock W H split) index blocks s = Ok s' ->
    length (runs (pdf s'))
    = (length (runs (pdf s)) + list_sum (map runCount blocks))%nat.
Proof.
  induction blocks as [|b blocks IH]; intros index s s' E; simpl in E.
  - injection E as <-. simpl. lia.
  - destruct (renderBlock W H split b index s) as [s1|e] eqn:E1;
      simpl in E; [|discriminate].
    rewrite (IH _ _ _ E), (renderBlock_count _ _ _ E1). simpl. lia.
Qed.

End RunCount.

Lemma laidOut_titleBlock H today topic :
  laidOut H (titleBlock today topic) (titleBlock today topic).
Proof.
  unfold laidOut. split.
  - exists []. split; [now rewrite app_nil_r|constructor].
  - simpl. repeat split; repeat constructor; lia.
Qed.

(** X3.  The document [generatePDF] lays out: the title and the date line, once,
    on the first page, then the content; every block has all its [pdf.text]
    calls in the document (one for a text block, two for each list item),
    and the runs go page by page, never back to an earlier page. *)
Theorem layoutContent_title_then_content :
  forall (W H : Q) (split : jsPDF -> string -> Q -> result (list string))
         (today topic : string) (blocks : list ContentBlock) (s : Layout),
    layoutContent W H split today topic blocks = Ok s ->
    exists placed,
      runs (pdf s)
      = (mkRun 0 [topic ++ " Notes"] 40 40 "bold" 16
           :: mkRun 0 ["Generated on " ++ today] 40 65 "normal" 10
           :: placed) /\
      length placed = list_sum (map runCount blocks) /\
      pagesInOrder (runs (pdf s)) /\
      Forall (fun r => (run_page r <= currentPage (pdf s))%nat) (runs (pdf s)).
Proof.
  intros W H split today topic blocks s E. unfold layoutContent, forEach in E.
  assert (G : laidOut H (titleBlock today topic) s).
  { eapply (@forEachFrom_invariant ContentBlock Layout
              (laidOut H (titleBlock today topic)) (renderBlock W H split));
      [|apply laidOut_titleBlock|exact E].
    intros b i x x' Hx Ex. eapply laidOut_block; eassumption. }
  destruct G as ((placed & Hr & _) & Hord & Hpage & _).
  exists placed. split; [exact Hr|]. split; [|split; assumption].
  apply forEachFrom_block_count in E. rewrite Hr in E.
  rewrite length_app in E. simpl in E. lia.
Qed.

Lemma layoutContent_title_then_content_witness :
  exists s placed,
    layoutContent a4Width a4Height wideWrap "1/1/2025" "Heat"
                  [Heading1 "Heat"; NumberList fortyItems] = Ok s /\
    runs (pdf s)
    = (mkRun 0 ["Heat Notes"] 40 40 "bold" 16
         :: mkRun 0 ["Generated on 1/1/2025"] 40 65 "normal" 10 :: placed) /\
    length placed = 81%nat /\
    currentPage (pdf s) = 1%nat.
Proof.
  destruct (layoutContent a4Width a4Height wideWrap "1/1/2025" "Heat"
                          [Heading1 "Heat"; NumberList fortyItems]) as [s|e] eqn:E;
    [|vm_compute in E; discriminate].
  destruct (@layoutContent_title_then_content a4Width a4Height wideWrap "1/1/2025" "Heat"
              [Heading1 "Heat"; NumberList fortyItems] s E) as (placed & Hr & Hl & _).
  exists s, placed. split; [reflexivity|]. split; [exact Hr|]. split; [exact Hl|].
  vm_compute in E. injection E as <-. reflexivity.
Defined.

(** X4.  On a page of height at least 100, every run of the content starts at
    the margin or at a list indent (x = 40, 55 or 60), not above the top
    margin (y >= 40), and with its first line at or above
    [pageHeight - 60]. *)
Theorem layoutContent_within_margins :
  forall (W H : Q) (split : jsPDF -> string -> Q -> result (list string))
         (today topic : string) (blocks : list ContentBlock) (s : Layout),
    100 <= H ->
    layoutContent W H split today topic blocks = Ok s ->
    Forall (fun r => (run_x r = 40 \/ run_x r = 55 \/ run_x r = 60)%Z /\
                     (40 <= run_y r)%Z /\
                     inject_Z (run_y r) <= H - 60)
           (skipn 2 (runs (pdf s))).
Proof.
  intros W H split today topic blocks s HH E. unfold layoutContent, forEach in E.
  assert (G : laidOut H (titleBlock today topic) s).
  { eapply (@forEachFrom_invariant ContentBlock Layout
              (laidOut H (titleBlock today topic)) (renderBlock W H split));
      [|apply laidOut_titleBlock|exact E].
    intros b i x x' Hx Ex. eapply laidOut_block; eassumption. }
  destruct G as ((placed & Hr & Hc) & _). rewrite Hr. cbn [titleBlock pdf runs].
  simpl. eapply Forall_impl; [|exact Hc].
  intros r (Hx & Hy & Hle). auto.
Qed.

Lemma layoutContent_within_margins_witness :
  100 <= a4Height /\
  exists s,
    layoutContent a4Width a4Height wideWrap "1/1/2025" "Heat" twoParagraphs = Ok s /\
    Forall (fun r => (run_x r = 40 \/ run_x r = 55 \/ run_x r = 60)%Z /\
                     (40 <= run_y r)%Z /\
                     inject_Z (run_y r) <= a4Height - 60)
           (skipn 2 (runs (pdf s))).
Proof.
  assert (HH : 100 <= a4Height) by (unfold a4Height; lra).
  split; [exact HH|].
  destruct (layoutContent a4Width a4Height wideWrap "1/1/2025" "Heat" twoParagraphs)
    as [s|e] eqn:E; [|vm_compute in E; discriminate].
  exists s. split; [reflexivity|].
  exact (@layoutContent_within_margins a4Width a4Height wideWrap "1/1/2025" "Heat"
           twoParagraphs s HH E).
Defined.

(** ** More on the parser *)

Lemma parseNotesContent_inv parseFromString html blocks :
  parseNotesContent parseFromString html = Ok blocks ->
  exists body,
    parseFromString html = Ok body /\
    blocks = map parseElement (children (childNodes body)).
Proof.
  intros E. destruct (parseFromString html) as [body|e] eqn:Hp.
  - exists body. split; [reflexivity|].
    rewrite (parseNotesContent_map parseFromString html Hp) in E. now injection E.
  - unfold parseNotesContent in E. rewrite Hp in E. discriminate.
Qed.

Lemma parseElement_trimmed element : Forall trimmed (blockTexts (parseElement element)).
Proof.
  unfold parseElement.
  repeat match goal with
         | |- context [if ?c then _ else _] => destruct c
         end; cbn [blockTexts];
    try (constructor; [apply trim_trimmed|constructor]);
    apply Forall_forall; intros t Ht; apply in_map_iff in Ht;
    destruct Ht as (li & <- & _); apply trim_trimmed.
Qed.

(** X1.  No text of a parsed block, and no list item, starts or ends with a
    white-space character, white space being that of
    [String.prototype.trim] (the no-break space U+00A0 included). *)
Theorem parsed_texts_are_trimmed :
  forall (parseFromString : string -> result node) (html : string)
         (blocks : list ContentBlock),
    parseNotesContent parseFromString html = Ok blocks ->
    Forall (fun b => Forall trimmed (blockTexts b)) blocks.
Proof.
  intros parseFromString html blocks E.
  apply parseNotesContent_inv in E. destruct E as (body & _ & ->).
  apply Forall_forall. intros b Hb. apply in_map_iff in Hb.
  destruct Hb as (element & <- & _). apply parseElement_trimmed.
Qed.

Lemma parsed_texts_are_trimmed_witness :
  exists blocks,
    parseNotesContent paddedParser "" = Ok blocks /\
    blocks = [Paragraph "Heat"; BulletList ["a"]] /\
    Forall (fun b => Forall trimmed (blockTexts b)) blocks.
Proof.
  exists [Paragraph "Heat"; BulletList ["a"]].
  split; [reflexivity|]. split; [reflexivity|].
  apply (@parsed_texts_are_trimmed paddedParser ""). reflexivity.
Defined.

Lemma lowerChar_idem c : lowerChar (lowerChar c) = lowerChar c.
Proof. destruct c as [[] [] [] [] [] [] [] []]; reflexivity. Qed.

Lemma toLowerCase_idem s : toLowerCase (toLowerCase s) = toLowerCase s.
Proof.
  induction s as [|c s IH]; simpl; [reflexivity|]. now rewrite lowerChar_idem, IH.
Qed.

(** X2.  The classification does not depend on the case of the tag name. *)
Theorem parseElement_ignores_tag_case :
  forall (tag : string) (kids : list node),
    parseElement (ElementNode (toLowerCase tag) kids) = parseElement (ElementNode tag kids).
Proof.
  intros tag kids. unfold parseElement. cbn [tagName]. now rewrite toLowerCase_idem.
Qed.

(** ** More on the preview *)

(** X5.  How [generatePDF] ends: either one of its steps threw, and then the
    only changes are the generic error and a console message; or the state
    is left as it is (an error shown before stays), one object URL is
    created for the PDF and a window is opened on it. *)
Theorem generatePDF_outcome :
  forall (pageWidth pageHeight : Q)
         (splitTextToSize : jsPDF -> string -> Q -> result (list string))
         (parseFromString : string -> result node)
         (output : jsPDF -> result string) (today : string)
         (st : AppState) (w : World),
    (exists e,
        stepThrows pageWidth pageHeight splitTextToSize parseFromString output today st e /\
        generatePDF pageWidth pageHeight splitTextToSize parseFromString output today st w
        = (setError "Failed to generate PDF. Please try again." st,
           mkWorld (nextObjectURL w)
                   (log w ++ [EvConsoleError "Error generating PDF:"])%list)) \/
    (exists bytes,
        generatePDF pageWidth pageHeight splitTextToSize parseFromString output today st w
        = (st,
           mkWorld (S (nextObjectURL w))
                   (log w ++ [EvCreateObjectURL (nextObjectURL w)
                                                (BlobObject bytes "application/pdf");
                              EvWindowOpen (nextObjectURL w) "_blank"])%list)).
Proof.
  intros. unfold generatePDF.
  destruct (generatePDF_try pageWidth pageHeight splitTextToSize parseFromString output
                            today st w) as [w1|err] eqn:E.
  - right. destruct (@attempt_ok pageWidth pageHeight splitTextToSize parseFromString
                       output today st w w1 E) as (bytes & ->).
    now exists bytes.
  - left. exists err. split; [|reflexivity].
    exact (@attempt_stepThrows pageWidth pageHeight splitTextToSize parseFromString
             output today st w err E).
Qed.

(** X6.  Notes without a single element (plain text, say) are not an error for
    the preview: no block is parsed, the wrap is never called, and the PDF
    that is opened holds the title and the date only. *)
Theorem generatePDF_without_elements :
  forall (pageWidth pageHeight : Q)
         (splitTextToSize : jsPDF -> string -> Q -> result (list string))
         (parseFromString : string -> result node)
         (output : jsPDF -> result string) (today : string)
         (st : AppState) (w : World) (body : node) (bytes : string),
    parseFromString (notes st) = Ok body ->
    children (childNodes body) = [] ->
    output (pdf (titleBlock today (topic st))) = Ok bytes ->
    generatePDF pageWidth pageHeight splitTextToSize parseFromString output today st w
    = (st,
       mkWorld (S (nextObjectURL w))
               (log w ++ [EvCreateObjectURL (nextObjectURL w)
                                            (BlobObject bytes "application/pdf");
                          EvWindowOpen (nextObjectURL w) "_blank"])%list).
Proof.
  intros pageWidth pageHeight splitTextToSize parseFromString output today st w body
         bytes Hp Hnone Hout.
  unfold generatePDF, generatePDF_try.
  rewrite (parseNotesContent_map parseFromString (notes st) Hp), Hnone.
  cbn [map bind layoutContent forEach forEachFrom]. rewrite Hout.
  cbn [bind]. unfold createObjectURL, emit. cbn [log nextObjectURL].
  now rewrite <- app_assoc.
Qed.

Lemma generatePDF_without_elements_witness :
  (plainTextParser (notes (setNotes "Heat is energy in transit." studying))
   = Ok (ElementNode "BODY" [TextNode "Heat is energy in transit."]) /\
   children (childNodes (ElementNode "BODY" [TextNode "Heat is energy in transit."])) = [] /\
   pdfBytes (pdf (titleBlock "1/1/2025" (topic (setNotes "Heat is energy in transit."
                                                         studying)))) = Ok "%PDF-1.3") /\
  generatePDF a4Width a4Height failingWrap plainTextParser pdfBytes "1/1/2025"
              (setNotes "Heat is energy in transit." studying) emptyWorld
  = (setNotes "Heat is energy in transit." studying,
     mkWorld 1 [EvCreateObjectURL 0 (BlobObject "%PDF-1.3" "application/pdf");
                EvWindowOpen 0 "_blank"]).
Proof.
  split; [repeat split|].
  exact (@generatePDF_without_elements a4Width a4Height failingWrap plainTextParser
           pdfBytes "1/1/2025" (setNotes "Heat is energy in transit." studying) emptyWorld
           (ElementNode "BODY" [TextNode "Heat is energy in transit."]) "%PDF-1.3"
           eq_refl eq_refl eq_refl).
Defined.

(** X20.  The name of the downloaded file keeps the white space of the topic:
    for an ASCII topic without a backslash it is the topic with its
    capital letters in lower case, followed by "-notes.pdf", of the length
    of the topic plus ten. *)
Theorem downloadName_keeps_white_space :
  forall topic : string,
    isAscii topic = true ->
    hasBackslash topic = false ->
    downloadName topic = toLowerCase topic ++ "-notes.pdf" /\
    String.length (downloadName topic) = (String.length topic + 10)%nat.
Proof.
  intros topic _ Hb. rewrite (downloadName_without_backslash topic Hb).
  split; [reflexivity|].
  induction topic as [|c t IH]; [reflexivity|].
  simpl in Hb. apply orb_false_iff in Hb. destruct Hb as [_ Hb].
  simpl. f_equal. now apply IH.
Qed.

Lemma downloadName_keeps_white_space_witness :
  (isAscii "WW2  History" = true /\ hasBackslash "WW2  History" = false) /\
  downloadName "WW2  History" = "ww2  history-notes.pdf".
Proof.
  split; [split; reflexivity|].
  exact (proj1 (@downloadName_keeps_white_space "WW2  History" eq_refl eq_refl)).
Defined.

Lemma handleDownload_releases_its_url_witness :
  exists added,
    log (snd (handleDownload helpfulServer twoFiles emptyWorld)) = (log emptyWorld ++ added)%list /\
    In (EvCreateObjectURL 0 (BlobObject "%PDF-1.3" "application/pdf")) added /\
    In (EvRevokeObjectURL 0) added.
Proof.
  destruct (@handleDownload_releases_its_url helpfulServer twoFiles emptyWorld)
    as (added & Hlog & _ & Hrel & _).
  exists added. split; [exact Hlog|].
  assert (Hin : In (EvCreateObjectURL 0 (BlobObject "%PDF-1.3" "application/pdf")) added).
  { simpl in Hlog. rewrite <- Hlog. simpl. auto. }
  split; [exact Hin|]. exact (Hrel _ _ Hin).
Defined.
